(** * Lead extraction and CRM write engine: a shallow embedding

    The development follows the Python modules of the repository:
    [gemini_processor.py] (model gateway, response parser, lead validation),
    [attio_client.py] (domain lookup, payload builders, record creation
    with attribute repair), [config.py] (settings and their validation)
    and [bot.py] (the handler of a mention).  Python strings are sequences of Unicode code
    points, dictionaries of the code are finite maps, JSON documents are a
    tree type, and every outbound call (text generation, HTTP POST) goes
    through an explicit world whose answers may depend on the calls made
    so far; the calls are recorded in a trace. *)

From Stdlib Require Import ZArith NArith List String Ascii Bool Lia.
From stdpp Require Import gmap strings list.

Local Open Scope N_scope.
Set Warnings "-register-all".

(** ** Python strings *)

(** A Python [str] is a sequence of code points. *)
Definition str : Type := list N.

(** A literal of the source, written as a Rocq string (ASCII only). *)
Definition py (s : string) : str :=
  map N_of_ascii (list_ascii_of_string s).

(** The double quote, the left and the right curly quote. *)
Definition dq : N := 34.
Definition ldq : N := 8220.
Definition rdq : N := 8221.

Definition str_eqb (a b : str) : bool := bool_decide (a = b).

Fixpoint startswith (p s : str) : bool :=
  match p, s with
  | [], _ => true
  | a :: p', b :: s' => (a =? b) && startswith p' s'
  | _ :: _, [] => false
  end.

(** [needle in hay] *)
Fixpoint contains (needle hay : str) : bool :=
  startswith needle hay ||
  match hay with
  | [] => false
  | _ :: t => contains needle t
  end.

Definition is_upper (c : N) : bool := (65 <=? c) && (c <=? 90).
Definition is_lower (c : N) : bool := (97 <=? c) && (c <=? 122).

(** The lower case of the ASCII letters. *)
Definition lower_char (c : N) : N := if is_upper c then c + 32 else c.

(** The lower case as far as ASCII goes: the capitals of ASCII are put
    in lower case and every other character is kept.  This is not
    [s.lower()], which is [Unicode.lower] below: it serves to say that
    a text occurs in another, letter case apart, and to read the words
    that the validator takes in any case of the ASCII letters. *)
Definition lower (s : str) : str := map lower_char s.

(** [str.isspace] of one code point: the white space of [str.strip()]. *)
Definition is_space (c : N) : bool :=
  ((9 <=? c) && (c <=? 13)) || ((28 <=? c) && (c <=? 32)) ||
  (c =? 133) || (c =? 160) || (c =? 5760) ||
  ((8192 <=? c) && (c <=? 8202)) || (c =? 8232) || (c =? 8233) ||
  (c =? 8239) || (c =? 8287) || (c =? 12288).

Fixpoint lstrip_by (p : N -> bool) (s : str) : str :=
  match s with
  | c :: t => if p c then lstrip_by p t else s
  | [] => []
  end.

Definition strip_by (p : N -> bool) (s : str) : str :=
  rev (lstrip_by p (rev (lstrip_by p s))).

(** [s.strip()] and [s.strip(chars)] for a one-character [chars]. *)
Definition strip (s : str) : str := strip_by is_space s.
Definition strip_char (c : N) (s : str) : str := strip_by (N.eqb c) s.

(** [s.replace(old, '')] for a non-empty [old]: every non-overlapping
    occurrence, scanning from the left, is deleted.  [skip] counts the
    characters of a matched occurrence still to be dropped. *)
Fixpoint remove_go (old : str) (skip : nat) (s : str) : str :=
  match s with
  | [] => []
  | c :: t =>
      match skip with
      | S k => remove_go old k t
      | O => if startswith old s
             then remove_go old (Nat.pred (length old)) t
             else c :: remove_go old O t
      end
  end.

Definition remove_all (old s : str) : str := remove_go old O s.

(** [s.replace(c, d)] for single characters. *)
Definition replace_char (c d : N) (s : str) : str :=
  map (fun x => if x =? c then d else x) s.

(** [s.split(sep)] for a one-character separator: never empty. *)
Fixpoint split_char (sep : N) (s : str) : list str :=
  match s with
  | [] => [[]]
  | c :: t =>
      if c =? sep then [] :: split_char sep t
      else match split_char sep t with
           | seg :: rest => (c :: seg) :: rest
           | [] => [[c]]
           end
  end.

(** [sep.join(parts)] *)
Fixpoint join (sep : str) (parts : list str) : str :=
  match parts with
  | [] => []
  | [p] => p
  | p :: rest => p ++ sep ++ join sep rest
  end.

(** ** Letter case beyond ASCII *)

Module Unicode.

(** The case operations of [str] follow the Unicode character
    database of the interpreter; the tables below are those of
    Unicode 14.0, the database of CPython 3.11.  A run
    [(first, last, stride, target)] maps every [stride]-th code point
    from [first] to [last] to the code point at the same distance from
    [target]. *)

Definition in_ranges (c : N) (ranges : list (N * N)) : bool :=
  existsb (fun r => (fst r <=? c) && (c <=? snd r)) ranges.

Fixpoint mapped (c : N) (runs : list (N * N * N * N)) : option N :=
  match runs with
  | [] => None
  | (first, last, stride, target) :: rest =>
      if (first <=? c) && (c <=? last) && ((c - first) mod stride =? 0)
      then Some (target + (c - first))
      else mapped c rest
  end.

Fixpoint special (c : N) (table : list (N * str)) : option str :=
  match table with
  | [] => None
  | (k, v) :: rest => if c =? k then Some v else special c rest
  end.

(** The code points with the property Cased, by ranges. *)
Definition cased_ranges : list (N * N) :=
  [
   (65, 90); (97, 122); (170, 170); (181, 181); (186, 186); (192, 214);
   (216, 246); (248, 442); (444, 447); (452, 659); (661, 696); (704, 705);
   (736, 740); (837, 837); (880, 883); (886, 887); (890, 893); (895, 895);
   (902, 902); (904, 906); (908, 908); (910, 929); (931, 1013); (1015, 1153);
   (1162, 1327); (1329, 1366); (1376, 1416); (4256, 4293); (4295, 4295);
   (4301, 4301); (4304, 4346); (4349, 4351); (5024, 5109); (5112, 5117);
   (7296, 7304); (7312, 7354); (7357, 7359); (7424, 7615); (7680, 7957);
   (7960, 7965); (7968, 8005); (8008, 8013); (8016, 8023); (8025, 8025);
   (8027, 8027); (8029, 8029); (8031, 8061); (8064, 8116); (8118, 8124);
   (8126, 8126); (8130, 8132); (8134, 8140); (8144, 8147); (8150, 8155);
   (8160, 8172); (8178, 8180); (8182, 8188); (8305, 8305); (8319, 8319);
   (8336, 8348); (8450, 8450); (8455, 8455); (8458, 8467); (8469, 8469);
   (8473, 8477); (8484, 8484); (8486, 8486); (8488, 8488); (8490, 8493);
   (8495, 8500); (8505, 8505); (8508, 8511); (8517, 8521); (8526, 8526);
   (8544, 8575); (8579, 8580); (9398, 9449); (11264, 11492); (11499, 11502);
   (11506, 11507); (11520, 11557); (11559, 11559); (11565, 11565);
   (42560, 42605); (42624, 42653); (42786, 42887); (42891, 42894);
   (42896, 42954); (42960, 42961); (42963, 42963); (42965, 42969);
   (42997, 42998); (43000, 43002); (43824, 43866); (43868, 43880);
   (43888, 43967); (64256, 64262); (64275, 64279); (65313, 65338);
   (65345, 65370); (66560, 66639); (66736, 66771); (66776, 66811);
   (66928, 66938); (66940, 66954); (66956, 66962); (66964, 66965);
   (66967, 66977); (66979, 66993); (66995, 67001); (67003, 67004);
   (67456, 67456); (67459, 67461); (67463, 67504); (67506, 67514);
   (68736, 68786); (68800, 68850); (71840, 71903); (93760, 93823);
   (119808, 119892); (119894, 119964); (119966, 119967); (119970, 119970);
   (119973, 119974); (119977, 119980); (119982, 119993); (119995, 119995);
   (119997, 120003); (120005, 120069); (120071, 120074); (120077, 120084);
   (120086, 120092); (120094, 120121); (120123, 120126); (120128, 120132);
   (120134, 120134); (120138, 120144); (120146, 120485); (120488, 120512);
   (120514, 120538); (120540, 120570); (120572, 120596); (120598, 120628);
   (120630, 120654); (120656, 120686); (120688, 120712); (120714, 120744);
   (120746, 120770); (120772, 120779); (122624, 122633); (122635, 122654);
   (125184, 125251); (127280, 127305); (127312, 127337); (127344, 127369)
  ].

(** The code points with the property Case_Ignorable. *)
Definition case_ignorable_ranges : list (N * N) :=
  [
   (39, 39); (46, 46); (58, 58); (94, 94); (96, 96); (168, 168); (173, 173);
   (175, 175); (180, 180); (183, 184); (688, 879); (884, 885); (890, 890);
   (900, 901); (903, 903); (1155, 1161); (1369, 1369); (1375, 1375);
   (1425, 1469); (1471, 1471); (1473, 1474); (1476, 1477); (1479, 1479);
   (1524, 1524); (1536, 1541); (1552, 1562); (1564, 1564); (1600, 1600);
   (1611, 1631); (1648, 1648); (1750, 1757); (1759, 1768); (1770, 1773);
   (1807, 1807); (1809, 1809); (1840, 1866); (1958, 1968); (2027, 2037);
   (2042, 2042); (2045, 2045); (2070, 2093); (2137, 2139); (2184, 2184);
   (2192, 2193); (2200, 2207); (2249, 2306); (2362, 2362); (2364, 2364);
   (2369, 2376); (2381, 2381); (2385, 2391); (2402, 2403); (2417, 2417);
   (2433, 2433); (2492, 2492); (2497, 2500); (2509, 2509); (2530, 2531);
   (2558, 2558); (2561, 2562); (2620, 2620); (2625, 2626); (2631, 2632);
   (2635, 2637); (2641, 2641); (2672, 2673); (2677, 2677); (2689, 2690);
   (2748, 2748); (2753, 2757); (2759, 2760); (2765, 2765); (2786, 2787);
   (2810, 2815); (2817, 2817); (2876, 2876); (2879, 2879); (2881, 2884);
   (2893, 2893); (2901, 2902); (2914, 2915); (2946, 2946); (3008, 3008);
   (3021, 3021); (3072, 3072); (3076, 3076); (3132, 3132); (3134, 3136);
   (3142, 3144); (3146, 3149); (3157, 3158); (3170, 3171); (3201, 3201);
   (3260, 3260); (3263, 3263); (3270, 3270); (3276, 3277); (3298, 3299);
   (3328, 3329); (3387, 3388); (3393, 3396); (3405, 3405); (3426, 3427);
   (3457, 3457); (3530, 3530); (3538, 3540); (3542, 3542); (3633, 3633);
   (3636, 3642); (3654, 3662); (3761, 3761); (3764, 3772); (3782, 3782);
   (3784, 3789); (3864, 3865); (3893, 3893); (3895, 3895); (3897, 3897);
   (3953, 3966); (3968, 3972); (3974, 3975); (3981, 3991); (3993, 4028);
   (4038, 4038); (4141, 4144); (4146, 4151); (4153, 4154); (4157, 4158);
   (4184, 4185); (4190, 4192); (4209, 4212); (4226, 4226); (4229, 4230);
   (4237, 4237); (4253, 4253); (4348, 4348); (4957, 4959); (5906, 5908);
   (5938, 5939); (5970, 5971); (6002, 6003); (6068, 6069); (6071, 6077);
   (6086, 6086); (6089, 6099); (6103, 6103); (6109, 6109); (6155, 6159);
   (6211, 6211); (6277, 6278); (6313, 6313); (6432, 6434); (6439, 6440);
   (6450, 6450); (6457, 6459); (6679, 6680); (6683, 6683); (6742, 6742);
   (6744, 6750); (6752, 6752); (6754, 6754); (6757, 6764); (6771, 6780);
   (6783, 6783); (6823, 6823); (6832, 6862); (6912, 6915); (6964, 6964);
   (6966, 6970); (6972, 6972); (6978, 6978); (7019, 7027); (7040, 7041);
   (7074, 7077); (7080, 7081); (7083, 7085); (7142, 7142); (7144, 7145);
   (7149, 7149); (7151, 7153); (7212, 7219); (7222, 7223); (7288, 7293);
   (7376, 7378); (7380, 7392); (7394, 7400); (7405, 7405); (7412, 7412);
   (7416, 7417); (7468, 7530); (7544, 7544); (7579, 7679); (8125, 8125);
   (8127, 8129); (8141, 8143); (8157, 8159); (8173, 8175); (8189, 8190);
   (8203, 8207); (8216, 8217); (8228, 8228); (8231, 8231); (8234, 8238);
   (8288, 8292); (8294, 8303); (8305, 8305); (8319, 8319); (8336, 8348);
   (8400, 8432); (11388, 11389); (11503, 11505); (11631, 11631);
   (11647, 11647); (11744, 11775); (11823, 11823); (12293, 12293);
   (12330, 12333); (12337, 12341); (12347, 12347); (12441, 12446);
   (12540, 12542); (40981, 40981); (42232, 42237); (42508, 42508);
   (42607, 42610); (42612, 42621); (42623, 42623); (42652, 42655);
   (42736, 42737); (42752, 42785); (42864, 42864); (42888, 42890);
   (42994, 42996); (43000, 43001); (43010, 43010); (43014, 43014);
   (43019, 43019); (43045, 43046); (43052, 43052); (43204, 43205);
   (43232, 43249); (43263, 43263); (43302, 43309); (43335, 43345);
   (43392, 43394); (43443, 43443); (43446, 43449); (43452, 43453);
   (43471, 43471); (43493, 43494); (43561, 43566); (43569, 43570);
   (43573, 43574); (43587, 43587); (43596, 43596); (43632, 43632);
   (43644, 43644); (43696, 43696); (43698, 43700); (43703, 43704);
   (43710, 43711); (43713, 43713); (43741, 43741); (43756, 43757);
   (43763, 43764); (43766, 43766); (43867, 43871); (43881, 43883);
   (44005, 44005); (44008, 44008); (44013, 44013); (64286, 64286);
   (64434, 64450); (65024, 65039); (65043, 65043); (65056, 65071);
   (65106, 65106); (65109, 65109); (65279, 65279); (65287, 65287);
   (65294, 65294); (65306, 65306); (65342, 65342); (65344, 65344);
   (65392, 65392); (65438, 65439); (65507, 65507); (65529, 65531);
   (66045, 66045); (66272, 66272); (66422, 66426); (67456, 67461);
   (67463, 67504); (67506, 67514); (68097, 68099); (68101, 68102);
   (68108, 68111); (68152, 68154); (68159, 68159); (68325, 68326);
   (68900, 68903); (69291, 69292); (69446, 69456); (69506, 69509);
   (69633, 69633); (69688, 69702); (69744, 69744); (69747, 69748);
   (69759, 69761); (69811, 69814); (69817, 69818); (69821, 69821);
   (69826, 69826); (69837, 69837); (69888, 69890); (69927, 69931);
   (69933, 69940); (70003, 70003); (70016, 70017); (70070, 70078);
   (70089, 70092); (70095, 70095); (70191, 70193); (70196, 70196);
   (70198, 70199); (70206, 70206); (70367, 70367); (70371, 70378);
   (70400, 70401); (70459, 70460); (70464, 70464); (70502, 70508);
   (70512, 70516); (70712, 70719); (70722, 70724); (70726, 70726);
   (70750, 70750); (70835, 70840); (70842, 70842); (70847, 70848);
   (70850, 70851); (71090, 71093); (71100, 71101); (71103, 71104);
   (71132, 71133); (71219, 71226); (71229, 71229); (71231, 71232);
   (71339, 71339); (71341, 71341); (71344, 71349); (71351, 71351);
   (71453, 71455); (71458, 71461); (71463, 71467); (71727, 71735);
   (71737, 71738); (71995, 71996); (71998, 71998); (72003, 72003);
   (72148, 72151); (72154, 72155); (72160, 72160); (72193, 72202);
   (72243, 72248); (72251, 72254); (72263, 72263); (72273, 72278);
   (72281, 72283); (72330, 72342); (72344, 72345); (72752, 72758);
   (72760, 72765); (72767, 72767); (72850, 72871); (72874, 72880);
   (72882, 72883); (72885, 72886); (73009, 73014); (73018, 73018);
   (73020, 73021); (73023, 73029); (73031, 73031); (73104, 73105);
   (73109, 73109); (73111, 73111); (73459, 73460); (78896, 78904);
   (92912, 92916); (92976, 92982); (92992, 92995); (94031, 94031);
   (94095, 94111); (94176, 94177); (94179, 94180); (110576, 110579);
   (110581, 110587); (110589, 110590); (113821, 113822); (113824, 113827);
   (118528, 118573); (118576, 118598); (119143, 119145); (119155, 119170);
   (119173, 119179); (119210, 119213); (119362, 119364); (121344, 121398);
   (121403, 121452); (121461, 121461); (121476, 121476); (121499, 121503);
   (121505, 121519); (122880, 122886); (122888, 122904); (122907, 122913);
   (122915, 122916); (122918, 122922); (123184, 123197); (123566, 123566);
   (123628, 123631); (125136, 125142); (125252, 125259); (127995, 127999);
   (917505, 917505); (917536, 917631); (917760, 917999)
  ].

(** The lower case mappings of one code point to another, beyond ASCII. *)
Definition lower_runs : list (N * N * N * N) :=
  [
   (192, 214, 1, 224); (216, 222, 1, 248); (256, 302, 2, 257);
   (306, 310, 2, 307); (313, 327, 2, 314); (330, 374, 2, 331);
   (376, 376, 1, 255); (377, 381, 2, 378); (385, 385, 1, 595);
   (386, 388, 2, 387); (390, 390, 1, 596); (391, 391, 1, 392);
   (393, 394, 1, 598); (395, 395, 1, 396); (398, 398, 1, 477);
   (399, 399, 1, 601); (400, 400, 1, 603); (401, 401, 1, 402);
   (403, 403, 1, 608); (404, 404, 1, 611); (406, 406, 1, 617);
   (407, 407, 1, 616); (408, 408, 1, 409); (412, 412, 1, 623);
   (413, 413, 1, 626); (415, 415, 1, 629); (416, 420, 2, 417);
   (422, 422, 1, 640); (423, 423, 1, 424); (425, 425, 1, 643);
   (428, 428, 1, 429); (430, 430, 1, 648); (431, 431, 1, 432);
   (433, 434, 1, 650); (435, 437, 2, 436); (439, 439, 1, 658);
   (440, 440, 1, 441); (444, 444, 1, 445); (452, 452, 1, 454);
   (453, 453, 1, 454); (455, 455, 1, 457); (456, 456, 1, 457);
   (458, 458, 1, 460); (459, 475, 2, 460); (478, 494, 2, 479);
   (497, 497, 1, 499); (498, 500, 2, 499); (502, 502, 1, 405);
   (503, 503, 1, 447); (504, 542, 2, 505); (544, 544, 1, 414);
   (546, 562, 2, 547); (570, 570, 1, 11365); (571, 571, 1, 572);
   (573, 573, 1, 410); (574, 574, 1, 11366); (577, 577, 1, 578);
   (579, 579, 1, 384); (580, 580, 1, 649); (581, 581, 1, 652);
   (582, 590, 2, 583); (880, 882, 2, 881); (886, 886, 1, 887);
   (895, 895, 1, 1011); (902, 902, 1, 940); (904, 906, 1, 941);
   (908, 908, 1, 972); (910, 911, 1, 973); (913, 929, 1, 945);
   (931, 939, 1, 963); (975, 975, 1, 983); (984, 1006, 2, 985);
   (1012, 1012, 1, 952); (1015, 1015, 1, 1016); (1017, 1017, 1, 1010);
   (1018, 1018, 1, 1019); (1021, 1023, 1, 891); (1024, 1039, 1, 1104);
   (1040, 1071, 1, 1072); (1120, 1152, 2, 1121); (1162, 1214, 2, 1163);
   (1216, 1216, 1, 1231); (1217, 1229, 2, 1218); (1232, 1326, 2, 1233);
   (1329, 1366, 1, 1377); (4256, 4293, 1, 11520); (4295, 4295, 1, 11559);
   (4301, 4301, 1, 11565); (5024, 5103, 1, 43888); (5104, 5109, 1, 5112);
   (7312, 7354, 1, 4304); (7357, 7359, 1, 4349); (7680, 7828, 2, 7681);
   (7838, 7838, 1, 223); (7840, 7934, 2, 7841); (7944, 7951, 1, 7936);
   (7960, 7965, 1, 7952); (7976, 7983, 1, 7968); (7992, 7999, 1, 7984);
   (8008, 8013, 1, 8000); (8025, 8031, 2, 8017); (8040, 8047, 1, 8032);
   (8072, 8079, 1, 8064); (8088, 8095, 1, 8080); (8104, 8111, 1, 8096);
   (8120, 8121, 1, 8112); (8122, 8123, 1, 8048); (8124, 8124, 1, 8115);
   (8136, 8139, 1, 8050); (8140, 8140, 1, 8131); (8152, 8153, 1, 8144);
   (8154, 8155, 1, 8054); (8168, 8169, 1, 8160); (8170, 8171, 1, 8058);
   (8172, 8172, 1, 8165); (8184, 8185, 1, 8056); (8186, 8187, 1, 8060);
   (8188, 8188, 1, 8179); (8486, 8486, 1, 969); (8490, 8490, 1, 107);
   (8491, 8491, 1, 229); (8498, 8498, 1, 8526); (8544, 8559, 1, 8560);
   (8579, 8579, 1, 8580); (9398, 9423, 1, 9424); (11264, 11311, 1, 11312);
   (11360, 11360, 1, 11361); (11362, 11362, 1, 619); (11363, 11363, 1, 7549);
   (11364, 11364, 1, 637); (11367, 11371, 2, 11368); (11373, 11373, 1, 593);
   (11374, 11374, 1, 625); (11375, 11375, 1, 592); (11376, 11376, 1, 594);
   (11378, 11378, 1, 11379); (11381, 11381, 1, 11382);
   (11390, 11391, 1, 575); (11392, 11490, 2, 11393);
   (11499, 11501, 2, 11500); (11506, 11506, 1, 11507);
   (42560, 42604, 2, 42561); (42624, 42650, 2, 42625);
   (42786, 42798, 2, 42787); (42802, 42862, 2, 42803);
   (42873, 42875, 2, 42874); (42877, 42877, 1, 7545);
   (42878, 42886, 2, 42879); (42891, 42891, 1, 42892);
   (42893, 42893, 1, 613); (42896, 42898, 2, 42897);
   (42902, 42920, 2, 42903); (42922, 42922, 1, 614); (42923, 42923, 1, 604);
   (42924, 42924, 1, 609); (42925, 42925, 1, 620); (42926, 42926, 1, 618);
   (42928, 42928, 1, 670); (42929, 42929, 1, 647); (42930, 42930, 1, 669);
   (42931, 42931, 1, 43859); (42932, 42946, 2, 42933);
   (42948, 42948, 1, 42900); (42949, 42949, 1, 642); (42950, 42950, 1, 7566);
   (42951, 42953, 2, 42952); (42960, 42960, 1, 42961);
   (42966, 42968, 2, 42967); (42997, 42997, 1, 42998);
   (65313, 65338, 1, 65345); (66560, 66599, 1, 66600);
   (66736, 66771, 1, 66776); (66928, 66938, 1, 66967);
   (66940, 66954, 1, 66979); (66956, 66962, 1, 66995);
   (66964, 66965, 1, 67003); (68736, 68786, 1, 68800);
   (71840, 71871, 1, 71872); (93760, 93791, 1, 93792);
   (125184, 125217, 1, 125218)
  ].

(** The lower case mappings to more than one code point. *)
Definition lower_special : list (N * str) :=
  [
   (304, [105; 775])
  ].

(** The title case mappings of one code point to another, beyond ASCII. *)
Definition title_runs : list (N * N * N * N) :=
  [
   (181, 181, 1, 924); (224, 246, 1, 192); (248, 254, 1, 216);
   (255, 255, 1, 376); (257, 303, 2, 256); (305, 305, 1, 73);
   (307, 311, 2, 306); (314, 328, 2, 313); (331, 375, 2, 330);
   (378, 382, 2, 377); (383, 383, 1, 83); (384, 384, 1, 579);
   (387, 389, 2, 386); (392, 392, 1, 391); (396, 396, 1, 395);
   (402, 402, 1, 401); (405, 405, 1, 502); (409, 409, 1, 408);
   (410, 410, 1, 573); (414, 414, 1, 544); (417, 421, 2, 416);
   (424, 424, 1, 423); (429, 429, 1, 428); (432, 432, 1, 431);
   (436, 438, 2, 435); (441, 441, 1, 440); (445, 445, 1, 444);
   (447, 447, 1, 503); (452, 452, 1, 453); (454, 454, 1, 453);
   (455, 455, 1, 456); (457, 457, 1, 456); (458, 458, 1, 459);
   (460, 476, 2, 459); (477, 477, 1, 398); (479, 495, 2, 478);
   (497, 497, 1, 498); (499, 501, 2, 498); (505, 543, 2, 504);
   (547, 563, 2, 546); (572, 572, 1, 571); (575, 576, 1, 11390);
   (578, 578, 1, 577); (583, 591, 2, 582); (592, 592, 1, 11375);
   (593, 593, 1, 11373); (594, 594, 1, 11376); (595, 595, 1, 385);
   (596, 596, 1, 390); (598, 599, 1, 393); (601, 601, 1, 399);
   (603, 603, 1, 400); (604, 604, 1, 42923); (608, 608, 1, 403);
   (609, 609, 1, 42924); (611, 611, 1, 404); (613, 613, 1, 42893);
   (614, 614, 1, 42922); (616, 616, 1, 407); (617, 617, 1, 406);
   (618, 618, 1, 42926); (619, 619, 1, 11362); (620, 620, 1, 42925);
   (623, 623, 1, 412); (625, 625, 1, 11374); (626, 626, 1, 413);
   (629, 629, 1, 415); (637, 637, 1, 11364); (640, 640, 1, 422);
   (642, 642, 1, 42949); (643, 643, 1, 425); (647, 647, 1, 42929);
   (648, 648, 1, 430); (649, 649, 1, 580); (650, 651, 1, 433);
   (652, 652, 1, 581); (658, 658, 1, 439); (669, 669, 1, 42930);
   (670, 670, 1, 42928); (837, 837, 1, 921); (881, 883, 2, 880);
   (887, 887, 1, 886); (891, 893, 1, 1021); (940, 940, 1, 902);
   (941, 943, 1, 904); (945, 961, 1, 913); (962, 962, 1, 931);
   (963, 971, 1, 931); (972, 972, 1, 908); (973, 974, 1, 910);
   (976, 976, 1, 914); (977, 977, 1, 920); (981, 981, 1, 934);
   (982, 982, 1, 928); (983, 983, 1, 975); (985, 1007, 2, 984);
   (1008, 1008, 1, 922); (1009, 1009, 1, 929); (1010, 1010, 1, 1017);
   (1011, 1011, 1, 895); (1013, 1013, 1, 917); (1016, 1016, 1, 1015);
   (1019, 1019, 1, 1018); (1072, 1103, 1, 1040); (1104, 1119, 1, 1024);
   (1121, 1153, 2, 1120); (1163, 1215, 2, 1162); (1218, 1230, 2, 1217);
   (1231, 1231, 1, 1216); (1233, 1327, 2, 1232); (1377, 1414, 1, 1329);
   (5112, 5117, 1, 5104); (7296, 7296, 1, 1042); (7297, 7297, 1, 1044);
   (7298, 7298, 1, 1054); (7299, 7300, 1, 1057); (7301, 7301, 1, 1058);
   (7302, 7302, 1, 1066); (7303, 7303, 1, 1122); (7304, 7304, 1, 42570);
   (7545, 7545, 1, 42877); (7549, 7549, 1, 11363); (7566, 7566, 1, 42950);
   (7681, 7829, 2, 7680); (7835, 7835, 1, 7776); (7841, 7935, 2, 7840);
   (7936, 7943, 1, 7944); (7952, 7957, 1, 7960); (7968, 7975, 1, 7976);
   (7984, 7991, 1, 7992); (8000, 8005, 1, 8008); (8017, 8023, 2, 8025);
   (8032, 8039, 1, 8040); (8048, 8049, 1, 8122); (8050, 8053, 1, 8136);
   (8054, 8055, 1, 8154); (8056, 8057, 1, 8184); (8058, 8059, 1, 8170);
   (8060, 8061, 1, 8186); (8064, 8071, 1, 8072); (8080, 8087, 1, 8088);
   (8096, 8103, 1, 8104); (8112, 8113, 1, 8120); (8115, 8115, 1, 8124);
   (8126, 8126, 1, 921); (8131, 8131, 1, 8140); (8144, 8145, 1, 8152);
   (8160, 8161, 1, 8168); (8165, 8165, 1, 8172); (8179, 8179, 1, 8188);
   (8526, 8526, 1, 8498); (8560, 8575, 1, 8544); (8580, 8580, 1, 8579);
   (9424, 9449, 1, 9398); (11312, 11359, 1, 11264); (11361, 11361, 1, 11360);
   (11365, 11365, 1, 570); (11366, 11366, 1, 574); (11368, 11372, 2, 11367);
   (11379, 11379, 1, 11378); (11382, 11382, 1, 11381);
   (11393, 11491, 2, 11392); (11500, 11502, 2, 11499);
   (11507, 11507, 1, 11506); (11520, 11557, 1, 4256);
   (11559, 11559, 1, 4295); (11565, 11565, 1, 4301);
   (42561, 42605, 2, 42560); (42625, 42651, 2, 42624);
   (42787, 42799, 2, 42786); (42803, 42863, 2, 42802);
   (42874, 42876, 2, 42873); (42879, 42887, 2, 42878);
   (42892, 42892, 1, 42891); (42897, 42899, 2, 42896);
   (42900, 42900, 1, 42948); (42903, 42921, 2, 42902);
   (42933, 42947, 2, 42932); (42952, 42954, 2, 42951);
   (42961, 42961, 1, 42960); (42967, 42969, 2, 42966);
   (42998, 42998, 1, 42997); (43859, 43859, 1, 42931);
   (43888, 43967, 1, 5024); (65345, 65370, 1, 65313);
   (66600, 66639, 1, 66560); (66776, 66811, 1, 66736);
   (66967, 66977, 1, 66928); (66979, 66993, 1, 66940);
   (66995, 67001, 1, 66956); (67003, 67004, 1, 66964);
   (68800, 68850, 1, 68736); (71872, 71903, 1, 71840);
   (93792, 93823, 1, 93760); (125218, 125251, 1, 125184)
  ].

(** The title case mappings to more than one code point. *)
Definition title_special : list (N * str) :=
  [
   (223, [83; 115]); (329, [700; 78]); (496, [74; 780]);
   (912, [921; 776; 769]); (944, [933; 776; 769]); (1415, [1333; 1410]);
   (7830, [72; 817]); (7831, [84; 776]); (7832, [87; 778]);
   (7833, [89; 778]); (7834, [65; 702]); (8016, [933; 787]);
   (8018, [933; 787; 768]); (8020, [933; 787; 769]); (8022, [933; 787; 834]);
   (8114, [8122; 837]); (8116, [902; 837]); (8118, [913; 834]);
   (8119, [913; 834; 837]); (8130, [8138; 837]); (8132, [905; 837]);
   (8134, [919; 834]); (8135, [919; 834; 837]); (8146, [921; 776; 768]);
   (8147, [921; 776; 769]); (8150, [921; 834]); (8151, [921; 776; 834]);
   (8162, [933; 776; 768]); (8163, [933; 776; 769]); (8164, [929; 787]);
   (8166, [933; 834]); (8167, [933; 776; 834]); (8178, [8186; 837]);
   (8180, [911; 837]); (8182, [937; 834]); (8183, [937; 834; 837]);
   (64256, [70; 102]); (64257, [70; 105]); (64258, [70; 108]);
   (64259, [70; 102; 105]); (64260, [70; 102; 108]); (64261, [83; 116]);
   (64262, [83; 116]); (64275, [1348; 1398]); (64276, [1348; 1381]);
   (64277, [1348; 1387]); (64278, [1358; 1398]); (64279, [1348; 1389])
  ].

Definition is_cased (c : N) : bool := in_ranges c cased_ranges.

Definition is_case_ignorable (c : N) : bool := in_ranges c case_ignorable_ranges.

(** The full lower case mapping of one code point. *)
Definition to_lower_full (c : N) : str :=
  if c <? 128 then [if is_upper c then c + 32 else c]
  else
    match special c lower_special with
    | Some s => s
    | None => [default c (mapped c lower_runs)]
    end.

(** The full title case mapping of one code point. *)
Definition to_title_full (c : N) : str :=
  if c <? 128 then [if is_lower c then c - 32 else c]
  else
    match special c title_special with
    | Some s => s
    | None => [default c (mapped c title_runs)]
    end.

(** Whether a capital sigma is at the end of a word: the nearest
    character before it that can be cased is cased, and the nearest
    one after it, if any, is not.  [before] lists the characters before
    the sigma, the nearest first. *)
Definition final_sigma (before after : str) : bool :=
  match lstrip_by is_case_ignorable before with
  | [] => false
  | c :: _ =>
      is_cased c &&
      match lstrip_by is_case_ignorable after with
      | [] => true
      | d :: _ => negb (is_cased d)
      end
  end.

(** The lower case of the character [c] where it stands. *)
Definition lower_at (before : str) (c : N) (after : str) : str :=
  if c =? 931 then [if final_sigma before after then 962 else 963]
  else to_lower_full c.

Fixpoint lower_from (before s : str) : str :=
  match s with
  | [] => []
  | c :: t => lower_at before c t ++ lower_from (c :: before) t
  end.

(** [s.lower()] *)
Definition lower (s : str) : str := lower_from [] s.

Fixpoint title_from (previous_is_cased : bool) (before s : str) : str :=
  match s with
  | [] => []
  | c :: t =>
      (if previous_is_cased then lower_at before c t else to_title_full c)
        ++ title_from (is_cased c) (c :: before) t
  end.

(** [s.title()] *)
Definition title (s : str) : str := title_from false [] s.

(** [s.capitalize()] *)
Definition capitalize (s : str) : str :=
  match s with
  | [] => []
  | c :: t => to_title_full c ++ lower_from [c] t
  end.

End Unicode.

(** [s.capitalize()] *)
Definition capitalize (s : str) : str := Unicode.capitalize s.

(** Decimal digits of a natural number, as [str(n)] prints them. *)
Fixpoint digits_go (fuel : nat) (n : N) (acc : str) : str :=
  match fuel with
  | O => acc
  | S f =>
      let acc' := (48 + n mod 10) :: acc in
      if n / 10 =? 0 then acc' else digits_go f (n / 10) acc'
  end.

Definition str_of_N (n : N) : str := digits_go (S (N.to_nat (N.log2 n))) n [].


(** ** Python numbers *)

(** A Python [float] (IEEE binary64): not-a-number, an infinity, or the
    finite value [m * 2^e]. *)
Inductive pyfloat :=
| FNan
| FInf (negative : bool)
| FFin (m e : Z).

(** The position of the leading bit of [n / d], for positive [n], [d]. *)
Definition floor_log2_ratio (n d : Z) : Z :=
  let k := (Z.log2 n - Z.log2 d)%Z in
  if (0 <=? k)%Z
  then (if (d * 2 ^ k <=? n)%Z then k else k - 1)%Z
  else (if (d <=? n * 2 ^ (- k))%Z then k else k - 1)%Z.

(** Division rounded to the nearest integer, ties to even. *)
Definition div_half_even (a b : Z) : Z :=
  let q := (a / b)%Z in
  let r := (a mod b)%Z in
  match (2 * r ?= b)%Z with
  | Lt => q
  | Gt => (q + 1)%Z
  | Eq => if Z.even q then q else (q + 1)%Z
  end.

(** The binary64 value nearest to [(-1)^neg * n / d], as [float(...)]
    and the JSON decoder compute it ([n >= 0], [d > 0]). *)
Definition float_of_ratio (neg : bool) (n d : Z) : pyfloat :=
  if (n =? 0)%Z then FFin 0 0
  else
    let p := Z.max (floor_log2_ratio n d - 52) (-1074) in
    let q := if (0 <=? p)%Z
             then div_half_even n (d * 2 ^ p)
             else div_half_even (n * 2 ^ (- p)) d in
    if (2 ^ 1024 <=? q * 2 ^ Z.max p 0)%Z && (0 <=? p)%Z
    then FInf neg
    else FFin (if neg then - q else q) p.

Definition float_of_Z (z : Z) : pyfloat :=
  float_of_ratio (z <? 0)%Z (Z.abs z) 1.

(** [m * 10^e10] as a float. *)
Definition float_of_decimal (neg : bool) (m e10 : Z) : pyfloat :=
  if (0 <=? e10)%Z
  then float_of_ratio neg (m * 10 ^ e10) 1
  else float_of_ratio neg m (10 ^ (- e10)).

(** [bool(x)] of a float. *)
Definition float_truthy (x : pyfloat) : bool :=
  match x with
  | FFin m _ => negb (m =? 0)%Z
  | _ => true
  end.

(** [int(x)] of a float truncates towards zero; it raises on the
    infinities and on not-a-number. *)
Definition float_trunc (x : pyfloat) : option Z :=
  match x with
  | FFin m e => Some (if (0 <=? e)%Z then m * 2 ^ e else Z.quot m (2 ^ (- e)))%Z
  | _ => None
  end.

(** ** JSON documents and [json.loads] *)

(** A decoded JSON document, which is also the shape of every request
    payload the client builds.  Objects keep their keys in insertion
    order, as Python dictionaries do. *)
Inductive json :=
| JNull
| JBool (b : bool)
| JInt (z : Z)
| JFloat (x : pyfloat)
| JStr (s : str)
| JList (items : list json)
| JObj (fields : list (str * json)).

(** [d.get(k)] on the fields of an object. *)
Fixpoint assoc (k : str) (fields : list (str * json)) : option json :=
  match fields with
  | [] => None
  | (k', v) :: rest => if str_eqb k k' then Some v else assoc k rest
  end.

(** [d[k] = v]: an existing key keeps its place, a new one goes last. *)
Fixpoint assoc_set (k : str) (v : json) (fields : list (str * json))
  : list (str * json) :=
  match fields with
  | [] => [(k, v)]
  | (k', v') :: rest =>
      if str_eqb k k' then (k, v) :: rest else (k', v') :: assoc_set k v rest
  end.

(** [bool(v)] *)
Definition truthy (v : json) : bool :=
  match v with
  | JNull => false
  | JBool b => b
  | JInt z => negb (z =? 0)%Z
  | JFloat x => float_truthy x
  | JStr s => negb (str_eqb s [])
  | JList l => match l with [] => false | _ => true end
  | JObj l => match l with [] => false | _ => true end
  end.

Module JsonDecoder.

(** The decoder of Python's [json] module, from its documentation:
    white space is space, tab, line feed and carriage return; numbers
    follow the JSON grammar and the three extra literals [NaN],
    [Infinity] and [-Infinity] are accepted; strings are strict (no
    raw control character); a repeated key keeps its last value.

    The decoder raises [JSONDecodeError] on a text that is not JSON.
    It raises another exception where it meets a limit of the
    interpreter: [ValueError] on an integer of more than 4300 digits
    (the default of [sys.set_int_max_str_digits]), and
    [RecursionError] where arrays and objects nest deeper than the
    interpreter lets calls nest.  The first thing that goes wrong, in
    the order of the text, is what is raised. *)

Inductive decoding (A : Type) :=
| Decoded (a : A)
| DecodeError
| Refused (class_name : string).
Arguments Decoded {A} a.
Arguments DecodeError {A}.
Arguments Refused {A} class_name.

(** [sys.int_info.default_max_str_digits] *)
Definition max_str_digits : nat := 4300.

(** [sys.getrecursionlimit()], by default.  The calls in progress when
    the decoder starts count against the limit as well; how many they
    are is not a matter of the text, and the decoder is given the
    whole limit here. *)
Definition recursion_limit : nat := 1000.

Definition is_ws (c : N) : bool :=
  (c =? 32) || (c =? 9) || (c =? 10) || (c =? 13).

Definition skip_ws (s : str) : str := lstrip_by is_ws s.

Definition is_digit (c : N) : bool := (48 <=? c) && (c <=? 57).

Definition hex_val (c : N) : option N :=
  if is_digit c then Some (c - 48)
  else if (97 <=? c) && (c <=? 102) then Some (c - 87)
  else if (65 <=? c) && (c <=? 70) then Some (c - 55)
  else None.

(** Four hexadecimal digits of a [\u] escape. *)
Definition hex4 (s : str) : option (N * str) :=
  match s with
  | a :: b :: c :: d :: rest =>
      match hex_val a, hex_val b, hex_val c, hex_val d with
      | Some x, Some y, Some z, Some w =>
          Some (((x * 16 + y) * 16 + z) * 16 + w, rest)
      | _, _, _, _ => None
      end
  | _ => None
  end.

(** The body of a string, after its opening quote. *)
Fixpoint scan_string (fuel : nat) (s : str) (acc : str) : option (str * str) :=
  match fuel with
  | O => None
  | S f =>
      match s with
      | [] => None
      | 34 :: rest => Some (rev acc, rest)
      | 92 :: e :: rest =>
          match e with
          | 34 => scan_string f rest (34 :: acc)
          | 92 => scan_string f rest (92 :: acc)
          | 47 => scan_string f rest (47 :: acc)
          | 98 => scan_string f rest (8 :: acc)
          | 102 => scan_string f rest (12 :: acc)
          | 110 => scan_string f rest (10 :: acc)
          | 114 => scan_string f rest (13 :: acc)
          | 116 => scan_string f rest (9 :: acc)
          | 117 =>
              match hex4 rest with
              | Some (u, rest') =>
                  match rest' with
                  | 92 :: 117 :: rest'' =>
                      match hex4 rest'' with
                      | Some (u2, rest3) =>
                          if (55296 <=? u) && (u <=? 56319) &&
                             (56320 <=? u2) && (u2 <=? 57343)
                          then scan_string f rest3
                                 ((65536 + (u - 55296) * 1024 + (u2 - 56320)) :: acc)
                          else scan_string f rest' (u :: acc)
                      | None => scan_string f rest' (u :: acc)
                      end
                  | _ => scan_string f rest' (u :: acc)
                  end
              | None => None
              end
          | _ => None
          end
      | [92] => None
      | c :: rest => if c <? 32 then None else scan_string f rest (c :: acc)
      end
  end.

(** A maximal run of decimal digits and its value. *)
Fixpoint scan_digits (s : str) (acc : Z) (count : nat) : Z * nat * str :=
  match s with
  | c :: rest =>
      if is_digit c
      then scan_digits rest (acc * 10 + Z.of_N (c - 48))%Z (S count)
      else (acc, count, s)
  | [] => (acc, count, s)
  end.

(** The integer part: [0] or a digit run without leading zero; its
    value, the number of its digits, and the rest. *)
Definition scan_int (s : str) : option (Z * nat * str) :=
  match s with
  | 48 :: rest => Some (0%Z, 1%nat, rest)
  | c :: _ =>
      if is_digit c
      then Some (scan_digits s 0%Z O)
      else None
  | [] => None
  end.

(** The optional fraction: the digits read as one integer, how many
    there are, and the rest. *)
Definition scan_frac (s : str) : option (Z * nat * str) :=
  match s with
  | 46 :: rest =>
      let '(v, n, rest') := scan_digits rest 0%Z O in
      match n with O => None | _ => Some (v, n, rest') end
  | _ => None
  end.

(** The optional exponent. *)
Definition scan_exp (s : str) : option (Z * str) :=
  match s with
  | e :: rest =>
      if (e =? 101) || (e =? 69)
      then
        let '(neg, rest1) :=
          match rest with
          | 45 :: r => (true, r)
          | 43 :: r => (false, r)
          | _ => (false, rest)
          end in
        let '(v, n, rest2) := scan_digits rest1 0%Z O in
        match n with
        | O => None
        | _ => Some (if neg then (- v)%Z else v, rest2)
        end
      else None
  | [] => None
  end.

(** A number: an [int] when it has neither fraction nor exponent, and
    then of [max_str_digits] digits at most. *)
Definition scan_number (s : str) : decoding (json * str) :=
  let '(neg, s1) := match s with 45 :: r => (true, r) | _ => (false, s) end in
  match scan_int s1 with
  | None => DecodeError
  | Some (i, digits, s2) =>
      match scan_frac s2 with
      | Some (fr, n, s3) =>
          let m := (i * 10 ^ Z.of_nat n + fr)%Z in
          match scan_exp s3 with
          | Some (e, s4) =>
              Decoded (JFloat (float_of_decimal neg m (e - Z.of_nat n)), s4)
          | None =>
              Decoded (JFloat (float_of_decimal neg m (- Z.of_nat n)), s3)
          end
      | None =>
          match scan_exp s2 with
          | Some (e, s4) => Decoded (JFloat (float_of_decimal neg i e), s4)
          | None =>
              if (max_str_digits <? digits)%nat then Refused "ValueError"
              else Decoded (JInt (if neg then (- i)%Z else i), s2)
          end
      end
  end.

(** A literal [lit] standing at the head of the input. *)
Definition scan_lit (lit : string) (v : json) (s : str) : decoding (json * str) :=
  if startswith (py lit) s
  then Decoded (v, drop (length (py lit)) s)
  else DecodeError.

(** One value; [scan_items] reads the rest of an array after its
    opening bracket and [scan_members] the rest of an object.  The
    input of each is already free of leading white space.  [depth] is
    how many arrays and objects may still be opened inside one
    another. *)
Fixpoint scan_value (fuel depth : nat) (s : str) : decoding (json * str) :=
  match fuel with
  | O => DecodeError
  | S f =>
      match s with
      | 34 :: rest =>
          match scan_string (S (length rest)) rest [] with
          | Some (t, rest') => Decoded (JStr t, rest')
          | None => DecodeError
          end
      | 123 :: rest =>
          match depth with
          | O => Refused "RecursionError"
          | S d =>
              match skip_ws rest with
              | 125 :: rest' => Decoded (JObj [], rest')
              | rest' => scan_members f d rest' []
              end
          end
      | 91 :: rest =>
          match depth with
          | O => Refused "RecursionError"
          | S d =>
              match skip_ws rest with
              | 93 :: rest' => Decoded (JList [], rest')
              | rest' => scan_items f d rest' []
              end
          end
      | 110 :: _ => scan_lit "null" JNull s
      | 116 :: _ => scan_lit "true" (JBool true) s
      | 102 :: _ => scan_lit "false" (JBool false) s
      | 78 :: _ => scan_lit "NaN" (JFloat FNan) s
      | 73 :: _ => scan_lit "Infinity" (JFloat (FInf false)) s
      | _ =>
          match scan_number s with
          | DecodeError => scan_lit "-Infinity" (JFloat (FInf true)) s
          | r => r
          end
      end
  end
with scan_items (fuel depth : nat) (s : str) (acc : list json)
  : decoding (json * str) :=
  match fuel with
  | O => DecodeError
  | S f =>
      match scan_value f depth s with
      | Decoded (v, rest) =>
          match skip_ws rest with
          | 44 :: rest' => scan_items f depth (skip_ws rest') (v :: acc)
          | 93 :: rest' => Decoded (JList (rev (v :: acc)), rest')
          | _ => DecodeError
          end
      | r => r
      end
  end
with scan_members (fuel depth : nat) (s : str) (acc : list (str * json))
  : decoding (json * str) :=
  match fuel with
  | O => DecodeError
  | S f =>
      match s with
      | 34 :: rest =>
          match scan_string (S (length rest)) rest [] with
          | None => DecodeError
          | Some (k, rest1) =>
              match skip_ws rest1 with
              | 58 :: rest2 =>
                  match scan_value f depth (skip_ws rest2) with
                  | Decoded (v, rest3) =>
                      match skip_ws rest3 with
                      | 44 :: rest4 =>
                          scan_members f depth (skip_ws rest4) (assoc_set k v acc)
                      | 125 :: rest4 => Decoded (JObj (assoc_set k v acc), rest4)
                      | _ => DecodeError
                      end
                  | r => r
                  end
              | _ => DecodeError
              end
          end
      | _ => DecodeError
      end
  end.

(** [json.loads(text)]: one value between optional white space, and
    nothing else; a leading byte order mark is refused. *)
Definition loads (text : str) : decoding json :=
  match text with
  | 65279 :: _ => DecodeError
  | _ =>
      match scan_value (2 * length text + 2) recursion_limit (skip_ws text) with
      | Decoded (v, rest) =>
          match skip_ws rest with
          | [] => Decoded v
          | _ => DecodeError
          end
      | DecodeError => DecodeError
      | Refused class_name => Refused class_name
      end
  end.

End JsonDecoder.

(** ** The two regular expressions of the code *)

Module Regex.

(** The suffix of [s] that starts at the first [c]. *)
Fixpoint from_first (c : N) (s : str) : option str :=
  match s with
  | [] => None
  | x :: t => if x =? c then Some s else from_first c t
  end.

(** The prefix of [s] that ends at the last [c]. *)
Definition upto_last (c : N) (s : str) : option str :=
  match from_first c (rev s) with
  | Some r => Some (rev r)
  | None => None
  end.

(** [re.search(r'\{.*\}', text, re.DOTALL)], the matched text: the
    search stops at the leftmost opening brace for which a match
    exists, and the greedy [.*], which crosses line ends, runs to the
    last closing brace of the text.  When the leftmost opening brace
    has no closing brace after it, no later one has. *)
Definition search_braces (text : str) : option str :=
  match from_first 123 text with
  | Some (b :: t) =>
      match upto_last 125 t with
      | Some body => Some (b :: body)
      | None => None
      end
  | _ => None
  end.

(** The character classes of the missing-attribute pattern: the
    opening one admits the two ASCII quotes and the left curly quote,
    the closing one (and the negated class of the group) the two
    ASCII quotes and the right curly quote. *)
Definition is_open_quote (c : N) : bool :=
  (c =? 34) || (c =? 39) || (c =? 8220).
Definition is_close_quote (c : N) : bool :=
  (c =? 34) || (c =? 39) || (c =? 8221).

(** The longest prefix free of closing quotes, and the rest. *)
Fixpoint span_group (s : str) : str * str :=
  match s with
  | c :: t =>
      if is_close_quote c then ([], s)
      else let '(g, r) := span_group t in (c :: g, r)
  | [] => ([], [])
  end.

Definition missing_prefix : str := py "Cannot find attribute with slug/ID ".

(** A match of the pattern at the head of [s], returning group 1.
    The group is greedy over characters that cannot close it, so it
    is the whole run up to the first closing quote; giving characters
    back never helps, the character after a shorter run being one of
    the run. *)
Definition match_missing (s : str) : option str :=
  if startswith missing_prefix s then
    match drop (length missing_prefix) s with
    | q :: t =>
        if is_open_quote q then
          match span_group t with
          | ((_ :: _) as g, _ :: _) => Some g
          | _ => None
          end
        else None
    | [] => None
    end
  else None.

(** [re.search(pattern, s)] followed by [match.group(1)] for the
    pattern
    [Cannot find attribute with slug/ID [QUOTE]([^QUOTE]+)[QUOTE]]:
    the leftmost position at which the pattern matches. *)
Fixpoint search_missing (s : str) : option str :=
  match match_missing s with
  | Some g => Some g
  | None =>
      match s with
      | [] => None
      | _ :: t => search_missing t
      end
  end.

End Regex.

(** ** The outside world *)

(** What [model.generate_content(prompt)] followed by [response.text]
    does: it yields a text or raises, and [str] of the exception is
    [msg]. *)
Inductive gen_reply :=
| GenText (text : str)
| GenRaise (msg : str).

(** An HTTP response: status code, reason phrase, and what
    [response.json()] makes of the body: the decoded document, or the
    message of the decoding error. *)
Record response := {
  status_code : N;
  reason : str;
  body : str + json
}.

(** What [requests.post(url, json=payload, ...)] does: it returns a
    response or raises a [RequestException] that carries none (time
    out, connection failure). *)
Inductive http_reply :=
| HttpResponse (r : response)
| HttpRaise (msg : str).

(** The outbound calls, in the order they are made. *)
Inductive event :=
| Generate (model_name prompt : str)
| Post (url : str) (payload : json).

(** The collaborators: each answer may depend on the calls already
    made. *)
Record world := {
  generate_content : list event -> str -> str -> gen_reply;
  requests_post : list event -> str -> json -> http_reply
}.

(** ** Exceptions and the monad of effects *)

(** Why one field of a lead did not validate. *)
Inductive field_problem := Missing | WrongType.

(** A formatted message, kept as the pieces of the f-string that built
    it: literal text, and [str(x)] of values whose printed form is the
    business of the interpreter or of a library. *)
Inductive part :=
| Txt (s : str)
| StrOfValue (v : json)
| StrOfValidation (errors : list (string * field_problem))
| StrOfError (class_name : string).

Definition message : Type := list part.

(** Adjacent literal pieces are one piece. *)
Fixpoint fstring (parts : list part) : message :=
  match parts with
  | [] => []
  | Txt a :: rest =>
      match fstring rest with
      | Txt b :: rest' => Txt (a ++ b) :: rest'
      | rest' => Txt a :: rest'
      end
  | p :: rest => p :: fstring rest
  end.

Inductive exn :=
| GeminiProcessingError (msg : message)
| AttioAPIError (msg : message)
| RequestException (msg : str) (resp : option response)
| ValidationError (errors : list (string * field_problem))
| PyError (class_name : string).

(** [str(e)] *)
Definition str_of_exn (e : exn) : message :=
  match e with
  | GeminiProcessingError m => m
  | AttioAPIError m => m
  | RequestException m _ => [Txt m]
  | ValidationError errs => [StrOfValidation errs]
  | PyError c => [StrOfError c]
  end.

(** How a call ends.  [OutOfFuel] is not an outcome of the program: it
    marks a recursion of the model that was cut short. *)
Inductive outcome (A : Type) :=
| Return (a : A)
| Raise (e : exn)
| OutOfFuel.
Arguments Return {A} a.
Arguments Raise {A} e.
Arguments OutOfFuel {A}.

(** A computation reads the world and extends the trace of calls. *)
Definition M (A : Type) : Type := world -> list event -> outcome A * list event.

Definition ret {A} (a : A) : M A := fun _ tr => (Return a, tr).
Definition raise {A} (e : exn) : M A := fun _ tr => (Raise e, tr).
Definition out_of_fuel {A} : M A := fun _ tr => (OutOfFuel, tr).

Definition bind {A B} (m : M A) (k : A -> M B) : M B :=
  fun w tr =>
    match m w tr with
    | (Return a, tr') => k a w tr'
    | (Raise e, tr') => (Raise e, tr')
    | (OutOfFuel, tr') => (OutOfFuel, tr')
    end.

#[export] Instance M_ret : MRet M := @ret.
#[export] Instance M_bind : MBind M := fun A B k m => bind m k.

(** [try: m  except Exception as e: handler e] *)
Definition try_except {A} (m : M A) (handler : exn -> M A) : M A :=
  fun w tr =>
    match m w tr with
    | (Raise e, tr') => handler e w tr'
    | r => r
    end.

(** The result of a [try] body, handed to the code after it: [inl e]
    when the body raised [e]. *)
Definition attempt {A} (m : M A) : M (exn + A) :=
  fun w tr =>
    match m w tr with
    | (Return a, tr') => (Return (inr a), tr')
    | (Raise e, tr') => (Return (inl e), tr')
    | (OutOfFuel, tr') => (OutOfFuel, tr')
    end.

(** A step without outbound call. *)
Definition lift {A} (o : outcome A) : M A := fun _ tr => (o, tr).

(** One generation call. *)
Definition generate (model_name prompt : str) : M gen_reply :=
  fun w tr =>
    (Return (generate_content w tr model_name prompt),
     tr ++ [Generate model_name prompt]).

(** [requests.post(url, headers=..., json=payload, timeout=15)] *)
Definition post (url : str) (payload : json) : M response :=
  fun w tr =>
    let tr' := tr ++ [Post url payload] in
    match requests_post w tr url payload with
    | HttpResponse r => (Return r, tr')
    | HttpRaise msg => (Raise (RequestException msg None), tr')
    end.

(** [response.raise_for_status()]: an [HTTPError] that carries the
    response, for the status codes 400 to 599. *)
Definition raise_for_status (url : str) (r : response) : M unit :=
  if (400 <=? status_code r) && (status_code r <? 500) then
    raise (RequestException
             (str_of_N (status_code r) ++ py " Client Error: " ++ reason r
                ++ py " for url: " ++ url) (Some r))
  else if (500 <=? status_code r) && (status_code r <? 600) then
    raise (RequestException
             (str_of_N (status_code r) ++ py " Server Error: " ++ reason r
                ++ py " for url: " ++ url) (Some r))
  else ret tt.

(** [response.json()]: a body that does not decode raises the
    [JSONDecodeError] of [requests], a [RequestException] without
    response. *)
Definition response_json (r : response) : M json :=
  match body r with
  | inr v => ret v
  | inl msg => raise (RequestException msg None)
  end.

(** Run a computation from the empty trace. *)
Definition run {A} (m : M A) (w : world) : outcome A * list event := m w [].

(** A literal between double quotes. *)
Definition quoted (s : string) : str := dq :: py s ++ [dq].

(** ** config.py *)

Module Config.
Definition GOOGLE_MODEL : str := py "gemini-2.5-flash".
Definition GOOGLE_FALLBACK_MODEL : str := py "gemini-2.5-flash-lite".
Definition ATTIO_API_URL : str := py "https://api.attio.com/v2".
End Config.

(** ** gemini_processor.py *)

Module gemini_processor.

Definition SYSTEM_PROMPT : str :=
  concat [
    py "You are an intelligent lead extraction assistant for Attio CRM.

Your tasks:
1. Determine what type of Attio object to create based on the message context
2. Extract relevant information for that object type

**Object Types:**
- ";
    quoted "person";
    py ": Individual contacts (e.g., ";
    quoted "Met Sarah Johnson";
    py ", ";
    quoted "Talked to John Smith";
    py ")
- ";
    quoted "company";
    py ": Organizations/businesses (e.g., ";
    quoted "Working with Acme Corp";
    py ", ";
    quoted "Contacted Stripe";
    py ")
- ";
    quoted "deal";
    py ": Sales opportunities (e.g., ";
    quoted "$50k deal with Acme";
    py ", ";
    quoted "Potential contract worth $100k";
    py ")
- ";
    quoted "user";
    py ": Team members/internal users (e.g., ";
    quoted "New team member Sarah";
    py ", ";
    quoted "Hired John as engineer";
    py ")

**Fields to extract:**
- object_type: One of [";
    quoted "person";
    py ", ";
    quoted "company";
    py ", ";
    quoted "deal";
    py ", ";
    quoted "user";
    py "] (required)
- name: Full name or company name (required)
- email: Email address (if mentioned)
- phone: Phone number (if mentioned)
- company: Company/organization name (for person type)
- job_title: Their role/position (for person/user)
- location: City/country (if mentioned)
- linkedin_url: LinkedIn profile URL (if mentioned, extract the full URL)
- deal_value: Monetary value (for deal type, extract number only)
- deal_stage: Stage like ";
    quoted "prospect";
    py ", ";
    quoted "negotiation";
    py ", ";
    quoted "closed";
    py " (for deal type)
- notes: Any additional context

**Examples:**

Input: ";
    quoted "Met Sarah Chen, VP of Engineering at Stripe";
    py "
Output:
{
  ";
    quoted "object_type";
    py ": ";
    quoted "person";
    py ",
  ";
    quoted "name";
    py ": ";
    quoted "Sarah Chen";
    py ",
  ";
    quoted "company";
    py ": ";
    quoted "Stripe";
    py ",
  ";
    quoted "job_title";
    py ": ";
    quoted "VP of Engineering";
    py ",
  ";
    quoted "notes";
    py ": ";
    quoted "Met today";
    py "
}

Input: ";
    quoted "John Doe from TechCorp, linkedin.com/in/johndoe, email john@techcorp.com";
    py "
Output:
{
  ";
    quoted "object_type";
    py ": ";
    quoted "person";
    py ",
  ";
    quoted "name";
    py ": ";
    quoted "John Doe";
    py ",
  ";
    quoted "company";
    py ": ";
    quoted "TechCorp";
    py ",
  ";
    quoted "email";
    py ": ";
    quoted "john@techcorp.com";
    py ",
  ";
    quoted "linkedin_url";
    py ": ";
    quoted "https://linkedin.com/in/johndoe";
    py "
}

Input: ";
    quoted "Working with Acme Corp, they're a SaaS company in SF";
    py "
Output:
{
  ";
    quoted "object_type";
    py ": ";
    quoted "company";
    py ",
  ";
    quoted "name";
    py ": ";
    quoted "Acme Corp";
    py ",
  ";
    quoted "location";
    py ": ";
    quoted "San Francisco";
    py ",
  ";
    quoted "notes";
    py ": ";
    quoted "SaaS company";
    py "
}

Input: ";
    quoted "Potential $50k deal with TechCo for our enterprise plan";
    py "
Output:
{
  ";
    quoted "object_type";
    py ": ";
    quoted "deal";
    py ",
  ";
    quoted "name";
    py ": ";
    quoted "TechCo Enterprise Deal";
    py ",
  ";
    quoted "company";
    py ": ";
    quoted "TechCo";
    py ",
  ";
    quoted "deal_value";
    py ": 50000,
  ";
    quoted "deal_stage";
    py ": ";
    quoted "prospect";
    py ",
  ";
    quoted "notes";
    py ": ";
    quoted "Enterprise plan";
    py "
}

Input: ";
    quoted "Hired John Smith as senior engineer";
    py "
Output:
{
  ";
    quoted "object_type";
    py ": ";
    quoted "user";
    py ",
  ";
    quoted "name";
    py ": ";
    quoted "John Smith";
    py ",
  ";
    quoted "job_title";
    py ": ";
    quoted "Senior Engineer";
    py ",
  ";
    quoted "notes";
    py ": ";
    quoted "New hire";
    py "
}

Return ONLY valid JSON, no explanatory text before or after.
"
  ].

(** The validated lead ([class LeadData(BaseModel)]). *)
Record LeadData := {
  object_type : str;
  name : str;
  email : option str;
  phone : option str;
  company : option str;
  job_title : option str;
  location : option str;
  linkedin_url : option str;
  deal_value : option pyfloat;
  deal_stage : option str;
  notes : option str
}.

(** *** Validation of the model (the constructor call of [LeadData])

    The field types are those of the class: [str] for the two required
    fields, [Optional[str]] and [Optional[float]] for the others.  The
    coercions are those of pydantic 2, in its default mode: a [str]
    field takes a string only; a [float] field takes a float, an
    integer that a float can hold, a boolean, or a numeric string; an
    optional field also takes [None] or no value at all.  Keys that
    name no field are ignored. *)

Definition required_str (field : string) (data : list (str * json))
  : (string * field_problem) + str :=
  match assoc (py field) data with
  | None => inl (field, Missing)
  | Some (JStr s) => inr s
  | Some _ => inl (field, WrongType)
  end.

Definition optional_str (field : string) (data : list (str * json))
  : (string * field_problem) + option str :=
  match assoc (py field) data with
  | None | Some JNull => inr None
  | Some (JStr s) => inr (Some s)
  | Some _ => inl (field, WrongType)
  end.

(** White space for the validator ([str::trim] of Rust: the code
    points with the property White_Space). *)
Definition is_white_space (c : N) : bool :=
  ((9 <=? c) && (c <=? 13)) || (c =? 32) || (c =? 133) || (c =? 160) ||
  (c =? 5760) || ((8192 <=? c) && (c <=? 8202)) || (c =? 8232) ||
  (c =? 8233) || (c =? 8239) || (c =? 8287) || (c =? 12288).

(** A number in the syntax of Rust's [f64::from_str]: digits with an
    optional point, at least one digit on one side of it, and an
    optional exponent. *)
Definition parse_number (neg : bool) (s : str) : option pyfloat :=
  let '(i, ni, s1) := JsonDecoder.scan_digits s 0%Z O in
  let '(fr, nf, s2) :=
    match s1 with
    | 46 :: r => JsonDecoder.scan_digits r 0%Z O
    | _ => (0%Z, O, s1)
    end in
  match ni, nf with
  | O, O => None
  | _, _ =>
      let m := (i * 10 ^ Z.of_nat nf + fr)%Z in
      match s2 with
      | [] => Some (float_of_decimal neg m (- Z.of_nat nf))
      | _ =>
          match JsonDecoder.scan_exp s2 with
          | Some (e, []) => Some (float_of_decimal neg m (e - Z.of_nat nf))
          | _ => None
          end
      end
  end.

(** [f64::from_str]: a sign, then a number, or [inf], [infinity] or
    [nan] in any letter case. *)
Definition parse_float (s : str) : option pyfloat :=
  let '(neg, body) :=
    match s with
    | 45 :: r => (true, r)
    | 43 :: r => (false, r)
    | _ => (false, s)
    end in
  let word := lower body in
  if str_eqb word (py "inf") || str_eqb word (py "infinity") then Some (FInf neg)
  else if str_eqb word (py "nan") then Some FNan
  else parse_number neg body.

(** The digits of a numeric string may be set apart by single
    underscores, not at its ends. *)
Definition strip_underscores (s : str) : option str :=
  if startswith [95] s || bool_decide (last s = Some 95) || contains [95; 95] s
  then None
  else Some (remove_all [95] s).

(** How the validator reads a string for a [float] field: trimmed and
    parsed; failing that, parsed once more without its underscores. *)
Definition float_of_str (s : str) : option pyfloat :=
  match parse_float (strip_by is_white_space s) with
  | Some x => Some x
  | None =>
      match strip_underscores s with
      | Some stripped => parse_float stripped
      | None => None
      end
  end.

Definition optional_float (field : string) (data : list (str * json))
  : (string * field_problem) + option pyfloat :=
  match assoc (py field) data with
  | None | Some JNull => inr None
  | Some (JInt z) =>
      match float_of_Z z with
      | FFin m e => inr (Some (FFin m e))
      | _ => inl (field, WrongType)
      end
  | Some (JFloat x) => inr (Some x)
  | Some (JBool b) => inr (Some (float_of_Z (if b then 1 else 0)))
  | Some (JStr s) =>
      match float_of_str s with
      | Some x => inr (Some x)
      | None => inl (field, WrongType)
      end
  | Some _ => inl (field, WrongType)
  end.

(** The problems of a field, and its value when it has none. *)
Definition problems {A} (r : (string * field_problem) + A)
  : list (string * field_problem) :=
  match r with inl p => [p] | inr _ => [] end.

(** Every field is checked and all the problems are reported
    together, in the order of the fields. *)
Definition validate (data : list (str * json))
  : list (string * field_problem) + LeadData :=
  let r1 := required_str "object_type" data in
  let r2 := required_str "name" data in
  let r3 := optional_str "email" data in
  let r4 := optional_str "phone" data in
  let r5 := optional_str "company" data in
  let r6 := optional_str "job_title" data in
  let r7 := optional_str "location" data in
  let r8 := optional_str "linkedin_url" data in
  let r9 := optional_float "deal_value" data in
  let r10 := optional_str "deal_stage" data in
  let r11 := optional_str "notes" data in
  match r1, r2, r3, r4, r5, r6, r7, r8, r9, r10, r11 with
  | inr v1, inr v2, inr v3, inr v4, inr v5, inr v6, inr v7, inr v8,
    inr v9, inr v10, inr v11 =>
      inr {| object_type := v1; name := v2; email := v3; phone := v4;
             company := v5; job_title := v6; location := v7;
             linkedin_url := v8; deal_value := v9; deal_stage := v10;
             notes := v11 |}
  | _, _, _, _, _, _, _, _, _, _, _ =>
      inl (problems r1 ++ problems r2 ++ problems r3 ++ problems r4 ++
           problems r5 ++ problems r6 ++ problems r7 ++ problems r8 ++
           problems r9 ++ problems r10 ++ problems r11)
  end.

(** The constructor call on the unpacked [data]: unpacking anything
    but a dictionary is a [TypeError]; a dictionary that does not
    validate is a [ValidationError]. *)
Definition LeadData_init (data : json) : outcome LeadData :=
  match data with
  | JObj fields =>
      match validate fields with
      | inr lead => Return lead
      | inl errs => Raise (ValidationError errs)
      end
  | _ => Raise (PyError "TypeError")
  end.

(** *** The model gateway *)

Definition quota_indicators : list str :=
  [py "quota"; py "rate limit"; py "resource exhausted"; py "429";
   py "too many requests"; py "limit exceeded"].

(** [_is_quota_error(error)], on [str(error)]. *)
Definition _is_quota_error (error : str) : bool :=
  let error_str := Unicode.lower error in
  existsb (fun indicator => contains indicator error_str) quota_indicators.

(** The body of the [try] of [call_gemini_api]: the text of the
    response, or [str] of what was raised.  An empty text raises
    inside the [try] and is caught with the rest. *)
Definition try_generate (model_name full_prompt : str) : M (str + str) :=
  reply ← generate model_name full_prompt;
  match reply with
  | GenRaise msg => mret (inl msg)
  | GenText text =>
      if negb (truthy (JStr text))
      then mret (inl (py "Empty response from Gemini API"))
      else mret (inr text)
  end.

(** The system prompt followed by the user message. *)
Definition full_prompt (message : str) : str :=
  SYSTEM_PROMPT ++ py "

User message: " ++ message.

(** [call_gemini_api(message, use_fallback)].  The function calls
    itself; [fuel] bounds the depth of the calls in the model. *)
Fixpoint call_gemini_api_fuel (fuel : nat) (message : str) (use_fallback : bool)
  : M str :=
  match fuel with
  | O => out_of_fuel
  | S fuel' =>
      let model_name :=
        if use_fallback then Config.GOOGLE_FALLBACK_MODEL
        else Config.GOOGLE_MODEL in
      r ← try_generate model_name (full_prompt message);
      match r with
      | inr text => mret text
      | inl e =>
          if negb use_fallback && _is_quota_error e then
            try_except
              (call_gemini_api_fuel fuel' message true)
              (fun fallback_error =>
                 raise (GeminiProcessingError
                          (fstring (Txt (py "Both models failed. Primary: " ++ e
                                           ++ py ", Fallback: ")
                                      :: str_of_exn fallback_error))))
          else
            raise (GeminiProcessingError [Txt (py "API request failed: " ++ e)])
      end
  end.

(** The entry point.  Two levels are all the recursion ever uses: more
    fuel changes nothing, as is proved with the bound on the attempts. *)
Definition call_gemini_api (message : str) (use_fallback : bool) : M str :=
  call_gemini_api_fuel 2 message use_fallback.

(** *** The response parser *)

(** [parse_gemini_response(response_text)] *)
Definition parse_gemini_response (response_text : str) : outcome json :=
  match JsonDecoder.loads response_text with
  | JsonDecoder.Decoded data => Return data
  | JsonDecoder.Refused class_name => Raise (PyError class_name)
  | JsonDecoder.DecodeError =>
      let fallthrough :=
        Raise (GeminiProcessingError
                 [Txt (py "Could not parse JSON from Gemini response")]) in
      match Regex.search_braces response_text with
      | Some json_match =>
          match JsonDecoder.loads json_match with
          | JsonDecoder.Decoded data => Return data
          | JsonDecoder.Refused class_name => Raise (PyError class_name)
          | JsonDecoder.DecodeError => fallthrough
          end
      | None => fallthrough
      end
  end.

(** *** The extraction pipeline *)

(** [process_lead_message(message)] *)
Definition process_lead_message (message : str) : M LeadData :=
  try_except
    (response_text ← call_gemini_api message false;
     data ← lift (parse_gemini_response response_text);
     lift (LeadData_init data))
    (fun e =>
       match e with
       | ValidationError errs =>
           raise (GeminiProcessingError
                    [Txt (py "Invalid lead data format: ");
                     StrOfValidation errs])
       | _ =>
           raise (GeminiProcessingError
                    (fstring (Txt (py "Processing failed: ") :: str_of_exn e)))
       end).

End gemini_processor.

(** ** attio_client.py *)

Module attio_client.

Import gemini_processor.

Definition base_url : str := Config.ATTIO_API_URL.

(** *** Reading Python values *)

(** [data.get(key)] on the dictionary of lead data. *)
Definition dict_get (data : gmap string json) (key : string) : json :=
  default JNull (data !! key).

(** The text of a value that is a string.  The text fields of the
    dictionary are copied from a validated lead, so each of them holds
    [None] or a [str], and this is applied to truthy ones only. *)
Definition text_of (v : json) : str :=
  match v with JStr s => s | _ => [] end.

(** [v.get(key, dflt)]: an [AttributeError] unless [v] is a
    dictionary. *)
Definition py_get (v : json) (key : string) (dflt : json) : outcome json :=
  match v with
  | JObj fields => Return (default dflt (assoc (py key) fields))
  | _ => Raise (PyError "AttributeError")
  end.

(** [int(v)] for the numbers a [deal_value] can be: an infinity
    raises [OverflowError], not-a-number [ValueError]. *)
Definition py_int (v : json) : outcome Z :=
  match v with
  | JInt z => Return z
  | JBool b => Return (if b then 1 else 0)%Z
  | JFloat x =>
      match float_trunc x with
      | Some z => Return z
      | None =>
          match x with
          | FNan => Raise (PyError "ValueError")
          | _ => Raise (PyError "OverflowError")
          end
      end
  | _ => Raise (PyError "TypeError")
  end.

(** [str(v)] inside an f-string. *)
Definition part_of_value (v : json) : part :=
  match v with JStr s => Txt s | _ => StrOfValue v end.

Definition opt_json (o : option str) : json :=
  match o with Some s => JStr s | None => JNull end.

(** *** Enrichment lookup *)

Definition _is_quota_error (error : str) : bool :=
  let error_str := Unicode.lower error in
  existsb (fun indicator => contains indicator error_str)
    [py "quota"; py "rate limit"; py "resource exhausted"; py "429";
     py "too many requests"; py "limit exceeded"].

Definition website_prompt (company_name : str) : str :=
  concat [
    py "Find the official website domain for the company ";
    [dq]; company_name; [dq];
    py ".

Return ONLY the domain name (e.g., ";
    quoted "example.com";
    py ") without https:// or www.
If you cannot find a reliable website, return ";
    quoted "NONE";
    py ".

Examples:
- Input: ";
    quoted "Stripe";
    py " -> Output: ";
    quoted "stripe.com";
    py "
- Input: ";
    quoted "Anthropic";
    py " -> Output: ";
    quoted "anthropic.com";
    py "
- Input: ";
    quoted "Unknown Fake Company XYZ";
    py " -> Output: ";
    quoted "NONE";
    py "

Company: ";
    company_name;
    py "
Website domain:"
  ].

(** The clean-up of the answer of the model. *)
Definition clean_website (text : str) : str :=
  let website := Unicode.lower (strip text) in
  let website := remove_all (py "http://") (remove_all (py "https://") website) in
  let website := remove_all (py "www.") website in
  strip_char 47 website.

(** [website != 'none' and '.' in website and ' ' not in website] *)
Definition looks_like_domain (website : str) : bool :=
  negb (str_eqb website (py "none")) && contains (py ".") website
    && negb (contains (py " ") website).

(** What is returned for the text of a response (the block under
    [if response.text:] and the [return None] after it). *)
Definition answer_domain (text : str) : option str :=
  if truthy (JStr text) then
    let website := clean_website text in
    if looks_like_domain website then Some website else None
  else None.

(** The body of the [try] of [_search_company_website]: the value it
    returns, or [str] of what was raised. *)
Definition try_search (model_name company_name : str) : M (str + option str) :=
  reply ← generate model_name (website_prompt company_name);
  match reply with
  | GenRaise msg => mret (inl msg)
  | GenText text => mret (inr (answer_domain text))
  end.

(** [_search_company_website(company_name, use_fallback)] *)
Fixpoint _search_company_website_fuel (fuel : nat) (company_name : str)
    (use_fallback : bool) : M (option str) :=
  match fuel with
  | O => out_of_fuel
  | S fuel' =>
      let model_name :=
        if use_fallback then Config.GOOGLE_FALLBACK_MODEL
        else Config.GOOGLE_MODEL in
      r ← try_search model_name company_name;
      match r with
      | inr result => mret result
      | inl e =>
          if negb use_fallback && _is_quota_error e then
            try_except
              (_search_company_website_fuel fuel' company_name true)
              (fun fallback_error => mret None)
          else mret None
      end
  end.

Definition _search_company_website (company_name : str) (use_fallback : bool)
  : M (option str) :=
  _search_company_website_fuel 2 company_name use_fallback.

(** *** Company sub-creation *)

(** Only a [RequestException] is caught by the handlers of the
    client's HTTP calls; anything else goes on. *)
Definition except_request {A} (m : M A)
    (handler : str -> option response -> M A) : M A :=
  try_except m
    (fun e =>
       match e with
       | RequestException msg resp => handler msg resp
       | _ => raise e
       end).

(** The body of the create-company request. *)
Definition company_payload (company_name : str) (website_domain : option str)
    (notes : json) : json :=
  let company_values := [(py "name", JStr company_name)] in
  let company_values :=
    if truthy (opt_json website_domain)
    then assoc_set (py "domains")
           (JList [JObj [(py "domain", opt_json website_domain)]])
           company_values
    else company_values in
  let company_values :=
    if truthy notes
    then assoc_set (py "description") notes company_values
    else company_values in
  JObj [(py "data", JObj [(py "values", JObj company_values)])].

Definition companies_endpoint : str := base_url ++ py "/objects/companies/records".

(** [_create_or_get_company(company_name, notes)] *)
Definition _create_or_get_company (company_name : str) (notes : json)
  : M (option json * option str) :=
  except_request
    (website_domain ← _search_company_website company_name false;
     let company_payload := company_payload company_name website_domain notes in
     let endpoint := companies_endpoint in
     response ← post endpoint company_payload;
     raise_for_status endpoint response;;
     company_record ← response_json response;
     mret (Some company_record, website_domain))
    (fun _ _ => mret (None, None)).

(** *** Attribute creation *)

Record attribute_settings := {
  cfg_title : str;
  cfg_type : str;
  cfg_is_multiselect : bool;
  cfg_reference_object : option str
}.

Definition text_attribute (t : str) : attribute_settings :=
  {| cfg_title := t; cfg_type := py "text"; cfg_is_multiselect := false;
     cfg_reference_object := None |}.

(** The table [attribute_config] of [_create_attribute]. *)
Definition attribute_config : gmap str attribute_settings :=
  list_to_map
    [(py "linkedin_url", text_attribute (py "LinkedIn URL"));
     (py "job_title", text_attribute (py "Job Title"));
     (py "location", text_attribute (py "Location"));
     (py "description", text_attribute (py "Description"));
     (py "companies",
      {| cfg_title := py "Companies"; cfg_type := py "reference";
         cfg_is_multiselect := true;
         cfg_reference_object := Some (py "companies") |})].

(** [attribute_config.get(attribute_slug, defaults)] *)
Definition settings_for (attribute_slug : str) : attribute_settings :=
  default (text_attribute (Unicode.title (replace_char 95 32 attribute_slug)))
    (attribute_config !! attribute_slug).

(** The body of the create-attribute request. *)
Definition attribute_payload (attribute_slug : str) : json :=
  let config := settings_for attribute_slug in
  let attribute_data :=
    [(py "title", JStr (cfg_title config));
     (py "api_slug", JStr attribute_slug);
     (py "description",
      JStr (py "Auto-created attribute for " ++ cfg_title config));
     (py "type", JStr (cfg_type config));
     (py "is_multiselect", JBool (cfg_is_multiselect config));
     (py "is_required", JBool false);
     (py "is_unique", JBool false)] in
  let attribute_data :=
    match str_eqb (cfg_type config) (py "reference"),
          cfg_reference_object config with
    | true, Some target =>
        assoc_set (py "config")
          (JObj [(py "reference", JObj [(py "target_object", JStr target)])])
          attribute_data
    | _, _ => assoc_set (py "config") (JObj []) attribute_data
    end in
  JObj [(py "data", JObj attribute_data)].

Definition attributes_endpoint (object_slug : str) : str :=
  base_url ++ py "/objects/" ++ object_slug ++ py "/attributes".

(** [_create_attribute(object_slug, attribute_slug)] *)
Definition _create_attribute (object_slug attribute_slug : str) : M unit :=
  let payload := attribute_payload attribute_slug in
  let endpoint := attributes_endpoint object_slug in
  except_request
    (response ← post endpoint payload;
     raise_for_status endpoint response)
    (fun msg resp =>
       let error_detail :=
         match resp with
         | Some r =>
             match body r with
             | inr error_data =>
                 [Txt (str_of_N (status_code r) ++ py ": ");
                  part_of_value error_data]
             | inl _ => [Txt msg]
             end
         | None => [Txt msg]
         end in
       raise (AttioAPIError
                (fstring (Txt (py "Attribute creation failed: ") :: error_detail)))).

(** *** Payload builders *)

(** [_lead_data_to_dict(lead_data)] *)
Definition _lead_data_to_dict (lead_data : LeadData) : gmap string json :=
  list_to_map
    [("name", JStr (name lead_data));
     ("email", opt_json (email lead_data));
     ("phone", opt_json (phone lead_data));
     ("company", opt_json (company lead_data));
     ("job_title", opt_json (job_title lead_data));
     ("location", opt_json (location lead_data));
     ("linkedin_url", opt_json (linkedin_url lead_data));
     ("notes", opt_json (notes lead_data))].

(** [if cond: attributes[key] = v] *)
Definition add_if (cond : bool) (key : string) (v : json)
    (attributes : list (str * json)) : list (str * json) :=
  if cond then assoc_set (py key) v attributes else attributes.

(** [if cond: parts.append(p)] *)
Definition append_if (cond : bool) (p : str) (parts : list str) : list str :=
  if cond then parts ++ [p] else parts.

(** [if parts: attributes['description'] = newline.join(parts)] *)
Definition add_description (parts : list str) (attributes : list (str * json))
  : list (str * json) :=
  add_if (match parts with [] => false | _ => true end) "description"
    (JStr (join [10] parts)) attributes.

Definition wrap_values (attributes : list (str * json)) : json :=
  JObj [(py "data", JObj [(py "values", JObj attributes)])].

(** [_build_person_payload(data)] *)
Definition _build_person_payload (data : gmap string json) : json :=
  let get := dict_get data in
  let attributes := [(py "name", get "name")] in
  let attributes :=
    add_if (truthy (get "email")) "email_addresses"
      (JList [JObj [(py "email_address", get "email")]]) attributes in
  let attributes :=
    add_if (truthy (get "phone")) "phone_numbers"
      (JList [JObj [(py "original_phone_number", get "phone")]]) attributes in
  let attributes :=
    add_if (truthy (get "job_title")) "job_title" (get "job_title") attributes in
  let attributes :=
    add_if (truthy (get "location")) "location" (get "location") attributes in
  let attributes :=
    add_if (truthy (get "linkedin_url")) "linkedin_url" (get "linkedin_url")
      attributes in
  let attributes :=
    if truthy (get "company_domain") then
      assoc_set (py "company") (get "company_domain") attributes
    else if truthy (get "company_record_id") then
      assoc_set (py "company")
        (JList [JObj [(py "target_object", JStr (py "companies"));
                      (py "target_record_id", get "company_record_id")]])
        attributes
    else attributes in
  let notes_parts := append_if (truthy (get "notes")) (text_of (get "notes")) [] in
  wrap_values (add_description notes_parts attributes).

(** [_build_company_payload(data)] *)
Definition _build_company_payload (data : gmap string json) : json :=
  let get := dict_get data in
  let attributes :=
    [(py "name", if truthy (get "company") then get "company" else get "name")] in
  let attributes :=
    add_if (truthy (get "location")) "locations" (JList [get "location"])
      attributes in
  let attributes :=
    add_if (truthy (get "email")) "domains"
      (JList [JObj [(py "domain",
                     JStr (let e := text_of (get "email") in
                           if contains [64] e
                           then default [] (split_char 64 e !! 1%nat)
                           else e))]])
      attributes in
  let desc_parts := [] in
  let desc_parts :=
    append_if (truthy (get "name") && truthy (get "company"))
      (py "Contact: " ++ text_of (get "name")) desc_parts in
  let desc_parts :=
    append_if (truthy (get "job_title"))
      (py "Title: " ++ text_of (get "job_title")) desc_parts in
  let desc_parts :=
    append_if (truthy (get "email"))
      (py "Email: " ++ text_of (get "email")) desc_parts in
  let desc_parts :=
    append_if (truthy (get "phone"))
      (py "Phone: " ++ text_of (get "phone")) desc_parts in
  let desc_parts :=
    append_if (truthy (get "linkedin_url"))
      (py "LinkedIn: " ++ text_of (get "linkedin_url")) desc_parts in
  let desc_parts :=
    append_if (truthy (get "notes")) (10 :: text_of (get "notes")) desc_parts in
  wrap_values (add_description desc_parts attributes).

(** [_build_deal_payload(data)]: [int] may raise. *)
Definition _build_deal_payload (data : gmap string json) : outcome json :=
  let get := dict_get data in
  let attributes := [(py "name", get "name")] in
  let finish (attributes : list (str * json)) : outcome json :=
    let attributes :=
      add_if (truthy (get "deal_stage")) "stage" (get "deal_stage") attributes in
    let desc_parts := [] in
    let desc_parts :=
      append_if (truthy (get "company"))
        (py "Company: " ++ text_of (get "company")) desc_parts in
    let desc_parts :=
      append_if (truthy (get "name") && negb (truthy (get "company")))
        (py "Contact: " ++ text_of (get "name")) desc_parts in
    let desc_parts :=
      append_if (truthy (get "notes")) (text_of (get "notes")) desc_parts in
    Return (wrap_values (add_description desc_parts attributes)) in
  if truthy (get "deal_value") then
    match py_int (get "deal_value") with
    | Return amount =>
        finish (assoc_set (py "value")
                  (JObj [(py "currency", JStr (py "USD"));
                         (py "value", JInt amount)])
                  attributes)
    | Raise e => Raise e
    | OutOfFuel => OutOfFuel
    end
  else finish attributes.

(** [_build_user_payload(data)] *)
Definition _build_user_payload (data : gmap string json) : json :=
  let get := dict_get data in
  let attributes := [(py "name", get "name")] in
  let attributes :=
    add_if (truthy (get "email")) "email_address" (get "email") attributes in
  let attributes :=
    add_if (truthy (get "job_title")) "job_title" (get "job_title") attributes in
  let attributes :=
    add_if (truthy (get "notes")) "description" (get "notes") attributes in
  wrap_values attributes.

(** [_build_attio_payload(data, object_type)] *)
Definition _build_attio_payload (data : gmap string json) (object_type : str)
  : outcome json :=
  if str_eqb object_type (py "person") then Return (_build_person_payload data)
  else if str_eqb object_type (py "company") then Return (_build_company_payload data)
  else if str_eqb object_type (py "deal") then _build_deal_payload data
  else if str_eqb object_type (py "user") then Return (_build_user_payload data)
  else Raise (AttioAPIError [Txt (py "Unknown object type: " ++ object_type)]).

(** *** Record creation *)

Definition valid_types : list str :=
  [py "person"; py "company"; py "deal"; py "user"].

Definition object_plural : gmap str str :=
  list_to_map
    [(py "person", py "people"); (py "company", py "companies");
     (py "deal", py "deals"); (py "user", py "users")].

Definition records_endpoint (object_slug : str) : str :=
  base_url ++ py "/objects/" ++ object_slug ++ py "/records".

(** The company step of [create_record]: the dictionary, with
    [company_record_id] or [company_domain] added when there is
    something to link to. *)
Definition link_company (data : gmap string json) : M (gmap string json) :=
  let company_notes := default (JStr []) (data !! "notes") in
  '(company_record, company_domain) ←
    _create_or_get_company (text_of (dict_get data "company")) company_notes;
  if truthy (default JNull company_record) then
    id_field ← lift (py_get (default JNull company_record) "id" (JObj []));
    record_id ← lift (py_get id_field "record_id" JNull);
    if truthy record_id then
      mret (<["company_record_id" := record_id]> data)
    else if truthy (opt_json company_domain) then
      mret (<["company_domain" := opt_json company_domain]> data)
    else mret data
  else mret data.

(** One create call and the reading of its answer. *)
Definition post_record (endpoint : str) (payload : json) : M json :=
  response ← post endpoint payload;
  raise_for_status endpoint response;;
  created_record ← response_json response;
  id_field ← lift (py_get created_record "id" (JObj []));
  record_id ← lift (py_get id_field "record_id" (JStr (py "unknown")));
  mret created_record.

(** The slug named by the error of a refused create call, when the
    handler finds one: the status is 400, the body decodes to a
    dictionary, its [message] contains [Cannot find attribute] and
    the pattern matches.  A body or a message of another type raises
    inside the handler's [try], which logs and goes on. *)
Definition missing_attribute (resp : option response) : option str :=
  match resp with
  | Some r =>
      if status_code r =? 400 then
        match body r with
        | inr (JObj error_data) =>
            match default (JStr []) (assoc (py "message") error_data) with
            | JStr error_message =>
                if contains (py "Cannot find attribute") error_message
                then Regex.search_missing error_message
                else None
            | _ => None
            end
        | _ => None
        end
      else None
  | None => None
  end.

(** [error_detail] of the final [raise]: the [message] of the error
    body when there is one to read, else [str(e)]. *)
Definition error_detail (msg : str) (resp : option response) : part :=
  match resp with
  | Some r =>
      match body r with
      | inr (JObj error_data) =>
          part_of_value (default (JStr msg) (assoc (py "message") error_data))
      | _ => Txt msg
      end
  | None => Txt msg
  end.

(** The [try] statement of [create_record]: the create call, and in
    its handler the repair of a missing attribute followed by the
    replay of the call. *)
Definition create_with_repair (object_type object_slug : str) (payload : json)
  : M json :=
  let endpoint := records_endpoint object_slug in
  except_request
    (post_record endpoint payload)
    (fun msg resp =>
       let fail_with :=
         raise (AttioAPIError
                  (fstring
                     [Txt (capitalize object_type ++ py " creation failed: ");
                      error_detail msg resp])) in
       match missing_attribute resp with
       | Some missing_attribute =>
           r ← attempt (_create_attribute object_slug missing_attribute;;
                        post_record endpoint payload);
           match r with
           | inr created_record => mret created_record
           | inl create_error => fail_with
           end
       | None => fail_with
       end).

(** [create_record(lead_data)] *)
Definition create_record (lead_data : LeadData) : M json :=
  if negb (existsb (str_eqb (object_type lead_data)) valid_types) then
    raise (AttioAPIError
             [Txt (py "Invalid object_type: " ++ object_type lead_data
                     ++ py ". Must be one of ['person', 'company', 'deal', 'user']")])
  else
    let data := _lead_data_to_dict lead_data in
    data ←
      (if str_eqb (object_type lead_data) (py "person")
          && truthy (dict_get data "company")
       then link_company data
       else mret data);
    payload ← lift (_build_attio_payload data (object_type lead_data));
    match object_plural !! object_type lead_data with
    | None => raise (PyError "KeyError")
    | Some object_slug =>
        create_with_repair (object_type lead_data) object_slug payload
    end.

End attio_client.

(** ** config.py: the required variables *)

Module config.

(** What [os.getenv] gave for the three variables when the class
    [Config] was built: [None] for a variable that is not set. *)
Record environment := {
  DISCORD_BOT_TOKEN : option str;
  GOOGLE_API_KEY : option str;
  ATTIO_API_KEY : option str
}.

(** [bool(value)] of such a value. *)
Definition is_set (value : option str) : bool :=
  match value with
  | Some (_ :: _) => true
  | _ => false
  end.

Definition required_vars (env : environment) : list (str * option str) :=
  [(py "DISCORD_BOT_TOKEN", DISCORD_BOT_TOKEN env);
   (py "GOOGLE_API_KEY", GOOGLE_API_KEY env);
   (py "ATTIO_API_KEY", ATTIO_API_KEY env)].

Definition missing_vars (env : environment) : list str :=
  map fst (List.filter (fun entry => negb (is_set (snd entry))) (required_vars env)).

(** [Config.validate()] *)
Definition validate (env : environment) : bool :=
  match missing_vars env with
  | [] => true
  | _ :: _ => false
  end.

End config.

(** ** attio_client.py: the client and the module's coroutine *)

Module AttioClient.

Import config.

(** [AttioClient()]: the constructor keeps the key and the headers,
    or raises. *)
Definition __init__ (env : environment) : outcome unit :=
  if negb (is_set (ATTIO_API_KEY env))
  then Raise (AttioAPIError [Txt (py "ATTIO_API_KEY not configured")])
  else Return tt.

(** The coroutine [create_record(lead_data)] of the module: a new
    client for every call. *)
Definition create_record_async (env : environment)
    (lead_data : gemini_processor.LeadData) : M json :=
  lift (__init__ env);;
  attio_client.create_record lead_data.

End AttioClient.

(** ** bot.py *)

Module bot.

Import gemini_processor attio_client config.

Definition newline : str := [10].

(** *** Number formatting *)

(** The integer nearest to [m * 2^e] for [m >= 0], ties to the even
    one: the rounding of the format [.0f]. *)
Definition round_half_even (m e : Z) : Z :=
  if (0 <=? e)%Z then (m * 2 ^ e)%Z
  else
    let d := (2 ^ (- e))%Z in
    let q := (m / d)%Z in
    let r := (m mod d)%Z in
    if (2 * r <? d)%Z then q
    else if (d <? 2 * r)%Z then (q + 1)%Z
    else if Z.even q then q else (q + 1)%Z.

(** A comma between the groups of three digits, on the reversed
    digits; [k] digits of the current group are out. *)
Fixpoint group_thousands (k : nat) (reversed_digits : str) : str :=
  match reversed_digits with
  | [] => []
  | c :: t =>
      if Nat.eqb k 3 then 44 :: c :: group_thousands 1 t
      else c :: group_thousands (S k) t
  end.

(** [f"{x:,.0f}"] *)
Definition format_thousands (x : pyfloat) : str :=
  match x with
  | FNan => py "nan"
  | FInf negative => if negative then py "-inf" else py "inf"
  | FFin m e =>
      let digits := str_of_N (Z.to_N (round_half_even (Z.abs m) e)) in
      (if (m <? 0)%Z then py "-" else [])
        ++ rev (group_thousands 0 (rev digits))
  end.

(** *** The confirmation *)

Definition emoji_map : gmap str str :=
  list_to_map
    [(py "person", [128100]);
     (py "company", [127970]);
     (py "deal", [128176]);
     (py "user", [128101])].

Definition check_mark : str := [9989].
Definition cross_mark : str := [10060].
Definition warning_sign : str := [9888; 65039].
Definition robot : str := [129302].
Definition floppy_disk : str := [128190].
Definition bullet : str := [8226].

(** [if value: lines.append(f"{label}{value}")] *)
Definition line_if (label : string) (value : option str) : list str :=
  if is_set value then [py label ++ default [] value] else [].

(** The list [lines] of [_build_success_message]. *)
Definition lines (lead_data : LeadData) : list str :=
  let emoji := default check_mark (emoji_map !! object_type lead_data) in
  let lines :=
    [emoji ++ py " **" ++ capitalize (object_type lead_data)
       ++ py " Created Successfully!**";
     [];
     py "**Name:** " ++ name lead_data] in
  let lines :=
    if existsb (str_eqb (object_type lead_data)) [py "person"; py "user"] then
      lines ++ line_if "**Company:** " (company lead_data)
        ++ line_if "**Title:** " (job_title lead_data)
        ++ line_if "**Email:** " (email lead_data)
        ++ line_if "**Phone:** " (phone lead_data)
        ++ line_if "**Location:** " (location lead_data)
        ++ line_if "**LinkedIn:** " (linkedin_url lead_data)
    else if str_eqb (object_type lead_data) (py "company") then
      lines ++ line_if "**Location:** " (location lead_data)
    else if str_eqb (object_type lead_data) (py "deal") then
      lines ++ line_if "**Company:** " (company lead_data)
        ++ match deal_value lead_data with
           | Some x =>
               if float_truthy x
               then [py "**Value:** $" ++ format_thousands x]
               else []
           | None => []
           end
        ++ line_if "**Stage:** " (deal_stage lead_data)
    else lines in
  lines ++ line_if "**Notes:** " (notes lead_data).

(** [_build_success_message(lead_data, created_record)] *)
Definition _build_success_message (lead_data : LeadData) (created_record : json)
  : str :=
  join newline (lines lead_data).

(** *** Discord and the two services *)

(** The calls made on the message and on its channel. *)
Inductive discord_call :=
| Typing
| Reply (text : message)
| AddReaction (emoji : str)
| ClearReactions.

(** Everything the handler does to the outside, in order. *)
Inductive action :=
| Outbound (ev : event)
| Discord (call : discord_call).

(** The services behind the gateway and the client, and Discord: a
    call on Discord succeeds or raises the exception of discord.py
    whose class is named. *)
Record surroundings := {
  services : world;
  discord : list action -> discord_call -> option string
}.

Definition B (A : Type) : Type :=
  surroundings -> list action -> outcome A * list action.

Definition give {A} (a : A) : B A := fun _ tr => (Return a, tr).
Definition throw {A} (e : exn) : B A := fun _ tr => (Raise e, tr).

Definition and_then {A C} (m : B A) (k : A -> B C) : B C :=
  fun s tr =>
    match m s tr with
    | (Return a, tr') => k a s tr'
    | (Raise e, tr') => (Raise e, tr')
    | (OutOfFuel, tr') => (OutOfFuel, tr')
    end.

#[export] Instance B_ret : MRet B := @give.
#[export] Instance B_bind : MBind B := fun A C k m => and_then m k.

(** The result of a [try] body, as [attempt] for the services. *)
Definition attempted {A} (m : B A) : B (exn + A) :=
  fun s tr =>
    match m s tr with
    | (Return a, tr') => (Return (inr a), tr')
    | (Raise e, tr') => (Return (inl e), tr')
    | (OutOfFuel, tr') => (OutOfFuel, tr')
    end.

Fixpoint outbound_calls (tr : list action) : list event :=
  match tr with
  | [] => []
  | Outbound ev :: t => ev :: outbound_calls t
  | Discord _ :: t => outbound_calls t
  end.

(** A coroutine of the gateway or of the client, awaited: the services
    see the calls made to them so far. *)
Definition await {A} (m : M A) : B A :=
  fun s tr =>
    let calls := outbound_calls tr in
    let '(o, calls') := m (services s) calls in
    (o, tr ++ map Outbound (drop (length calls) calls')).

Definition on_discord (call : discord_call) : B unit :=
  fun s tr =>
    (match discord s tr call with
     | None => Return tt
     | Some class_name => Raise (PyError class_name)
     end,
     tr ++ [Discord call]).

(** [try: await message.clear_reactions()  except discord.Forbidden: pass] *)
Definition clear_reactions : B unit :=
  r ← attempted (on_discord ClearReactions);
  match r with
  | inl (PyError class_name) =>
      if String.eqb class_name "Forbidden" then give tt
      else throw (PyError class_name)
  | inl e => throw e
  | inr _ => give tt
  end.

(** The content without the mentions: for every mentioned user, both
    spellings of the mention are deleted and the text is stripped. *)
Definition strip_mentions (mentions : list N) (content : str) : str :=
  fold_left
    (fun content id =>
       let content :=
         strip (remove_all (py "<@" ++ str_of_N id ++ py ">") content) in
       strip (remove_all (py "<@!" ++ str_of_N id ++ py ">") content))
    mentions content.

Definition usage : message :=
  [Txt (py "Please provide information! Example: @bot Met Sarah Chen, VP at Stripe")].

(** The three [except] clauses.  [lead_data] is the local variable of
    the [try] body, unbound until the extraction has returned. *)
Definition on_failure (lead_data : option LeadData) (e : exn) : B unit :=
  match e with
  | GeminiProcessingError _ =>
      clear_reactions;;
      on_discord (AddReaction cross_mark);;
      on_discord
        (Reply (fstring
                  ([Txt (cross_mark ++ py " Failed to extract information."
                           ++ newline ++ py "Error: ")]
                   ++ str_of_exn e
                   ++ [Txt (newline ++ newline
                              ++ py "Please try rephrasing your message.")])))
  | AttioAPIError _ =>
      clear_reactions;;
      on_discord (AddReaction warning_sign);;
      match lead_data with
      | None => throw (PyError "UnboundLocalError")
      | Some lead_data =>
          on_discord
            (Reply (fstring
                      ([Txt (warning_sign
                               ++ py " Information extracted but failed to save to Attio."
                               ++ newline ++ py "Error: ")]
                       ++ str_of_exn e
                       ++ [Txt (newline ++ newline ++ py "Extracted data:" ++ newline
                                  ++ bullet ++ py " Type: " ++ object_type lead_data
                                  ++ newline
                                  ++ bullet ++ py " Name: " ++ name lead_data
                                  ++ newline
                                  ++ bullet ++ py " Company: "
                                  ++ (if is_set (company lead_data)
                                      then default [] (company lead_data)
                                      else py "N/A"))])))
      end
  | _ =>
      clear_reactions;;
      on_discord (AddReaction cross_mark);;
      on_discord
        (Reply (fstring
                  ([Txt (cross_mark ++ py " An unexpected error occurred: ")]
                   ++ str_of_exn e
                   ++ [Txt (newline ++ newline
                              ++ py "Please try again or contact support.")])))
  end.

(** The [try] body of [handle_lead_mention] up to the binding of
    [lead_data]: [None] when the handler returns early. *)
Definition extract (message_content : str) (mentions : list N)
  : B (option LeadData) :=
  on_discord Typing;;
  let content := strip_mentions mentions message_content in
  if str_eqb content [] then
    on_discord (Reply usage);;
    give None
  else
    on_discord (AddReaction robot);;
    lead_data ← await (process_lead_message content);
    give (Some lead_data).

(** The rest of the [try] body. *)
Definition save_and_confirm (env : environment) (lead_data : LeadData) : B unit :=
  on_discord (AddReaction floppy_disk);;
  created_record ← await (AttioClient.create_record_async env lead_data);
  clear_reactions;;
  on_discord (AddReaction check_mark);;
  on_discord (Reply [Txt (_build_success_message lead_data created_record)]).

(** [handle_lead_mention(message)], for the content and the mentioned
    users of the message. *)
Definition handle_lead_mention (env : environment) (message_content : str)
    (mentions : list N) : B unit :=
  extracted ← attempted (extract message_content mentions);
  match extracted with
  | inl e => on_failure None e
  | inr None => give tt
  | inr (Some lead_data) =>
      saved ← attempted (save_and_confirm env lead_data);
      match saved with
      | inl e => on_failure (Some lead_data) e
      | inr _ => give tt
      end
  end.

End bot.

(** * Properties *)

(** ** Strings *)

Lemma startswith_spec (p s : str) :
  startswith p s = true <-> exists r, s = p ++ r.
Proof.
  revert s. induction p as [|a p IH]; intros s; simpl.
  - split; [intros _; exists s; reflexivity | reflexivity].
  - destruct s as [|b s]; simpl.
    + split; [discriminate | intros [r Hr]; discriminate].
    + rewrite andb_true_iff, N.eqb_eq, IH. split.
      * intros [-> [r ->]]. exists r. reflexivity.
      * intros [r Hr]. injection Hr as -> ->. split; [reflexivity | exists r; reflexivity].
Qed.

Lemma contains_spec (needle hay : str) :
  contains needle hay = true <-> exists pre post, hay = pre ++ needle ++ post.
Proof.
  induction hay as [|c hay IH].
  - simpl. rewrite orb_false_r, startswith_spec. split.
    + intros [r Hr]. exists [], r. exact Hr.
    + intros [pre [post H]]. destruct pre; [exists post; exact H | discriminate].
  - simpl. rewrite orb_true_iff, startswith_spec, IH. split.
    + intros [[r Hr] | [pre [post H]]].
      * exists [], r. exact Hr.
      * exists (c :: pre), post. simpl. rewrite H. reflexivity.
    + intros [pre [post H]]. destruct pre as [|x pre]; simpl in H.
      * left. exists post. exact H.
      * right. injection H as _ H. exists pre, post. exact H.
Qed.

Lemma lower_app (a b : str) : lower (a ++ b) = lower a ++ lower b.
Proof. apply map_app. Qed.

(** ** Searching a lower-cased text *)

(** The texts that the code looks for in a lower-cased text: ASCII
    without [k], not empty and not ending in [i]. *)
Definition searched (sig : str) : bool :=
  forallb (fun c => (c <? 128) && negb (c =? 107)) sig
  && negb (bool_decide (last sig = Some 105)).

Lemma searched_tail (c : N) (sig : str) :
  searched (c :: sig) = true -> c < 128 /\ c <> 107 /\ searched sig = true.
Proof.
  unfold searched. cbn [forallb]. rewrite !andb_true_iff, !negb_true_iff.
  intros [[[H1 H2] H3] H4].
  apply N.ltb_lt in H1. apply N.eqb_neq in H2.
  repeat split; try assumption.
  apply bool_decide_eq_false in H4. apply bool_decide_eq_false.
  intros H. apply H4. destruct sig as [|d sig]; [discriminate H|exact H].
Qed.

(** A run maps into the stretch that starts at its target and is as
    long as the run. *)
Lemma mapped_within (c d : N) (runs : list (N * N * N * N)) :
  Unicode.mapped c runs = Some d ->
  exists first last stride target,
    In (first, last, stride, target) runs
    /\ target <= d <= target + (last - first).
Proof.
  induction runs as [|[[[first last] stride] target] runs IH];
    cbn [Unicode.mapped]; [discriminate|].
  destruct ((first <=? c) && (c <=? last) && ((c - first) mod stride =? 0)) eqn:E.
  - intros H. injection H as <-. exists first, last, stride, target.
    apply andb_true_iff in E as [E _]. apply andb_true_iff in E as [E1 E2].
    apply N.leb_le in E1, E2.
    split; [left; reflexivity | lia].
  - intros H. destruct (IH H) as [f [l [st [t [Hin Hle]]]]].
    exists f, l, st, t. split; [right; exact Hin | exact Hle].
Qed.

(** Beyond ASCII the lower case of a character is beyond ASCII, but
    for the Kelvin sign, which gives [k], and the dotted capital I,
    which gives [i] with a combining dot. *)
Lemma lower_at_beyond_ascii (before : str) (c : N) (after : str) :
  128 <= c ->
  (exists d, 128 <= d /\ Unicode.lower_at before c after = [d])
  \/ Unicode.lower_at before c after = [107]
  \/ Unicode.lower_at before c after = [105; 775].
Proof.
  intros Hc. unfold Unicode.lower_at.
  destruct (c =? 931).
  { left. destruct (Unicode.final_sigma before after); eexists; (split; [|reflexivity]); lia. }
  unfold Unicode.to_lower_full.
  replace (c <? 128) with false by (symmetry; apply N.ltb_ge; exact Hc).
  destruct (Unicode.special c Unicode.lower_special) as [s|] eqn:Hs.
  - unfold Unicode.lower_special in Hs. cbn [Unicode.special] in Hs.
    destruct (c =? 304); [|discriminate]. injection Hs as <-.
    right. right. reflexivity.
  - destruct (Unicode.mapped c Unicode.lower_runs) as [d|] eqn:Hm;
      cbn [default from_option id].
    + destruct (mapped_within c d _ Hm) as [f [l [st [t [Hin Hle]]]]].
      assert (H : forallb (fun run : N * N * N * N =>
                    let '(first, last, _, target) := run in
                    (128 <=? target) || ((target =? 107) && (last =? first)))
                    Unicode.lower_runs = true)
        by (vm_compute; reflexivity).
      rewrite List.forallb_forall in H. specialize (H _ Hin). cbv beta iota zeta in H.
      apply orb_true_iff in H as [H|H].
      * apply N.leb_le in H. left. exists d. split; [lia|reflexivity].
      * apply andb_true_iff in H as [H1 H2].
        apply N.eqb_eq in H1, H2. right. left. f_equal. lia.
    + left. exists c. split; [exact Hc|reflexivity].
Qed.

Lemma lower_at_ascii (before : str) (c : N) (after : str) :
  c < 128 -> Unicode.lower_at before c after = [lower_char c].
Proof.
  intros Hc. unfold Unicode.lower_at, Unicode.to_lower_full, lower_char.
  replace (c =? 931) with false by (symmetry; apply N.eqb_neq; lia).
  replace (c <? 128) with true by (symmetry; apply N.ltb_lt; exact Hc).
  reflexivity.
Qed.

(** A searched text starts the full lower case of a text where it
    starts its ASCII lower case. *)
Lemma lower_startswith (e sig before : str) :
  searched sig = true ->
  startswith sig (Unicode.lower_from before e) = startswith sig (lower e).
Proof.
  revert sig before. induction e as [|c e IH]; intros sig before Hsig; [reflexivity|].
  cbn [Unicode.lower_from]. change (lower (c :: e)) with (lower_char c :: lower e).
  destruct sig as [|s sig]; [destruct (Unicode.lower_at before c e ++ _); reflexivity|].
  pose proof Hsig as Hfull.
  apply searched_tail in Hsig as [Hs [Hk Hsig]].
  destruct (N.lt_ge_cases c 128) as [Hc|Hc].
  - rewrite lower_at_ascii by exact Hc. cbn [app startswith].
    rewrite (IH sig (c :: before) Hsig). reflexivity.
  - assert (Hr : startswith (s :: sig) (lower_char c :: lower e) = false).
    { cbn [startswith]. unfold lower_char, is_upper.
      replace (c <=? 90) with false by (symmetry; apply N.leb_gt; lia).
      rewrite andb_false_r.
      replace (s =? c) with false by (symmetry; apply N.eqb_neq; lia).
      reflexivity. }
    rewrite Hr.
    destruct (lower_at_beyond_ascii before c e Hc) as [[d [Hd ->]] | [-> | ->]];
      cbn [app startswith].
    + replace (s =? d) with false by (symmetry; apply N.eqb_neq; lia). reflexivity.
    + replace (s =? 107) with false by (symmetry; apply N.eqb_neq; exact Hk).
      reflexivity.
    + destruct (s =? 105) eqn:E; [|reflexivity]. apply N.eqb_eq in E. subst s.
      destruct sig as [|s2 sig].
      * discriminate Hfull.
      * apply searched_tail in Hsig as [Hs2 _]. cbn [startswith].
        replace (s2 =? 775) with false by (symmetry; apply N.eqb_neq; lia).
        reflexivity.
Qed.

(** Looking for a searched text in the lower case of a text gives the
    same with the full mapping as with the ASCII one. *)
Lemma lower_contains (e sig before : str) :
  searched sig = true -> sig <> [] ->
  contains sig (Unicode.lower_from before e) = contains sig (lower e).
Proof.
  intros Hsig Hne. revert before. induction e as [|c e IH]; intros before; [reflexivity|].
  pose proof (lower_startswith (c :: e) sig before Hsig) as Hst.
  cbn [Unicode.lower_from] in *. change (lower (c :: e)) with (lower_char c :: lower e) in *.
  cbn [contains]. rewrite <- Hst, <- (IH (c :: before)).
  destruct sig as [|s sig]; [contradiction|].
  apply searched_tail in Hsig as [Hs [Hk Hsig]].
  destruct (N.lt_ge_cases c 128) as [Hc|Hc].
  - rewrite lower_at_ascii by exact Hc. reflexivity.
  - destruct (lower_at_beyond_ascii before c e Hc) as [[d [Hd ->]] | [-> | ->]];
      try reflexivity.
    cbn [app contains].
    replace (startswith (s :: sig) (775 :: Unicode.lower_from (c :: before) e))
      with false; [reflexivity|].
    cbn [startswith].
    replace (s =? 775) with false by (symmetry; apply N.eqb_neq; lia).
    reflexivity.
Qed.

Lemma quota_indicators_searched :
  Forall (fun sig => searched sig = true /\ sig <> []) gemini_processor.quota_indicators.
Proof. repeat constructor; discriminate. Qed.

Lemma lower_quota_test (e : str) :
  existsb (fun indicator => contains indicator (Unicode.lower e))
    gemini_processor.quota_indicators
  = existsb (fun indicator => contains indicator (lower e))
      gemini_processor.quota_indicators.
Proof.
  pose proof quota_indicators_searched as H.
  induction H as [|sig l [H1 H2] _ IH]; [reflexivity|].
  cbn [existsb]. rewrite IH. unfold Unicode.lower.
  rewrite (lower_contains e sig [] H1 H2). reflexivity.
Qed.

(** ** The model gateway *)

Section Gateway.

Import gemini_processor.

(** A text carries a quota signature when one of the six indicators
    occurs in it, letter case apart. *)
Definition has_quota_signature (e : str) : Prop :=
  exists sig pre mid post,
    In sig quota_indicators /\ e = pre ++ mid ++ post /\ lower mid = sig.

Lemma is_quota_error_iff (e : str) :
  _is_quota_error e = true <-> has_quota_signature e.
Proof.
  unfold _is_quota_error, has_quota_signature. cbv zeta.
  rewrite lower_quota_test, existsb_exists. split.
  - intros [sig [Hin Hc]]. apply contains_spec in Hc as [pre' [post' H]].
    unfold lower in H. apply map_eq_app in H as [pre [rest [-> [Hpre H]]]].
    apply map_eq_app in H as [mid [post [-> [Hmid Hpost]]]].
    exists sig, pre, mid, post. auto.
  - intros [sig [pre [mid [post [Hin [-> Hl]]]]]]. exists sig. split; [exact Hin|].
    apply contains_spec. exists (lower pre), (lower post).
    rewrite !lower_app, Hl. reflexivity.
Qed.

(** What one attempt yields: the text of its failure, or the text of
    the response. *)
Definition attempt_result (reply : gen_reply) : str + str :=
  match reply with
  | GenRaise msg => inl msg
  | GenText [] => inl (py "Empty response from Gemini API")
  | GenText text => inr text
  end.

Lemma try_generate_run (model_name prompt : str) (w : world) (tr : list event) :
  try_generate model_name prompt w tr =
    (Return (attempt_result (generate_content w tr model_name prompt)),
     tr ++ [Generate model_name prompt]).
Proof.
  unfold try_generate, mbind, M_bind, bind, generate. simpl.
  destruct (generate_content w tr model_name prompt) as [[|c t]|msg]; reflexivity.
Qed.

(** A fallback-tier call makes one attempt, whatever it yields. *)
Lemma call_fallback_run (fuel : nat) (message : str) (w : world) (tr : list event) :
  call_gemini_api_fuel (S fuel) message true w tr =
    (match attempt_result
             (generate_content w tr Config.GOOGLE_FALLBACK_MODEL (full_prompt message)) with
     | inr text => Return text
     | inl e => Raise (GeminiProcessingError [Txt (py "API request failed: " ++ e)])
     end,
     tr ++ [Generate Config.GOOGLE_FALLBACK_MODEL (full_prompt message)]).
Proof.
  cbn [call_gemini_api_fuel]. unfold mbind, M_bind, bind.
  rewrite try_generate_run.
  destruct (attempt_result _); reflexivity.
Qed.

(** A primary-tier call: one attempt, and a second one exactly when
    the first failed with a quota error. *)
Lemma call_primary_run (fuel : nat) (message : str) (w : world) (tr : list event) :
  let first := Generate Config.GOOGLE_MODEL (full_prompt message) in
  let second := Generate Config.GOOGLE_FALLBACK_MODEL (full_prompt message) in
  call_gemini_api_fuel (S (S fuel)) message false w tr =
    match attempt_result (generate_content w tr Config.GOOGLE_MODEL (full_prompt message)) with
    | inr text => (Return text, tr ++ [first])
    | inl e =>
        if _is_quota_error e then
          (match attempt_result
                   (generate_content w (tr ++ [first]) Config.GOOGLE_FALLBACK_MODEL
                      (full_prompt message)) with
           | inr text => Return text
           | inl e2 =>
               Raise (GeminiProcessingError
                        [Txt (py "Both models failed. Primary: " ++ e
                                ++ py ", Fallback: API request failed: " ++ e2)])
           end,
           tr ++ [first; second])
        else
          (Raise (GeminiProcessingError [Txt (py "API request failed: " ++ e)]),
           tr ++ [first])
    end.
Proof.
  intros first second.
  change (call_gemini_api_fuel (S (S fuel)) message false w tr) with
    (mbind (M := M)
       (fun r : str + str =>
          match r with
          | inr text => mret text
          | inl e =>
              if negb false && _is_quota_error e then
                try_except
                  (call_gemini_api_fuel (S fuel) message true)
                  (fun fallback_error =>
                     raise (GeminiProcessingError
                              (fstring (Txt (py "Both models failed. Primary: " ++ e
                                               ++ py ", Fallback: ")
                                          :: str_of_exn fallback_error))))
              else
                raise (GeminiProcessingError [Txt (py "API request failed: " ++ e)])
          end)
       (try_generate Config.GOOGLE_MODEL (full_prompt message)) w tr).
  unfold mbind, M_bind, bind. rewrite try_generate_run.
  destruct (attempt_result _) as [e|text]; [|reflexivity].
  cbn [negb andb]. destruct (_is_quota_error e); [|reflexivity].
  unfold try_except. rewrite call_fallback_run.
  rewrite <- app_assoc. cbn [app].
  destruct (attempt_result _) as [e2|text2]; [|reflexivity].
  unfold raise. cbn [str_of_exn fstring]. rewrite <- !app_assoc. reflexivity.
Qed.

End Gateway.

(** ** Enrichment lookup *)

Section Enrichment.

Import attio_client.

Lemma try_search_run (model_name company_name : str) (w : world) (tr : list event) :
  try_search model_name company_name w tr =
    (Return (match generate_content w tr model_name (website_prompt company_name) with
             | GenRaise msg => inl msg
             | GenText text => inr (answer_domain text)
             end),
     tr ++ [Generate model_name (website_prompt company_name)]).
Proof.
  unfold try_search, mbind, M_bind, bind, generate.
  destruct (generate_content w tr model_name _); reflexivity.
Qed.

Lemma search_fallback_run (fuel : nat) (company_name : str) (w : world)
    (tr : list event) :
  _search_company_website_fuel (S fuel) company_name true w tr =
    (Return (match generate_content w tr Config.GOOGLE_FALLBACK_MODEL
                     (website_prompt company_name) with
             | GenRaise _ => None
             | GenText text => answer_domain text
             end),
     tr ++ [Generate Config.GOOGLE_FALLBACK_MODEL (website_prompt company_name)]).
Proof.
  cbn [_search_company_website_fuel]. unfold mbind, M_bind, bind.
  rewrite try_search_run.
  destruct (generate_content w tr _ _); reflexivity.
Qed.

Lemma search_primary_run (fuel : nat) (company_name : str) (w : world)
    (tr : list event) :
  let first := Generate Config.GOOGLE_MODEL (website_prompt company_name) in
  let second := Generate Config.GOOGLE_FALLBACK_MODEL (website_prompt company_name) in
  _search_company_website_fuel (S (S fuel)) company_name false w tr =
    match generate_content w tr Config.GOOGLE_MODEL (website_prompt company_name) with
    | GenText text => (Return (answer_domain text), tr ++ [first])
    | GenRaise e =>
        if _is_quota_error e then
          (Return (match generate_content w (tr ++ [first])
                           Config.GOOGLE_FALLBACK_MODEL (website_prompt company_name) with
                   | GenRaise _ => None
                   | GenText text => answer_domain text
                   end),
           tr ++ [first; second])
        else (Return None, tr ++ [first])
    end.
Proof.
  intros first second.
  change (_search_company_website_fuel (S (S fuel)) company_name false w tr) with
    (mbind (M := M)
       (fun r : str + option str =>
          match r with
          | inr result => mret result
          | inl e =>
              if negb false && _is_quota_error e then
                try_except
                  (_search_company_website_fuel (S fuel) company_name true)
                  (fun fallback_error => mret None)
              else mret None
          end)
       (try_search Config.GOOGLE_MODEL company_name) w tr).
  unfold mbind, M_bind, bind. rewrite try_search_run.
  destruct (generate_content w tr _ _) as [text|e]; [reflexivity|].
  cbn [negb andb]. destruct (_is_quota_error e); [|reflexivity].
  unfold try_except. rewrite search_fallback_run.
  rewrite <- app_assoc. reflexivity.
Qed.

(** The lookup always returns. *)
Lemma search_returns (company_name : str) (use_fallback : bool) (w : world)
    (tr : list event) :
  exists result added,
    _search_company_website company_name use_fallback w tr
      = (Return result, tr ++ added)
    /\ (length added <= 2)%nat
    /\ (use_fallback = true -> length added = 1%nat).
Proof.
  unfold _search_company_website. destruct use_fallback.
  - rewrite search_fallback_run. eexists _, _. split; [reflexivity|].
    split; [simpl; lia | reflexivity].
  - rewrite search_primary_run.
    destruct (generate_content w tr _ _) as [text|e].
    + eexists _, _. split; [reflexivity|]. split; [simpl; lia | discriminate].
    + destruct (_is_quota_error e).
      * eexists _, _. split; [reflexivity|]. split; [simpl; lia | discriminate].
      * eexists _, _. split; [reflexivity|]. split; [simpl; lia | discriminate].
Qed.

End Enrichment.

(** ** Claims on the gateway and on the lookup *)

Section GatewayClaims.

Import gemini_processor.

(** A world whose generation calls fail: the primary model with a
    quota error, the fallback model with another error. *)
Definition quota_world : world :=
  {| generate_content := fun _ model_name _ =>
       if str_eqb model_name Config.GOOGLE_MODEL
       then GenRaise (py "429 Quota exceeded")
       else GenRaise (py "overloaded");
     requests_post := fun _ _ _ => HttpRaise (py "unreachable") |}.

(** C2: a primary-tier call that fails with an error carrying a quota
    signature (letter case apart) is retried once, on the fallback
    model, and a failure of the retry is reported together with the
    primary failure; an error without signature, or any error of a
    fallback-tier call, is raised at once after the single attempt. *)
Theorem gateway_fallback_policy (message e : str) (use_fallback : bool)
    (w : world) (tr : list event) :
  let model_name :=
    if use_fallback then Config.GOOGLE_FALLBACK_MODEL else Config.GOOGLE_MODEL in
  let first := Generate model_name (full_prompt message) in
  let second := Generate Config.GOOGLE_FALLBACK_MODEL (full_prompt message) in
  generate_content w tr model_name (full_prompt message) = GenRaise e ->
  (use_fallback = false -> has_quota_signature e ->
     call_gemini_api message use_fallback w tr =
       (match attempt_result
                (generate_content w (tr ++ [first]) Config.GOOGLE_FALLBACK_MODEL
                   (full_prompt message)) with
        | inr text => Return text
        | inl e2 =>
            Raise (GeminiProcessingError
                     [Txt (py "Both models failed. Primary: " ++ e
                             ++ py ", Fallback: API request failed: " ++ e2)])
        end,
        tr ++ [first; second]))
  /\ (use_fallback = true \/ ~ has_quota_signature e ->
        call_gemini_api message use_fallback w tr =
          (Raise (GeminiProcessingError [Txt (py "API request failed: " ++ e)]),
           tr ++ [first])).
Proof.
  intros model_name first second Hreply. unfold call_gemini_api. split.
  - intros -> Hsig. rewrite call_primary_run.
    subst model_name first second. cbn beta iota zeta in *. rewrite Hreply.
    cbn [attempt_result]. apply is_quota_error_iff in Hsig. rewrite Hsig.
    reflexivity.
  - intros Hcase. destruct use_fallback.
    + rewrite call_fallback_run. subst model_name first.
      cbn beta iota zeta in *. rewrite Hreply. reflexivity.
    + destruct Hcase as [Hf | Hnsig]; [discriminate|].
      rewrite call_primary_run. subst model_name first.
      cbn beta iota zeta in *. rewrite Hreply. cbn [attempt_result].
      destruct (_is_quota_error e) eqn:Hq; [|reflexivity].
      exfalso. apply Hnsig, is_quota_error_iff, Hq.
Qed.

Lemma gateway_fallback_policy_witness :
  call_gemini_api (py "hello") false quota_world [] =
    (Raise (GeminiProcessingError
              [Txt (py "Both models failed. Primary: 429 Quota exceeded, Fallback: API request failed: overloaded")]),
     [Generate Config.GOOGLE_MODEL (full_prompt (py "hello"));
      Generate Config.GOOGLE_FALLBACK_MODEL (full_prompt (py "hello"))]).
Proof.
  destruct (gateway_fallback_policy (py "hello") (py "429 Quota exceeded") false
              quota_world [] eq_refl) as [H _].
  rewrite H.
  - reflexivity.
  - reflexivity.
  - exists (py "quota"), (py "429 "), (py "Quota"), (py " exceeded").
    split; [simpl; auto | split; reflexivity].
Defined.

(** The calls that are generation attempts. *)
Definition is_generation (ev : event) : Prop :=
  match ev with Generate _ _ => True | Post _ _ => False end.

Local Ltac bound_case :=
  eexists _, _; repeat split;
  try reflexivity; try discriminate;
  try (destruct (attempt_result _); discriminate);
  try (simpl; lia); repeat constructor.

(** C3: a call of the gateway returns or raises after at most two
    generation attempts, whatever depth the model allows beyond two,
    and a fallback-tier call after exactly one, whatever the attempt
    yields; the lookup of a company website, which follows the same
    policy, obeys the same bounds. *)
Theorem generation_attempts_bounded (text : str) (use_fallback : bool)
    (w : world) (tr : list event) (extra : nat) :
  (exists (res : outcome str) (added : list event),
      call_gemini_api text use_fallback w tr = (res, tr ++ added)
      /\ call_gemini_api_fuel (S (S extra)) text use_fallback w tr = (res, tr ++ added)
      /\ res <> OutOfFuel
      /\ Forall is_generation added
      /\ (length added <= 2)%nat
      /\ (use_fallback = true -> length added = 1%nat))
  /\ (exists (res : option str) (added : list event),
        attio_client._search_company_website text use_fallback w tr
          = (Return res, tr ++ added)
        /\ attio_client._search_company_website_fuel (S (S extra)) text use_fallback w tr
             = (Return res, tr ++ added)
        /\ Forall is_generation added
        /\ (length added <= 2)%nat
        /\ (use_fallback = true -> length added = 1%nat)).
Proof.
  split.
  - unfold call_gemini_api. destruct use_fallback.
    + rewrite !call_fallback_run. bound_case.
    + rewrite !call_primary_run.
      destruct (attempt_result _) as [e|t]; [destruct (_is_quota_error e)|];
        bound_case.
  - unfold attio_client._search_company_website. destruct use_fallback.
    + rewrite !search_fallback_run. bound_case.
    + rewrite !search_primary_run.
      destruct (generate_content w tr _ _) as [t|e];
        [|destruct (attio_client._is_quota_error e)]; bound_case.
Qed.

End GatewayClaims.

Section LookupClaims.

Import attio_client.

Lemma contains_char (c : N) (s : str) : contains [c] s = true <-> In c s.
Proof.
  rewrite contains_spec. split.
  - intros [pre [post ->]]. apply in_or_app. right. left. reflexivity.
  - intros H. apply in_split in H as [pre [post ->]]. exists pre, post. reflexivity.
Qed.

Lemma looks_like_domain_iff (c : str) :
  looks_like_domain c = true <-> c <> py "none" /\ In 46 c /\ ~ In 32 c.
Proof.
  unfold looks_like_domain, str_eqb.
  change (py ".") with [46]. change (py " ") with [32].
  generalize (py "none") as none. intros none.
  rewrite !andb_true_iff, !negb_true_iff, bool_decide_eq_false, contains_char.
  rewrite <- not_true_iff_false, contains_char. tauto.
Qed.

(** The post-processing as the specification words it: the three
    prefixes are removed where the text starts with them, slashes are
    removed at the end. *)
Definition strip_prefix (p s : str) : str :=
  if startswith p s then drop (length p) s else s.

Definition leading_removed (text : str) : str :=
  strip_prefix (py "www.")
    (strip_prefix (py "http://")
       (strip_prefix (py "https://") (Unicode.lower (strip text)))).

Definition cleaned_spec (text : str) : str :=
  rev (lstrip_by (N.eqb 47) (rev (leading_removed text))).

(** The specification: any white space disqualifies. *)
Definition resolve_domain_spec (text : str) : option str :=
  let cleaned := cleaned_spec text in
  if negb (str_eqb cleaned (py "none")) && contains (py ".") cleaned
     && negb (existsb is_space cleaned)
  then Some cleaned else None.

(** The specification with the space character in the place of white
    space. *)
Definition resolve_domain_amended (text : str) : option str :=
  let cleaned := cleaned_spec text in
  if negb (str_eqb cleaned (py "none")) && contains (py ".") cleaned
     && negb (contains (py " ") cleaned)
  then Some cleaned else None.

(** The texts on which the three markers stand in front only: none of
    them is left once it has been removed from the head, and what
    remains does not start with a slash. *)
Definition markers_lead_only (text : str) : Prop :=
  let t := Unicode.lower (strip text) in
  let s1 := strip_prefix (py "https://") t in
  let s2 := strip_prefix (py "http://") s1 in
  let s3 := strip_prefix (py "www.") s2 in
  contains (py "https://") s1 = false
  /\ contains (py "http://") s2 = false
  /\ contains (py "www.") s3 = false
  /\ startswith [47] s3 = false.

Lemma remove_go_absent (old s : str) :
  contains old s = false -> remove_go old O s = s.
Proof.
  induction s as [|c s IH]; [reflexivity|].
  cbn [contains remove_go]. intros H.
  apply orb_false_iff in H as [H1 H2].
  rewrite H1, (IH H2). reflexivity.
Qed.

Lemma remove_go_skip (old p r : str) :
  remove_go old (length p) (p ++ r) = remove_go old O r.
Proof.
  induction p as [|c p IH]; [reflexivity|]. cbn [length app remove_go]. exact IH.
Qed.

(** Deleting every occurrence of a marker is removing it from the head
    when it occurs nowhere else. *)
Lemma remove_all_leading (old s : str) :
  old <> [] ->
  contains old (strip_prefix old s) = false ->
  remove_all old s = strip_prefix old s.
Proof.
  intros Hold. unfold strip_prefix, remove_all.
  destruct (startswith old s) eqn:Hs.
  - apply startswith_spec in Hs as [r ->].
    rewrite drop_app_length. intros Hr.
    destruct old as [|c old]; [contradiction|].
    cbn [app remove_go].
    rewrite (proj2 (startswith_spec (c :: old) (c :: old ++ r)))
      by (exists r; reflexivity).
    cbn [length Nat.pred]. rewrite remove_go_skip. apply remove_go_absent, Hr.
  - apply remove_go_absent.
Qed.

Lemma strip_char_trailing (c : N) (s : str) :
  startswith [c] s = false -> strip_char c s = rev (lstrip_by (N.eqb c) (rev s)).
Proof.
  intros H. unfold strip_char, strip_by.
  destruct s as [|x s]; [reflexivity|].
  cbn [startswith] in H. rewrite andb_true_r in H.
  cbn [lstrip_by]. rewrite H. reflexivity.
Qed.

Lemma clean_website_spec (text : str) :
  markers_lead_only text -> clean_website text = cleaned_spec text.
Proof.
  intros [H1 [H2 [H3 H4]]]. unfold clean_website, cleaned_spec, leading_removed.
  rewrite (remove_all_leading (py "https://")) by (discriminate || exact H1).
  rewrite (remove_all_leading (py "http://")) by (discriminate || exact H2).
  rewrite (remove_all_leading (py "www.")) by (discriminate || exact H3).
  apply strip_char_trailing. exact H4.
Qed.

(** A world whose model answers every prompt with [text]. *)
Definition world_answering (text : str) : world :=
  {| generate_content := fun _ _ _ => GenText text;
     requests_post := fun _ _ _ => HttpRaise (py "unreachable") |}.

(** C6, as stated, fails: the code deletes the three markers wherever
    they occur, strips slashes at both ends, and looks for the space
    character only. *)
Lemma resolve_domain_counterexample :
  (fst (run (_search_company_website (py "Acme") false)
          (world_answering (py "acme" ++ 9 :: py "inc.com")))
     = Return (Some (py "acme" ++ 9 :: py "inc.com"))
   /\ resolve_domain_spec (py "acme" ++ 9 :: py "inc.com") = None)
  /\ (fst (run (_search_company_website (py "Acme") false)
             (world_answering (py "info.www.acme.com")))
        = Return (Some (py "info.acme.com"))
      /\ resolve_domain_spec (py "info.www.acme.com") = Some (py "info.www.acme.com"))
  /\ (fst (run (_search_company_website (py "Acme") false)
             (world_answering (py "/acme.com")))
        = Return (Some (py "acme.com"))
      /\ resolve_domain_spec (py "/acme.com") = Some (py "/acme.com")).
Proof. vm_compute. repeat split. Qed.

(** C6, amended: on a response text that carries [https://],
    [http://] and [www.] in front only, and no slash in front once
    they are removed, the answer is the text trimmed, lowercased, with
    these prefixes and the trailing slashes removed, exactly when this
    is not [none], contains a dot and contains no space character;
    otherwise it is nothing.  A failure of the model is never raised:
    it yields nothing, after one retry on the fallback model when it
    is a quota error. *)
Theorem resolve_domain_cleaning (company_name : str) (w : world) (tr : list event) :
  let prompt := website_prompt company_name in
  let first := Generate Config.GOOGLE_MODEL prompt in
  let second := Generate Config.GOOGLE_FALLBACK_MODEL prompt in
  (forall text,
      generate_content w tr Config.GOOGLE_MODEL prompt = GenText text ->
      _search_company_website company_name false w tr
        = (Return (answer_domain text), tr ++ [first]))
  /\ (forall text, markers_lead_only text ->
        answer_domain text = resolve_domain_amended text)
  /\ (forall e,
        generate_content w tr Config.GOOGLE_MODEL prompt = GenRaise e ->
        _search_company_website company_name false w tr =
          if _is_quota_error e then
            (Return (match generate_content w (tr ++ [first])
                             Config.GOOGLE_FALLBACK_MODEL prompt with
                     | GenRaise _ => None
                     | GenText text => answer_domain text
                     end),
             tr ++ [first; second])
          else (Return None, tr ++ [first]))
  /\ (exists result added,
        _search_company_website company_name false w tr
          = (Return result, tr ++ added))
  /\ (markers_lead_only (py "https://www.Example.com/")
      /\ answer_domain (py "https://www.Example.com/") = Some (py "example.com")
      /\ answer_domain (py "NONE") = None
      /\ answer_domain (py "none") = None
      /\ answer_domain (py "contains space") = None
      /\ answer_domain (py "localhost") = None
      /\ answer_domain (196 :: py "GIR.COM") = Some (228 :: py "gir.com")).
Proof.
  intros prompt first second.
  split; [|split; [|split; [|split; [|vm_compute; repeat split]]]].
  - intros text Hreply. unfold _search_company_website.
    rewrite search_primary_run. fold prompt. rewrite Hreply. reflexivity.
  - intros text Hdom. unfold answer_domain, resolve_domain_amended.
    destruct text as [|c0 text0]; [reflexivity|].
    change (truthy (JStr (c0 :: text0))) with true. cbv iota zeta.
    rewrite (clean_website_spec _ Hdom). reflexivity.
  - intros e Hreply. unfold _search_company_website.
    rewrite search_primary_run. fold prompt. rewrite Hreply. reflexivity.
  - destruct (search_returns company_name false w tr) as [r [added [H _]]].
    exists r, added. exact H.
Qed.

End LookupClaims.

(** ** HTTP calls of the client *)

Section Http.

Import attio_client.

(** The status codes for which [raise_for_status] raises. *)
Definition error_status (r : response) : bool :=
  (400 <=? status_code r) && (status_code r <? 600).

(** A call is refused when it raises or is answered with an error
    status. *)
Definition refused (reply : http_reply) : bool :=
  match reply with
  | HttpRaise _ => true
  | HttpResponse r => error_status r
  end.

Lemma raise_for_status_run (url : str) (r : response) (w : world) (tr : list event) :
  (error_status r = true /\
     exists msg, raise_for_status url r w tr = (Raise (RequestException msg (Some r)), tr))
  \/ (error_status r = false /\ raise_for_status url r w tr = (Return tt, tr)).
Proof.
  unfold raise_for_status, error_status.
  destruct (400 <=? status_code r) eqn:H4; cbn [andb].
  - destruct (status_code r <? 500) eqn:H5.
    + left. split; [|eexists; reflexivity].
      apply N.ltb_lt. apply N.ltb_lt in H5. lia.
    + destruct (500 <=? status_code r) eqn:H5'.
      * cbn [andb]. destruct (status_code r <? 600).
        -- left. split; [reflexivity | eexists; reflexivity].
        -- right. split; reflexivity.
      * apply N.ltb_ge in H5. apply N.leb_gt in H5'. lia.
  - destruct (500 <=? status_code r) eqn:H5; cbn [andb].
    + apply N.leb_gt in H4. apply N.leb_le in H5. lia.
    + right. split; reflexivity.
Qed.

(** A create call adds one event to the trace and never runs out of
    fuel; a refused one raises a [RequestException], which carries
    the response when there is one. *)
Lemma post_record_run (endpoint : str) (payload : json) (w : world) (tr : list event) :
  exists res,
    post_record endpoint payload w tr = (res, tr ++ [Post endpoint payload])
    /\ res <> OutOfFuel
    /\ (forall r, requests_post w tr endpoint payload = HttpResponse r ->
          error_status r = true ->
          exists msg, res = Raise (RequestException msg (Some r)))
    /\ (forall msg, requests_post w tr endpoint payload = HttpRaise msg ->
          res = Raise (RequestException msg None)).
Proof.
  unfold post_record, mbind, M_bind, bind, post.
  destruct (requests_post w tr endpoint payload) as [r|msg].
  - destruct (raise_for_status_run endpoint r w (tr ++ [Post endpoint payload]))
      as [[He [m Hm]] | [He Hm]]; rewrite Hm.
    + eexists. split; [reflexivity|]. split; [discriminate|].
      split; [|discriminate]. intros r' Hr' _. injection Hr' as <-. eauto.
    + unfold response_json, lift, py_get, mret, M_ret, ret, raise.
      destruct (body r) as [dmsg|[| | | | | |fields]];
        try (eexists; split; [reflexivity|]; split; [discriminate|];
             split; [intros r' Hr' He'; injection Hr' as <-; congruence | discriminate]).
      cbv beta iota zeta.
      destruct (default (JObj []) (assoc (py "id") fields));
        (eexists; split; [reflexivity|]; split; [discriminate|];
         split; [intros r' Hr' He'; injection Hr' as <-; congruence | discriminate]).
  - eexists. split; [reflexivity|]. split; [discriminate|].
    split; [discriminate|]. intros m Hm. injection Hm as <-. reflexivity.
Qed.

(** Attribute creation makes one call; it raises [AttioAPIError]
    exactly when the call is refused. *)
Lemma create_attribute_run (object_slug attribute_slug : str) (w : world)
    (tr : list event) :
  let call := Post (attributes_endpoint object_slug) (attribute_payload attribute_slug) in
  exists res,
    _create_attribute object_slug attribute_slug w tr = (res, tr ++ [call])
    /\ (refused (requests_post w tr (attributes_endpoint object_slug)
                   (attribute_payload attribute_slug)) = true ->
        exists msg, res = Raise (AttioAPIError msg))
    /\ (refused (requests_post w tr (attributes_endpoint object_slug)
                   (attribute_payload attribute_slug)) = false ->
        res = Return tt).
Proof.
  intros call. unfold _create_attribute, except_request, try_except, mbind, M_bind,
    bind, post.
  destruct (requests_post w tr _ _) as [r|msg]; cbn [refused].
  - destruct (raise_for_status_run (attributes_endpoint object_slug) r w (tr ++ [call]))
      as [[He [m Hm]] | [He Hm]]; fold call; rewrite Hm, He.
    + eexists. split; [reflexivity|]. split; [eauto | discriminate].
    + eexists. split; [reflexivity|]. split; [discriminate | reflexivity].
  - eexists. split; [reflexivity|]. split; [eauto | discriminate].
Qed.

Lemma match_missing_contains (s slug : str) :
  Regex.match_missing s = Some slug ->
  startswith (py "Cannot find attribute") s = true.
Proof.
  unfold Regex.match_missing.
  destruct (startswith Regex.missing_prefix s) eqn:H; [|discriminate].
  intros _. apply startswith_spec in H as [r ->].
  apply startswith_spec. exists (py " with slug/ID " ++ r). reflexivity.
Qed.

Lemma search_missing_contains (s slug : str) :
  Regex.search_missing s = Some slug ->
  contains (py "Cannot find attribute") s = true.
Proof.
  induction s as [|c s IH].
  - cbn [Regex.search_missing]. destruct (Regex.match_missing []) eqn:H; [|discriminate].
    intros _. apply match_missing_contains in H. discriminate.
  - cbn [Regex.search_missing contains].
    destruct (Regex.match_missing (c :: s)) eqn:H.
    + intros _. apply match_missing_contains in H. rewrite H. reflexivity.
    + intros Hs. rewrite (IH Hs). apply orb_true_r.
Qed.

(** What the handler reads in a 400 answer whose body has a textual
    [message]. *)
Lemma missing_attribute_400 (r : response) (error_data : list (str * json)) (m : str) :
  status_code r = 400 ->
  body r = inr (JObj error_data) ->
  assoc (py "message") error_data = Some (JStr m) ->
  missing_attribute (Some r) = Regex.search_missing m.
Proof.
  intros Hs Hb Hm. unfold missing_attribute. rewrite Hs, Hb, Hm.
  change (400 =? 400) with true. cbv beta iota. cbn [default from_option id].
  destruct (Regex.search_missing m) eqn:H.
  - rewrite (search_missing_contains _ _ H). reflexivity.
  - destruct (contains _ m); reflexivity.
Qed.

End Http.

(** ** Attribute repair *)

Section Repair.

Import attio_client.

(** The error body of the service for a missing attribute [slug],
    between the quotes [q1] and [q2]. *)
Definition missing_body (q1 q2 : N) (slug : string) : json :=
  JObj [(py "message",
         JStr (py "Cannot find attribute with slug/ID " ++ q1 :: py slug
                 ++ q2 :: py "."))].

Definition bad_request (body : json) : http_reply :=
  HttpResponse {| status_code := 400; reason := py "Bad Request"; body := inr body |}.

Definition ok (body : json) : http_reply :=
  HttpResponse {| status_code := 200; reason := py "OK"; body := inr body |}.

(** A world in which every create call is refused for want of the
    attribute [job_title], and attribute creation succeeds. *)
Definition stubborn_world : world :=
  {| generate_content := fun _ _ _ => GenText (py "NONE");
     requests_post := fun _ url _ =>
       if str_eqb url (attributes_endpoint (py "people"))
       then ok (JObj [])
       else bad_request (missing_body 8220 8221 "job_title") |}.

Lemma span_group_app (slug rest : str) (q2 : N) :
  Forall (fun c => Regex.is_close_quote c = false) slug ->
  Regex.is_close_quote q2 = true ->
  Regex.span_group (slug ++ q2 :: rest) = (slug, q2 :: rest).
Proof.
  intros Hs Hq. induction Hs as [|c slug Hc Hs IH]; cbn [Regex.span_group app].
  - rewrite Hq. reflexivity.
  - rewrite Hc, IH. reflexivity.
Qed.

(** The pattern matches a message that starts with the announced
    sentence, and its group is the text between the quotes. *)
Lemma search_missing_shape (q1 q2 : N) (slug rest : str) :
  Regex.is_open_quote q1 = true ->
  Regex.is_close_quote q2 = true ->
  slug <> [] ->
  Forall (fun c => Regex.is_close_quote c = false) slug ->
  Regex.search_missing (Regex.missing_prefix ++ q1 :: slug ++ q2 :: rest) = Some slug.
Proof.
  intros Ho Hc Hne Hs.
  assert (Hm : Regex.match_missing (Regex.missing_prefix ++ q1 :: slug ++ q2 :: rest)
               = Some slug).
  { unfold Regex.match_missing.
    rewrite (proj2 (startswith_spec _ _)) by (eexists; reflexivity).
    rewrite drop_app_length, Ho, span_group_app by assumption.
    destruct slug; [contradiction | reflexivity]. }
  destruct (Regex.missing_prefix ++ q1 :: slug ++ q2 :: rest);
    cbn [Regex.search_missing]; rewrite Hm; reflexivity.
Qed.

(** The request body for a text attribute [attribute_slug] titled
    [attribute_title], as the service is to receive it. *)
Definition text_attribute_body (attribute_slug attribute_title : str) : json :=
  JObj [(py "data",
         JObj [(py "title", JStr attribute_title);
               (py "api_slug", JStr attribute_slug);
               (py "description",
                JStr (py "Auto-created attribute for " ++ attribute_title));
               (py "type", JStr (py "text"));
               (py "is_multiselect", JBool false);
               (py "is_required", JBool false);
               (py "is_unique", JBool false);
               (py "config", JObj [])])].

(** The slugs of the static table. *)
Definition known_slugs : list str :=
  [py "linkedin_url"; py "job_title"; py "location"; py "description";
   py "companies"].

Lemma attribute_config_unknown (slug : str) :
  ~ In slug known_slugs -> attribute_config !! slug = None.
Proof.
  intros Hn. unfold attribute_config. apply not_elem_of_list_to_map_1.
  intros H. apply Hn. apply list_elem_of_In. exact H.
Qed.

(** C1: when a create call is answered 400 with a message matched by
    the missing-attribute pattern, the engine makes one
    create-attribute call for the slug of the match and the same
    object, then, if that call was accepted, replays the create call
    once with the same payload; it returns what the replay returns
    and raises [AttioAPIError] when attribute creation or the replay
    fails, or when the message does not match, without any further
    call.  The create-attribute call goes to the attributes of the
    object and its body is that of a text attribute: titled by the
    table for the known slugs ([job_title] gives [Job Title];
    [companies] alone is a reference to the companies, not a text),
    and otherwise titled by the slug with spaces for underscores and
    capitalised words ([favourite_colour] gives [Favourite Colour]). *)
Theorem create_record_attribute_repair (object_type object_slug : str)
    (payload : json) (r : response) (error_data : list (str * json)) (m : str)
    (w : world) (tr : list event) :
  let endpoint := records_endpoint object_slug in
  let create_call := Post endpoint payload in
  let attribute_call slug :=
    Post (attributes_endpoint object_slug) (attribute_payload slug) in
  let failure : outcome json :=
    Raise (AttioAPIError
             [Txt (capitalize object_type ++ py " creation failed: " ++ m)]) in
  requests_post w tr endpoint payload = HttpResponse r ->
  status_code r = 400 ->
  body r = inr (JObj error_data) ->
  assoc (py "message") error_data = Some (JStr m) ->
  create_with_repair object_type object_slug payload w tr =
    match Regex.search_missing m with
    | None => (failure, tr ++ [create_call])
    | Some slug =>
        if refused (requests_post w (tr ++ [create_call])
                      (attributes_endpoint object_slug) (attribute_payload slug))
        then (failure, tr ++ [create_call; attribute_call slug])
        else
          (match fst (post_record endpoint payload w
                        (tr ++ [create_call; attribute_call slug])) with
           | Return created_record => Return created_record
           | _ => failure
           end,
           tr ++ [create_call; attribute_call slug; create_call])
    end
  /\ attributes_endpoint object_slug
       = py "https://api.attio.com/v2/objects/" ++ object_slug ++ py "/attributes"
  /\ endpoint
       = py "https://api.attio.com/v2/objects/" ++ object_slug ++ py "/records"
  /\ attribute_payload (py "job_title")
       = text_attribute_body (py "job_title") (py "Job Title")
  /\ attribute_payload (py "linkedin_url")
       = text_attribute_body (py "linkedin_url") (py "LinkedIn URL")
  /\ attribute_payload (py "location")
       = text_attribute_body (py "location") (py "Location")
  /\ attribute_payload (py "description")
       = text_attribute_body (py "description") (py "Description")
  /\ attribute_payload (py "companies")
       = JObj [(py "data",
                JObj [(py "title", JStr (py "Companies"));
                      (py "api_slug", JStr (py "companies"));
                      (py "description",
                       JStr (py "Auto-created attribute for Companies"));
                      (py "type", JStr (py "reference"));
                      (py "is_multiselect", JBool true);
                      (py "is_required", JBool false);
                      (py "is_unique", JBool false);
                      (py "config",
                       JObj [(py "reference",
                              JObj [(py "target_object",
                                     JStr (py "companies"))])])])]
  /\ (forall slug, ~ In slug known_slugs ->
        attribute_payload slug
          = text_attribute_body slug (Unicode.title (replace_char 95 32 slug)))
  /\ Unicode.title (replace_char 95 32 (py "favourite_colour"))
       = py "Favourite Colour"
  /\ Unicode.title (replace_char 95 32 [233; 116; 233; 95; 120])
       = [201; 116; 233; 32; 88]
  /\ (forall q1 q2 slug rest,
        In q1 [34; 39; 8220] -> In q2 [34; 39; 8221] ->
        slug <> [] -> Forall (fun c => ~ In c [34; 39; 8221]) slug ->
        Regex.search_missing
          (py "Cannot find attribute with slug/ID " ++ q1 :: slug ++ q2 :: rest)
          = Some slug).
Proof.
  intros endpoint create_call attribute_call failure Hreply Hs Hb Hm.
  split; [|split; [reflexivity|split; [reflexivity|split; [vm_compute; reflexivity|
    split; [vm_compute; reflexivity|split; [vm_compute; reflexivity|
    split; [vm_compute; reflexivity|split; [vm_compute; reflexivity|
    split; [|split; [vm_compute; reflexivity|
    split; [vm_compute; reflexivity|]]]]]]]]]]].
  2:{ intros slug Hn. unfold attribute_payload, settings_for.
      rewrite (attribute_config_unknown slug Hn).
      generalize (Unicode.title (replace_char 95 32 slug)). intros t.
      reflexivity. }
  2:{ intros q1 q2 slug rest H1 H2 Hne Hslug.
      apply search_missing_shape; [| |exact Hne|].
      - cbn [In] in H1. destruct H1 as [<-|[<-|[<-|[]]]]; reflexivity.
      - cbn [In] in H2. destruct H2 as [<-|[<-|[<-|[]]]]; reflexivity.
      - eapply Forall_impl; [exact Hslug|]. intros c Hc. cbn beta in Hc.
        unfold Regex.is_close_quote.
        destruct (c =? 34) eqn:E1;
          [apply N.eqb_eq in E1; subst c; exfalso; apply Hc; cbn; auto|].
        destruct (c =? 39) eqn:E2;
          [apply N.eqb_eq in E2; subst c; exfalso; apply Hc; cbn; auto|].
        destruct (c =? 8221) eqn:E3;
          [apply N.eqb_eq in E3; subst c; exfalso; apply Hc; cbn; auto|].
        reflexivity. }
  unfold create_with_repair, except_request, try_except. fold endpoint.
  destruct (post_record_run endpoint payload w tr) as [res0 [H0 [_ [Herr _]]]].
  destruct (Herr r Hreply) as [msg ->].
  { unfold error_status. rewrite Hs. reflexivity. }
  rewrite H0. fold create_call.
  rewrite (missing_attribute_400 r error_data m Hs Hb Hm).
  assert (Hfail : forall tr',
    raise (A := json)
      (AttioAPIError
         (fstring [Txt (capitalize object_type ++ py " creation failed: ");
                   error_detail msg (Some r)])) w tr' = (failure, tr')).
  { intros tr'. unfold raise, error_detail, failure. rewrite Hb, Hm.
    cbn [default from_option id part_of_value fstring].
    rewrite <- app_assoc. reflexivity. }
  destruct (Regex.search_missing m) as [slug|]; [|apply Hfail].
  unfold mbind, M_bind, bind, attempt.
  destruct (create_attribute_run object_slug slug w (tr ++ [create_call]))
    as [res1 [H1 [Hbad Hgood]]].
  rewrite H1. fold (attribute_call slug).
  replace ((tr ++ [create_call]) ++ [attribute_call slug])
    with (tr ++ [create_call; attribute_call slug])
    by (rewrite <- app_assoc; reflexivity).
  destruct (refused _).
  - destruct (Hbad eq_refl) as [amsg ->]. apply Hfail.
  - rewrite (Hgood eq_refl).
    destruct (post_record_run endpoint payload w
                (tr ++ [create_call; attribute_call slug]))
      as [res2 [H2 [Hfuel _]]].
    rewrite H2. cbn [fst].
    replace ((tr ++ [create_call; attribute_call slug]) ++ [Post endpoint payload])
      with (tr ++ [create_call; attribute_call slug; create_call])
      by (rewrite <- app_assoc; reflexivity).
    destruct res2 as [c|e|]; [reflexivity | apply Hfail | contradiction].
Qed.

Lemma create_record_attribute_repair_witness :
  let payload := wrap_values [(py "name", JStr (py "Ann"))] in
  let create_call :=
    Post (py "https://api.attio.com/v2/objects/people/records") payload in
  create_with_repair (py "person") (py "people") payload stubborn_world [] =
    (Raise (AttioAPIError
              [Txt (py "Person creation failed: Cannot find attribute with slug/ID "
                      ++ 8220 :: py "job_title" ++ 8221 :: py ".")]),
     [create_call;
      Post (py "https://api.attio.com/v2/objects/people/attributes")
        (text_attribute_body (py "job_title") (py "Job Title"));
      create_call]).
Proof.
  intros payload create_call.
  destruct (create_record_attribute_repair (py "person") (py "people") payload
              {| status_code := 400; reason := py "Bad Request";
                 body := inr (missing_body 8220 8221 "job_title") |}
              [(py "message",
                JStr (py "Cannot find attribute with slug/ID " ++ 8220 :: py "job_title"
                        ++ 8221 :: py "."))]
              (py "Cannot find attribute with slug/ID " ++ 8220 :: py "job_title"
                 ++ 8221 :: py ".")
              stubborn_world [] eq_refl eq_refl eq_refl eq_refl) as [H _].
  rewrite H. vm_compute. reflexivity.
Defined.

End Repair.

(** ** Person creation and the company link *)

Section PersonCreation.

Import gemini_processor attio_client.

(** The attributes of a payload. *)
Definition payload_values (payload : json) : list (str * json) :=
  match payload with
  | JObj [(_, JObj [(_, JObj attributes)])] => attributes
  | _ => []
  end.

(** The record a company call yields: none when the call is refused
    or when the body of the answer does not decode. *)
Definition company_reply_record (reply : http_reply) : option json :=
  match reply with
  | HttpRaise _ => None
  | HttpResponse r =>
      if error_status r then None
      else match body r with inr company_record => Some company_record | inl _ => None end
  end.

(** The identifier read in a company record ([None] where the
    reading raises). *)
Definition record_id_of (company_record : json) : option json :=
  match company_record with
  | JObj fields =>
      match default (JObj []) (assoc (py "id") fields) with
      | JObj id => Some (default JNull (assoc (py "record_id") id))
      | _ => None
      end
  | _ => None
  end.

(** How a created company is carried in the dictionary. *)
Definition linked (data : gmap string json) (record_id : json)
    (company_domain : option str) : gmap string json :=
  if truthy record_id then <["company_record_id" := record_id]> data
  else if truthy (opt_json company_domain)
       then <["company_domain" := opt_json company_domain]> data
       else data.

Lemma create_or_get_company_run (company_name : str) (notes : json)
    (w : world) (tr tr1 : list event) (dom : option str) :
  _search_company_website company_name false w tr = (Return dom, tr1) ->
  let payload := company_payload company_name dom notes in
  _create_or_get_company company_name notes w tr =
    (Return (match company_reply_record (requests_post w tr1 companies_endpoint payload) with
             | Some company_record => (Some company_record, dom)
             | None => (None, None)
             end),
     tr1 ++ [Post companies_endpoint payload]).
Proof.
  intros Hs payload.
  unfold _create_or_get_company, except_request, try_except, mbind, M_bind, bind.
  rewrite Hs. fold payload. unfold post, company_reply_record.
  destruct (requests_post w tr1 companies_endpoint payload) as [r|msg]; [|reflexivity].
  destruct (raise_for_status_run companies_endpoint r w
              (tr1 ++ [Post companies_endpoint payload]))
    as [[He [m Hm]] | [He Hm]]; rewrite Hm, He; [reflexivity|].
  unfold response_json. destruct (body r); reflexivity.
Qed.

Lemma create_with_repair_returns (object_type object_slug : str) (payload : json)
    (created : json) (w : world) (tr tr' : list event) :
  post_record (records_endpoint object_slug) payload w tr = (Return created, tr') ->
  create_with_repair object_type object_slug payload w tr = (Return created, tr').
Proof.
  intros H. unfold create_with_repair, except_request, try_except.
  rewrite H. reflexivity.
Qed.

(** The run of [create_record] for a person with a company. *)
Lemma create_record_person_run (lead : LeadData) (c : str) (w : world)
    (tr tr1 : list event) (dom : option str) :
  object_type lead = py "person" ->
  company lead = Some c ->
  c <> [] ->
  _search_company_website c false w tr = (Return dom, tr1) ->
  let data := _lead_data_to_dict lead in
  let company_call :=
    Post companies_endpoint (company_payload c dom (opt_json (notes lead))) in
  let tr2 := tr1 ++ [company_call] in
  let create data' :=
    create_with_repair (py "person") (py "people") (_build_person_payload data') w tr2 in
  create_record lead w tr =
    match company_reply_record
            (requests_post w tr1 companies_endpoint
               (company_payload c dom (opt_json (notes lead)))) with
    | None => create data
    | Some company_record =>
        if truthy company_record then
          match record_id_of company_record with
          | Some record_id => create (linked data record_id dom)
          | None => (Raise (PyError "AttributeError"), tr2)
          end
        else create data
    end.
Proof.
  intros Hot Hco Hc Hs data company_call tr2 create.
  unfold create_record. rewrite Hot.
  change (negb (existsb (str_eqb (py "person")) valid_types)) with false.
  cbv iota. fold data.
  change (dict_get data "company") with (opt_json (company lead)).
  rewrite Hco. cbn [opt_json].
  assert (Ht : truthy (JStr c) = true).
  { unfold truthy, str_eqb. rewrite bool_decide_eq_false_2 by exact Hc. reflexivity. }
  rewrite Ht.
  change (str_eqb (py "person") (py "person") && true) with true. cbv iota.
  unfold mbind at 1. unfold M_bind at 1. unfold bind at 1.
  unfold link_company.
  change (default (JStr []) (data !! "notes")) with (opt_json (notes lead)).
  change (dict_get data "company") with (opt_json (company lead)).
  rewrite Hco. cbn [opt_json text_of].
  unfold mbind at 1. unfold M_bind at 1. unfold bind at 1.
  rewrite (create_or_get_company_run c (opt_json (notes lead)) w tr tr1 dom Hs).
  fold company_call. fold tr2.
  assert (Hgo : forall data',
    (payload ← lift (_build_attio_payload data' (py "person"));
     match object_plural !! py "person" with
     | Some object_slug => create_with_repair (py "person") object_slug payload
     | None => raise (PyError "KeyError")
     end) w tr2 = create data').
  { intros data'. reflexivity. }
  destruct (company_reply_record _) as [company_record|].
  - cbn [default from_option id].
    destruct (truthy company_record); [|apply Hgo].
    unfold record_id_of, py_get, lift, mbind, M_bind, bind.
    destruct company_record as [| | | | | |fields]; try reflexivity.
    destruct (default (JObj []) (assoc (py "id") fields)) as [| | | | | |idf];
      try reflexivity.
    unfold linked.
    destruct (truthy (default JNull (assoc (py "record_id") idf))); [apply Hgo|].
    destruct (truthy (opt_json dom)); apply Hgo.
  - cbn [default from_option id truthy]. apply Hgo.
Qed.

(** *** Reading the attributes of a payload *)

Lemma assoc_set_eq (k : str) (v : json) (l : list (str * json)) :
  assoc k (assoc_set k v l) = Some v.
Proof.
  induction l as [|[k' v'] l IH]; cbn [assoc assoc_set]; unfold str_eqb.
  - rewrite bool_decide_eq_true_2 by reflexivity. reflexivity.
  - destruct (bool_decide (k = k')) eqn:H; cbn [assoc]; unfold str_eqb.
    + rewrite bool_decide_eq_true_2 by reflexivity. reflexivity.
    + rewrite H. exact IH.
Qed.

Lemma assoc_set_ne (k k' : str) (v : json) (l : list (str * json)) :
  k <> k' -> assoc k (assoc_set k' v l) = assoc k l.
Proof.
  intros Hne. induction l as [|[k'' v''] l IH]; cbn [assoc assoc_set]; unfold str_eqb.
  - rewrite bool_decide_eq_false_2 by exact Hne. reflexivity.
  - destruct (bool_decide (k' = k'')) eqn:H; cbn [assoc]; unfold str_eqb.
    + apply bool_decide_eq_true in H. subst k''.
      rewrite !bool_decide_eq_false_2 by exact Hne. reflexivity.
    + destruct (bool_decide (k = k'')); [reflexivity | exact IH].
Qed.

Lemma assoc_add_if_ne (k : str) (cond : bool) (key : string) (v : json)
    (l : list (str * json)) :
  k <> py key -> assoc k (add_if cond key v l) = assoc k l.
Proof.
  intros Hne. unfold add_if. destruct cond; [apply assoc_set_ne, Hne | reflexivity].
Qed.

Lemma assoc_add_if_eq (cond : bool) (key : string) (v : json)
    (l : list (str * json)) :
  assoc (py key) (add_if cond key v l) = if cond then Some v else assoc (py key) l.
Proof. unfold add_if. destruct cond; [apply assoc_set_eq | reflexivity]. Qed.

Local Ltac key_ne :=
  let H := fresh in intros H; vm_compute in H; discriminate H.

(** The company link of a person payload. *)
Lemma person_payload_company (data : gmap string json) :
  assoc (py "company") (payload_values (_build_person_payload data)) =
    if truthy (dict_get data "company_domain")
    then Some (dict_get data "company_domain")
    else if truthy (dict_get data "company_record_id")
         then Some (JList [JObj [(py "target_object", JStr (py "companies"));
                                 (py "target_record_id",
                                  dict_get data "company_record_id")]])
         else None.
Proof.
  unfold _build_person_payload, wrap_values, payload_values, add_description.
  cbv zeta.
  rewrite assoc_add_if_ne by key_ne.
  destruct (truthy (dict_get data "company_domain")).
  - apply assoc_set_eq.
  - destruct (truthy (dict_get data "company_record_id")).
    + apply assoc_set_eq.
    + rewrite !assoc_add_if_ne by key_ne. reflexivity.
Qed.

Lemma search_result_nonempty (company_name d : str) (use_fallback : bool)
    (w : world) (tr tr1 : list event) :
  _search_company_website company_name use_fallback w tr = (Return (Some d), tr1) ->
  d <> [].
Proof.
  assert (Ha : forall text, answer_domain text = Some d -> d <> []).
  { intros text H. unfold answer_domain in H.
    destruct (truthy (JStr text)); [|discriminate].
    destruct (looks_like_domain (clean_website text)) eqn:Hl; [|discriminate].
    injection H as <-. apply looks_like_domain_iff in Hl as [_ [Hin _]].
    intros E. rewrite E in Hin. exact Hin. }
  unfold _search_company_website. destruct use_fallback.
  - rewrite search_fallback_run. intros H. injection H as H _.
    destruct (generate_content w tr _ _); [eapply Ha, H | discriminate].
  - rewrite search_primary_run.
    destruct (generate_content w tr _ _) as [text|e].
    + intros H. injection H as H _. eapply Ha, H.
    + destruct (_is_quota_error e); intros H; injection H as H _; [|discriminate].
      destruct (generate_content w _ _ _); [eapply Ha, H | discriminate].
Qed.

(** Every run of the [try] statement starts with the create call. *)
Lemma create_with_repair_trace (object_type object_slug : str) (payload : json)
    (w : world) (tr : list event) :
  exists res rest,
    create_with_repair object_type object_slug payload w tr
      = (res, tr ++ Post (records_endpoint object_slug) payload :: rest)
    /\ res <> OutOfFuel.
Proof.
  unfold create_with_repair, except_request, try_except.
  destruct (post_record_run (records_endpoint object_slug) payload w tr)
    as [res0 [H0 [Hfuel _]]].
  rewrite H0.
  destruct res0 as [c|e|]; [| |contradiction].
  { exists (Return c), []. split; [reflexivity | discriminate]. }
  destruct e as [m|m|msg resp|errs|cls];
    try (eexists _, []; split; [reflexivity | discriminate]).
  destruct (missing_attribute resp) as [slug|];
    [|eexists _, []; split; [reflexivity | discriminate]].
  unfold mbind, M_bind, bind, attempt.
  destruct (create_attribute_run object_slug slug w
              (tr ++ [Post (records_endpoint object_slug) payload]))
    as [res1 [H1 [Hbad Hgood]]].
  rewrite H1.
  destruct (refused _).
  - destruct (Hbad eq_refl) as [amsg ->].
    eexists _, [_]. rewrite <- app_assoc. split; [reflexivity | discriminate].
  - rewrite (Hgood eq_refl).
    destruct (post_record_run (records_endpoint object_slug) payload w
                ((tr ++ [Post (records_endpoint object_slug) payload]) ++
                 [Post (attributes_endpoint object_slug) (attribute_payload slug)]))
      as [res2 [H2 [Hfuel2 _]]].
    rewrite H2.
    destruct res2 as [c|e|]; [| |contradiction];
      (eexists _, [_; _]; rewrite <- !app_assoc; split; [reflexivity | discriminate]).
Qed.

(** A world whose company calls time out and whose other create
    calls are accepted. *)
Definition no_company_world : world :=
  {| generate_content := fun _ _ _ => GenText (py "stripe.com");
     requests_post := fun _ url _ =>
       if str_eqb url companies_endpoint
       then HttpRaise (py "Read timed out.")
       else ok (JObj [(py "id", JObj [(py "record_id", JStr (py "rec_1"))])]) |}.

Definition sarah : LeadData :=
  {| object_type := py "person"; name := py "Sarah Chen"; email := None;
     phone := None; company := Some (py "Stripe");
     job_title := Some (py "VP of Engineering"); location := None;
     linkedin_url := None; deal_value := None; deal_stage := None;
     notes := Some (py "Met today") |}.

(** C7: when the company call of a person creation fails, the person
    payload is built from the lead alone, without company link, the
    person create call is issued next, and the record it creates is
    returned; the failure of the company call is not raised. *)
Theorem person_creation_survives_company_failure (lead : LeadData) (c : str)
    (w : world) (tr tr1 : list event) (dom : option str) :
  let company_body := company_payload c dom (opt_json (notes lead)) in
  let payload := _build_person_payload (_lead_data_to_dict lead) in
  let endpoint := records_endpoint (py "people") in
  let tr2 := tr1 ++ [Post companies_endpoint company_body] in
  object_type lead = py "person" ->
  company lead = Some c ->
  c <> [] ->
  _search_company_website c false w tr = (Return dom, tr1) ->
  company_reply_record (requests_post w tr1 companies_endpoint company_body) = None ->
  create_record lead w tr = create_with_repair (py "person") (py "people") payload w tr2
  /\ assoc (py "company") (payload_values payload) = None
  /\ (exists res rest,
        create_record lead w tr = (res, tr2 ++ Post endpoint payload :: rest)
        /\ res <> OutOfFuel)
  /\ (forall created tr3,
        post_record endpoint payload w tr2 = (Return created, tr3) ->
        create_record lead w tr = (Return created, tr3)).
Proof.
  intros company_body payload endpoint tr2 Hot Hco Hc Hs Hfail.
  assert (Hrun : create_record lead w tr
                 = create_with_repair (py "person") (py "people") payload w tr2).
  { rewrite (create_record_person_run lead c w tr tr1 dom Hot Hco Hc Hs).
    fold company_body. rewrite Hfail. reflexivity. }
  split; [exact Hrun|]. split.
  { unfold payload. rewrite person_payload_company. reflexivity. }
  split.
  - rewrite Hrun. apply create_with_repair_trace.
  - intros created tr3 Hpost. rewrite Hrun.
    apply create_with_repair_returns, Hpost.
Qed.

Lemma person_creation_survives_company_failure_witness :
  fst (run (create_record sarah) no_company_world)
    = Return (JObj [(py "id", JObj [(py "record_id", JStr (py "rec_1"))])]).
Proof.
  destruct (person_creation_survives_company_failure sarah (py "Stripe")
              no_company_world []
              [Generate Config.GOOGLE_MODEL (website_prompt (py "Stripe"))]
              (Some (py "stripe.com")))
    as [_ [_ [_ H]]].
  - reflexivity.
  - reflexivity.
  - discriminate.
  - vm_compute. reflexivity.
  - vm_compute. reflexivity.
  - unfold run. erewrite H; [reflexivity|]. vm_compute. reflexivity.
Defined.

(** A world whose company call returns the record [company_record]. *)
Definition company_world (answer : str) (company_record : json) : world :=
  {| generate_content := fun _ _ _ => GenText answer;
     requests_post := fun _ url _ =>
       if str_eqb url companies_endpoint
       then ok company_record
       else ok (JObj [(py "id", JObj [(py "record_id", JStr (py "rec_1"))])]) |}.

(** C9, as stated, fails: the company call is accepted, no identifier
    comes back and a domain was resolved, yet the person is created
    without company link, the empty record being taken for a failure;
    and an accepted record whose [id] is not an object stops the
    creation with [AttributeError]. *)
Lemma company_link_counterexample :
  let lookup := Generate Config.GOOGLE_MODEL (website_prompt (py "Stripe")) in
  let company_call :=
    Post companies_endpoint
      (company_payload (py "Stripe") (Some (py "stripe.com"))
         (JStr (py "Met today"))) in
  let payload := _build_person_payload (_lead_data_to_dict sarah) in
  (company_reply_record
     (requests_post (company_world (py "stripe.com") (JObj [])) [lookup]
        companies_endpoint
        (company_payload (py "Stripe") (Some (py "stripe.com"))
           (JStr (py "Met today"))))
     = Some (JObj [])
   /\ run (create_record sarah) (company_world (py "stripe.com") (JObj []))
        = (Return (JObj [(py "id", JObj [(py "record_id", JStr (py "rec_1"))])]),
           [lookup; company_call; Post (records_endpoint (py "people")) payload])
   /\ assoc (py "company") (payload_values payload) = None)
  /\ run (create_record sarah)
       (company_world (py "stripe.com") (JObj [(py "id", JStr (py "abc"))]))
       = (Raise (PyError "AttributeError"), [lookup; company_call]).
Proof. vm_compute. repeat split. Qed.

(** C9, amended: after a company call that is accepted with a
    non-empty record whose identifier can be read, the identifier is
    carried when there is one, and the domain is not; without
    identifier the resolved domain is carried, if any.  In the person
    payload the company link is the carried domain itself, or else a
    one-element list holding the reference to the carried identifier;
    there is no company link when neither is available.  An accepted
    record that is empty is taken for a failure: nothing is carried
    and the person is created without link.  An accepted record that
    is not empty and whose identifier cannot be read stops the
    creation with [AttributeError], before the person call. *)
Theorem company_link_shape (lead : LeadData) (c : str) (w : world)
    (tr tr1 : list event) (dom : option str) (company_record : json) :
  let company_body := company_payload c dom (opt_json (notes lead)) in
  let dict := _lead_data_to_dict lead in
  let tr2 := tr1 ++ [Post companies_endpoint company_body] in
  let create data :=
    create_with_repair (py "person") (py "people") (_build_person_payload data) w tr2 in
  let link data := assoc (py "company") (payload_values (_build_person_payload data)) in
  object_type lead = py "person" ->
  company lead = Some c ->
  c <> [] ->
  _search_company_website c false w tr = (Return dom, tr1) ->
  company_reply_record (requests_post w tr1 companies_endpoint company_body)
    = Some company_record ->
  (truthy company_record = false ->
     create_record lead w tr = create dict /\ link dict = None)
  /\ (truthy company_record = true -> record_id_of company_record = None ->
        create_record lead w tr = (Raise (PyError "AttributeError"), tr2))
  /\ (forall record_id,
        truthy company_record = true ->
        record_id_of company_record = Some record_id ->
        let data := linked dict record_id dom in
        create_record lead w tr = create data
        /\ (truthy record_id = true ->
              data = <["company_record_id" := record_id]> dict
              /\ data !! "company_domain" = None
              /\ link data
                   = Some (JList [JObj [(py "target_object", JStr (py "companies"));
                                        (py "target_record_id", record_id)]]))
        /\ (truthy record_id = false ->
              match dom with
              | Some d =>
                  data = <["company_domain" := JStr d]> dict
                  /\ data !! "company_record_id" = None
                  /\ link data = Some (JStr d)
              | None => data = dict /\ link data = None
              end))
  /\ (record_id_of company_record = None <->
      match company_record with
      | JObj fields =>
          match assoc (py "id") fields with
          | None | Some (JObj _) => False
          | Some _ => True
          end
      | _ => True
      end).
Proof.
  intros company_body dict tr2 create link Hot Hco Hc Hs Hrec.
  pose proof (create_record_person_run lead c w tr tr1 dom Hot Hco Hc Hs) as Hrun.
  cbv zeta in Hrun. fold company_body in Hrun. rewrite Hrec in Hrun.
  split; [|split; [|split]].
  - intros Htr. rewrite Htr in Hrun. split; [exact Hrun|].
    unfold link. rewrite person_payload_company. reflexivity.
  - intros Htr Hid. rewrite Htr, Hid in Hrun. exact Hrun.
  - intros record_id Htr Hid data. rewrite Htr, Hid in Hrun.
    split; [exact Hrun|].
    unfold link. rewrite person_payload_company.
    unfold data, linked. split.
    + intros Hrid. rewrite Hrid. split; [reflexivity|]. split; [reflexivity|].
      change (dict_get (<["company_record_id":=record_id]> dict) "company_domain")
        with JNull.
      change (dict_get (<["company_record_id":=record_id]> dict) "company_record_id")
        with record_id.
      cbn [truthy]. rewrite Hrid. reflexivity.
    + intros Hrid. rewrite Hrid. destruct dom as [d|].
      * pose proof (search_result_nonempty c d false w tr tr1 Hs) as Hd.
        assert (Ht : truthy (JStr d) = true).
        { unfold truthy, str_eqb. rewrite bool_decide_eq_false_2 by exact Hd.
          reflexivity. }
        cbn [opt_json]. rewrite Ht. split; [reflexivity|]. split; [reflexivity|].
        change (dict_get (<["company_domain":=JStr d]> dict) "company_domain")
          with (JStr d).
        rewrite Ht. reflexivity.
      * cbn [opt_json truthy]. split; [reflexivity|]. reflexivity.
  - unfold record_id_of.
    destruct company_record as [| | | | | |fields]; try (split; [intros _; exact I | reflexivity]).
    destruct (assoc (py "id") fields) as [[| | | | | |idf]|];
      cbn [default from_option id];
      split; try discriminate; try contradiction; try reflexivity;
      intros _; exact I.
Qed.

Lemma company_link_shape_witness :
  let created := JObj [(py "id", JObj [(py "record_id", JStr (py "comp_7"))])] in
  assoc (py "company")
    (payload_values
       (_build_person_payload
          (linked (_lead_data_to_dict sarah) (JStr (py "comp_7"))
             (Some (py "stripe.com")))))
    = Some (JList [JObj [(py "target_object", JStr (py "companies"));
                         (py "target_record_id", JStr (py "comp_7"))]]).
Proof.
  intros created.
  destruct (company_link_shape sarah (py "Stripe")
              (company_world (py "stripe.com") created) []
              [Generate Config.GOOGLE_MODEL (website_prompt (py "Stripe"))]
              (Some (py "stripe.com")) created)
    as [_ [_ [H _]]].
  - reflexivity.
  - reflexivity.
  - discriminate.
  - vm_compute. reflexivity.
  - vm_compute. reflexivity.
  - destruct (H (JStr (py "comp_7")) eq_refl eq_refl) as [_ [Hl _]].
    destruct (Hl eq_refl) as [_ [_ Hlink]]. exact Hlink.
Defined.

End PersonCreation.

(** ** Company and deal payloads *)

Section Payloads.

Import gemini_processor attio_client.

Local Ltac key_ne :=
  let H := fresh in intros H; vm_compute in H; discriminate H.

Lemma split_char_plain (sep : N) (s : str) :
  ~ In sep s -> split_char sep s = [s].
Proof.
  induction s as [|c s IH]; intros Hn; cbn [split_char]; [reflexivity|].
  destruct (c =? sep) eqn:E.
  - apply N.eqb_eq in E. subst c. exfalso. apply Hn. left. reflexivity.
  - rewrite IH; [reflexivity|]. intros H. apply Hn. right. exact H.
Qed.

Lemma split_char_first (sep : N) (a s : str) :
  ~ In sep a -> split_char sep (a ++ sep :: s) = a :: split_char sep s.
Proof.
  induction a as [|c a IH]; intros Hn; cbn [split_char app].
  - rewrite N.eqb_refl. reflexivity.
  - destruct (c =? sep) eqn:E.
    + apply N.eqb_eq in E. subst c. exfalso. apply Hn. left. reflexivity.
    + rewrite IH; [reflexivity|]. intros H. apply Hn. right. exact H.
Qed.

Lemma contains_char_false (c : N) (s : str) :
  contains [c] s = false <-> ~ In c s.
Proof. rewrite <- contains_char. symmetry. apply not_true_iff_false. Qed.

(** C10: the payload of a company whose email is set (a non-empty
    string) has a [domains] entry with one domain: the text between
    the first and the second at sign of the email, which is the
    whole remainder when there is one at sign only, and the email
    itself when it has no at sign. *)
Theorem company_payload_domain (lead : LeadData) (e : str) :
  object_type lead = py "company" ->
  email lead = Some e ->
  e <> [] ->
  exists payload d,
    _build_attio_payload (_lead_data_to_dict lead) (object_type lead) = Return payload
    /\ assoc (py "domains") (payload_values payload)
         = Some (JList [JObj [(py "domain", JStr d)]])
    /\ (~ In 64 e -> d = e)
    /\ (forall a b, e = a ++ 64 :: b -> ~ In 64 a -> ~ In 64 b -> d = b)
    /\ (forall a b rest, e = a ++ 64 :: b ++ 64 :: rest ->
          ~ In 64 a -> ~ In 64 b -> d = b).
Proof.
  intros Hot Hem He. rewrite Hot.
  exists (_build_company_payload (_lead_data_to_dict lead)).
  exists (if contains [64] e then default [] (split_char 64 e !! 1%nat) else e).
  split; [reflexivity|]. split.
  - unfold _build_company_payload, wrap_values, payload_values, add_description.
    cbv zeta. rewrite assoc_add_if_ne by key_ne. rewrite assoc_add_if_eq.
    change (dict_get (_lead_data_to_dict lead) "email") with (opt_json (email lead)).
    rewrite Hem. cbn [opt_json text_of].
    assert (Ht : truthy (JStr e) = true).
    { unfold truthy, str_eqb. rewrite bool_decide_eq_false_2 by exact He. reflexivity. }
    rewrite Ht. reflexivity.
  - split; [|split].
    + intros Hn. apply contains_char_false in Hn. rewrite Hn. reflexivity.
    + intros a b -> Ha Hb.
      assert (Hc : contains [64] (a ++ 64 :: b) = true).
      { apply contains_char, in_or_app. right. left. reflexivity. }
      rewrite Hc, split_char_first by exact Ha.
      rewrite split_char_plain by exact Hb. reflexivity.
    + intros a b rest -> Ha Hb.
      assert (Hc : contains [64] (a ++ 64 :: b ++ 64 :: rest) = true).
      { apply contains_char, in_or_app. right. left. reflexivity. }
      rewrite Hc, split_char_first by exact Ha.
      rewrite split_char_first by exact Hb. reflexivity.
Qed.

Definition acme : LeadData :=
  {| object_type := py "company"; name := py "Acme Corp";
     email := Some (py "sales@acme.com"); phone := None; company := None;
     job_title := None; location := Some (py "New York"); linkedin_url := None;
     deal_value := None; deal_stage := None; notes := Some (py "SaaS company") |}.

Lemma company_payload_domain_witness :
  exists payload,
    _build_attio_payload (_lead_data_to_dict acme) (object_type acme) = Return payload
    /\ assoc (py "domains") (payload_values payload)
         = Some (JList [JObj [(py "domain", JStr (py "acme.com"))]]).
Proof.
  destruct (company_payload_domain acme (py "sales@acme.com") eq_refl eq_refl)
    as [payload [d [H1 [H2 [_ [H3 _]]]]]].
  - discriminate.
  - exists payload. split; [exact H1|]. rewrite H2.
    rewrite (H3 (py "sales") (py "acme.com")).
    + reflexivity.
    + reflexivity.
    + vm_compute. intros H. repeat (destruct H as [H|H]; [discriminate H|]). exact H.
    + vm_compute. intros H. repeat (destruct H as [H|H]; [discriminate H|]). exact H.
Defined.

(** The deal of the module's own test. *)
Definition test_deal : LeadData :=
  {| object_type := py "deal"; name := py "Enterprise Deal with TechCo";
     email := None; phone := None; company := Some (py "TechCo");
     job_title := None; location := None; linkedin_url := None;
     deal_value := Some (float_of_Z 50000);
     deal_stage := Some (py "negotiation"); notes := Some (py "Q1 2024 target") |}.

(** C8 fails on the code: the dictionary built from a lead has
    neither [deal_value] nor [deal_stage], so the payload of a deal
    never has a value or a stage, although the builder sets both when
    it is handed a dictionary that has them.  For the deal of the
    module's test the payload is the name and the description. *)
Theorem deal_payload_drops_value_and_stage :
  _build_attio_payload (_lead_data_to_dict test_deal) (object_type test_deal)
    = Return (wrap_values
                [(py "name", JStr (py "Enterprise Deal with TechCo"));
                 (py "description", JStr (py "Company: TechCo
Q1 2024 target"))])
  /\ (forall lead : LeadData,
        _lead_data_to_dict lead !! "deal_value" = None
        /\ _lead_data_to_dict lead !! "deal_stage" = None)
  /\ (forall lead : LeadData,
        exists payload,
          _build_deal_payload (_lead_data_to_dict lead) = Return payload
          /\ assoc (py "value") (payload_values payload) = None
          /\ assoc (py "stage") (payload_values payload) = None)
  /\ _build_deal_payload
       (<["deal_stage" := JStr (py "negotiation")]>
          (<["deal_value" := JFloat (float_of_Z 50000)]>
             (_lead_data_to_dict test_deal)))
       = Return (wrap_values
                   [(py "name", JStr (py "Enterprise Deal with TechCo"));
                    (py "value", JObj [(py "currency", JStr (py "USD"));
                                       (py "value", JInt 50000)]);
                    (py "stage", JStr (py "negotiation"));
                    (py "description", JStr (py "Company: TechCo
Q1 2024 target"))]).
Proof.
  split; [vm_compute; reflexivity|].
  split; [intros lead; split; reflexivity|].
  split; [|vm_compute; reflexivity].
  intros lead. eexists. split.
  - unfold _build_deal_payload.
    change (dict_get (_lead_data_to_dict lead) "deal_value") with JNull.
    cbn [truthy]. cbv iota beta zeta.
    change (dict_get (_lead_data_to_dict lead) "deal_stage") with JNull.
    reflexivity.
  - unfold wrap_values, payload_values, add_description.
    rewrite !assoc_add_if_ne by key_ne. split; reflexivity.
Qed.

End Payloads.

(** ** Extraction: validation and parsing *)

Section Extraction.

Import gemini_processor.

(** The text of a JSON object with the two required fields. *)
Definition two_fields (object_type name : string) : str :=
  concat [py "{"; quoted "object_type"; py ": "; quoted object_type; py ", ";
          quoted "name"; py ": "; quoted name; py "}"].

(** C4, as stated, fails: an extraction whose [object_type] is not
    one of the four kinds validates, and the extraction returns the
    lead. *)
Lemma lead_validation_counterexample :
  fst (run (process_lead_message (py "Zed came by"))
         (world_answering (two_fields "alien" "Zed")))
    = Return {| object_type := py "alien"; name := py "Zed"; email := None;
                phone := None; company := None; job_title := None;
                location := None; linkedin_url := None; deal_value := None;
                deal_stage := None; notes := None |}
  /\ existsb (str_eqb (py "alien")) attio_client.valid_types = false.
Proof. vm_compute. split; reflexivity. Qed.

Lemma required_str_missing (field : string) (data : list (str * json)) :
  assoc (py field) data = None -> required_str field data = inl (field, Missing).
Proof. intros H. unfold required_str. rewrite H. reflexivity. Qed.

Lemma validate_name_missing (data : list (str * json)) :
  assoc (py "name") data = None ->
  exists errs, validate data = inl errs /\ In ("name", Missing) errs.
Proof.
  intros H. unfold validate. rewrite (required_str_missing "name" data H).
  cbv zeta.
  destruct (required_str "object_type" data) as [p1|v1];
    (eexists; split; [reflexivity|]; cbn [problems app];
     first [left; reflexivity | right; left; reflexivity]).
Qed.

Lemma validate_object_type_missing (data : list (str * json)) :
  assoc (py "object_type") data = None ->
  exists errs, validate data = inl errs /\ In ("object_type", Missing) errs.
Proof.
  intros H. unfold validate. rewrite (required_str_missing "object_type" data H).
  cbv zeta. eexists. split; [reflexivity|]. left. reflexivity.
Qed.

(** C4, amended: validation fails when [name] is missing, or when
    [object_type] is; the extraction then fails with
    [GeminiProcessingError].  Any string is a valid [object_type], so
    a lead may come out of the extraction with a kind outside the
    four; it is [create_record] that rejects such a lead, with
    [AttioAPIError] and before any outbound call. *)
Theorem lead_validation (w : world) (tr : list event) :
  (forall data, assoc (py "name") data = None ->
     exists errs, LeadData_init (JObj data) = Raise (ValidationError errs)
                  /\ In ("name", Missing) errs)
  /\ (forall data, assoc (py "object_type") data = None ->
        exists errs, LeadData_init (JObj data) = Raise (ValidationError errs)
                     /\ In ("object_type", Missing) errs)
  /\ (forall message text tr' data,
        call_gemini_api message false w tr = (Return text, tr') ->
        parse_gemini_response text = Return (JObj data) ->
        assoc (py "name") data = None \/ assoc (py "object_type") data = None ->
        exists errs,
          process_lead_message message w tr =
            (Raise (GeminiProcessingError
                      [Txt (py "Invalid lead data format: "); StrOfValidation errs]),
             tr'))
  /\ (forall kind name : str,
        LeadData_init (JObj [(py "object_type", JStr kind); (py "name", JStr name)])
          = Return {| object_type := kind; name := name; email := None;
                      phone := None; company := None; job_title := None;
                      location := None; linkedin_url := None; deal_value := None;
                      deal_stage := None; notes := None |})
  /\ (forall lead : LeadData,
        existsb (str_eqb (object_type lead)) attio_client.valid_types = false ->
        exists msg,
          attio_client.create_record lead w tr = (Raise (AttioAPIError msg), tr)).
Proof.
  assert (H1 : forall data, assoc (py "name") data = None ->
     exists errs, LeadData_init (JObj data) = Raise (ValidationError errs)
                  /\ In ("name", Missing) errs).
  { intros data H. destruct (validate_name_missing data H) as [errs [Hv Hin]].
    exists errs. unfold LeadData_init. rewrite Hv. split; [reflexivity | exact Hin]. }
  assert (H2 : forall data, assoc (py "object_type") data = None ->
     exists errs, LeadData_init (JObj data) = Raise (ValidationError errs)
                  /\ In ("object_type", Missing) errs).
  { intros data H. destruct (validate_object_type_missing data H) as [errs [Hv Hin]].
    exists errs. unfold LeadData_init. rewrite Hv. split; [reflexivity | exact Hin]. }
  split; [exact H1|]. split; [exact H2|]. split; [|split].
  - intros message text tr' data Hcall Hparse Hmiss.
    assert (Hv : exists errs, LeadData_init (JObj data) = Raise (ValidationError errs)).
    { destruct Hmiss as [H|H];
        [destruct (H1 data H) as [errs [E _]] | destruct (H2 data H) as [errs [E _]]];
        exists errs; exact E. }
    destruct Hv as [errs Hv]. exists errs.
    unfold process_lead_message, try_except, mbind, M_bind, bind, lift.
    rewrite Hcall, Hparse, Hv. reflexivity.
  - intros kind name. reflexivity.
  - intros lead Hk. unfold attio_client.create_record. rewrite Hk.
    eexists. reflexivity.
Qed.

(** *** The parser *)

Lemma from_first_app (c : N) (pre t : str) :
  ~ In c pre -> Regex.from_first c (pre ++ c :: t) = Some (c :: t).
Proof.
  induction pre as [|x pre IH]; intros Hn; cbn [Regex.from_first app].
  - rewrite N.eqb_refl. reflexivity.
  - destruct (x =? c) eqn:E.
    + apply N.eqb_eq in E. subst x. exfalso. apply Hn. left. reflexivity.
    + apply IH. intros H. apply Hn. right. exact H.
Qed.

Lemma from_first_none (c : N) (s : str) :
  ~ In c s -> Regex.from_first c s = None.
Proof.
  induction s as [|x s IH]; intros Hn; cbn [Regex.from_first]; [reflexivity|].
  destruct (x =? c) eqn:E.
  - apply N.eqb_eq in E. subst x. exfalso. apply Hn. left. reflexivity.
  - apply IH. intros H. apply Hn. right. exact H.
Qed.

Lemma upto_last_app (c : N) (mid post : str) :
  ~ In c post -> Regex.upto_last c (mid ++ c :: post) = Some (mid ++ [c]).
Proof.
  intros Hn. unfold Regex.upto_last.
  rewrite rev_app_distr. cbn [rev]. rewrite <- app_assoc. cbn [app].
  rewrite from_first_app by (rewrite <- in_rev; exact Hn).
  cbn [rev]. rewrite rev_involutive. reflexivity.
Qed.

Lemma upto_last_none (c : N) (s : str) :
  ~ In c s -> Regex.upto_last c s = None.
Proof.
  intros Hn. unfold Regex.upto_last.
  rewrite from_first_none by (rewrite <- in_rev; exact Hn). reflexivity.
Qed.

(** The greedy span runs from the first opening brace to the last
    closing brace. *)
Lemma search_braces_span (pre mid post : str) :
  ~ In 123 pre -> ~ In 125 post ->
  Regex.search_braces (pre ++ 123 :: mid ++ 125 :: post) = Some (123 :: mid ++ [125]).
Proof.
  intros Hpre Hpost. unfold Regex.search_braces.
  rewrite from_first_app by exact Hpre.
  rewrite upto_last_app by exact Hpost. reflexivity.
Qed.

(** There is no span without an opening brace, nor without a closing
    brace after the first opening one. *)
Lemma search_braces_none (text : str) :
  ~ In 123 text \/ (exists pre post, text = pre ++ 123 :: post
                                      /\ ~ In 123 pre /\ ~ In 125 post) ->
  Regex.search_braces text = None.
Proof.
  intros [Hn | [pre [post [-> [Hpre Hpost]]]]]; unfold Regex.search_braces.
  - rewrite from_first_none by exact Hn. reflexivity.
  - rewrite from_first_app by exact Hpre.
    rewrite upto_last_none by exact Hpost. reflexivity.
Qed.

(** The texts of JSON objects that occur in a text: the substrings
    from an opening to a closing brace that decode to an object. *)
Fixpoint prefixes (s : str) : list str :=
  match s with
  | [] => []
  | c :: t => [c] :: map (cons c) (prefixes t)
  end.

Fixpoint substrings (s : str) : list str :=
  match s with
  | [] => []
  | _ :: t => prefixes s ++ substrings t
  end.

Definition is_object_text (s : str) : bool :=
  match s, JsonDecoder.loads s with
  | 123 :: _, JsonDecoder.Decoded (JObj _) => bool_decide (last s = Some 125)
  | _, _ => false
  end.

Definition embedded_objects (text : str) : list str :=
  List.filter is_object_text (substrings text).

Definition unparseable : outcome json :=
  Raise (GeminiProcessingError [Txt (py "Could not parse JSON from Gemini response")]).

Lemma prefixes_app (s t : str) : s <> [] -> In s (prefixes (s ++ t)).
Proof.
  revert t. induction s as [|c s IH]; intros t Hne; [contradiction|].
  cbn [app prefixes]. destruct s as [|d s].
  - left. reflexivity.
  - right. apply in_map. apply IH. discriminate.
Qed.

Lemma substrings_app (pre s post : str) :
  s <> [] -> In s (substrings (pre ++ s ++ post)).
Proof.
  intros Hne. induction pre as [|c pre IH]; cbn [app].
  - destruct s as [|d s]; [contradiction|]. cbn [app substrings].
    apply in_or_app. left. apply (prefixes_app (d :: s) post). discriminate.
  - cbn [substrings]. apply in_or_app. right. exact IH.
Qed.

Lemma from_first_spec (c : N) (s r : str) :
  Regex.from_first c s = Some r ->
  exists pre t, s = pre ++ r /\ r = c :: t.
Proof.
  induction s as [|x s IH]; cbn [Regex.from_first]; [discriminate|].
  destruct (x =? c) eqn:E.
  - intros H. injection H as <-. apply N.eqb_eq in E. subst x.
    exists [], s. split; reflexivity.
  - intros H. destruct (IH H) as [pre [t [-> ->]]].
    exists (x :: pre), t. split; reflexivity.
Qed.

(** The span of the pattern is a part of the text, between braces. *)
Lemma search_braces_spec (text span : str) :
  Regex.search_braces text = Some span ->
  exists pre mid post, text = pre ++ span ++ post /\ span = 123 :: mid ++ [125].
Proof.
  unfold Regex.search_braces.
  destruct (Regex.from_first 123 text) as [[|b t]|] eqn:Hf; try discriminate.
  destruct (from_first_spec _ _ _ Hf) as [pre [t' [-> Hb]]].
  injection Hb as -> <-.
  unfold Regex.upto_last.
  destruct (Regex.from_first 125 (rev t)) as [r|] eqn:Hl; [|discriminate].
  destruct (from_first_spec _ _ _ Hl) as [x [r' [Hrev ->]]].
  intros H. injection H as <-.
  assert (Ht : t = (rev r' ++ [125]) ++ rev x).
  { rewrite <- (rev_involutive t), Hrev, rev_app_distr. reflexivity. }
  exists pre, (rev r'), (rev x). cbn [rev]. split; [|reflexivity].
  rewrite Ht. cbn [app]. rewrite <- !app_assoc. reflexivity.
Qed.

(** What begins with an opening brace decodes to an object, if to
    anything. *)
Lemma scan_members_object (fuel depth : nat) (s : str) (acc : list (str * json))
    (v : json) (rest : str) :
  JsonDecoder.scan_members fuel depth s acc = JsonDecoder.Decoded (v, rest) ->
  exists fields, v = JObj fields.
Proof.
  revert s acc. induction fuel as [|f IH]; intros s acc;
    cbn [JsonDecoder.scan_members]; [discriminate|].
  destruct s as [|c s]; [discriminate|].
  destruct (c =? 34) eqn:Ec.
  2:{ destruct c as [|q]; [discriminate|].
      repeat (destruct q as [q|q|]; try discriminate). }
  apply N.eqb_eq in Ec. subst c.
  destruct (JsonDecoder.scan_string _ s []) as [[k rest1]|]; [|discriminate].
  destruct (JsonDecoder.skip_ws rest1) as [|c1 rest2]; [discriminate|].
  destruct (c1 =? 58) eqn:E1.
  2:{ destruct c1 as [|q]; [discriminate|].
      repeat (destruct q as [q|q|]; try discriminate). }
  apply N.eqb_eq in E1. subst c1.
  destruct (JsonDecoder.scan_value f depth _) as [[v1 rest3]| |cls]; try discriminate.
  destruct (JsonDecoder.skip_ws rest3) as [|c3 rest4]; [discriminate|].
  destruct (c3 =? 44) eqn:E3.
  { apply N.eqb_eq in E3. subst c3. apply IH. }
  destruct (c3 =? 125) eqn:E4.
  { apply N.eqb_eq in E4. subst c3. intros H. injection H as <- _. eauto. }
  destruct c3 as [|q]; [discriminate|].
  repeat (destruct q as [q|q|]; try discriminate).
Qed.

Lemma scan_value_brace (f d : nat) (rest : str) :
  JsonDecoder.scan_value (S f) (S d) (123 :: rest) =
    if startswith [125] (JsonDecoder.skip_ws rest)
    then JsonDecoder.Decoded (JObj [], drop 1 (JsonDecoder.skip_ws rest))
    else JsonDecoder.scan_members f d (JsonDecoder.skip_ws rest) [].
Proof.
  cbn [JsonDecoder.scan_value].
  destruct (JsonDecoder.skip_ws rest) as [|c r]; [reflexivity|].
  destruct c as [|q]; [reflexivity|].
  repeat (destruct q as [q|q|]; try reflexivity).
Qed.

Lemma loads_object (rest : str) (v : json) :
  JsonDecoder.loads (123 :: rest) = JsonDecoder.Decoded v ->
  exists fields, v = JObj fields.
Proof.
  unfold JsonDecoder.loads.
  change (JsonDecoder.skip_ws (123 :: rest)) with (123 :: rest).
  assert (Hf : exists f, (2 * length (123%N :: rest) + 2 = S f)%nat)
    by (eexists; rewrite Nat.add_comm; reflexivity).
  destruct Hf as [f ->].
  change JsonDecoder.recursion_limit with (S 999).
  rewrite scan_value_brace.
  destruct (startswith [125] (JsonDecoder.skip_ws rest)).
  - destruct (JsonDecoder.skip_ws (drop 1 (JsonDecoder.skip_ws rest)));
      [|discriminate].
    intros H. injection H as <-. eauto.
  - destruct (JsonDecoder.scan_members f 999 (JsonDecoder.skip_ws rest) [])
      as [[v' r]| |cls] eqn:Hm; try discriminate.
    destruct (scan_members_object _ _ _ _ _ _ Hm) as [fields ->].
    destruct (JsonDecoder.skip_ws r); [|discriminate].
    intros H. injection H as <-. eauto.
Qed.

(** The span never decodes in a text that holds no JSON object. *)
Lemma span_not_decoded (text span : str) (v : json) :
  embedded_objects text = [] ->
  Regex.search_braces text = Some span ->
  JsonDecoder.loads span <> JsonDecoder.Decoded v.
Proof.
  intros Hnone Hspan Hv.
  destruct (search_braces_spec _ _ Hspan) as [pre [mid [post [Ht Hs]]]].
  assert (Hin : In span (embedded_objects text)).
  { unfold embedded_objects. apply filter_In. split.
    - rewrite Ht. apply substrings_app. rewrite Hs. discriminate.
    - subst span. destruct (loads_object _ _ Hv) as [fields ->].
      unfold is_object_text. rewrite Hv.
      apply bool_decide_eq_true.
      change (123 :: mid ++ [125]) with ((123 :: mid) ++ [125]).
      apply last_snoc. }
  rewrite Hnone in Hin. exact Hin.
Qed.



End Extraction.

(** * Further properties of the code *)

(** ** The extraction pipeline as a whole *)

Section ExtractionPipeline.

Import gemini_processor.

(** How a call of the gateway ends: with a text, or with a
    [GeminiProcessingError] whose message is literal text, after one or
    two generation attempts. *)
Lemma call_gemini_api_cases (message : str) (use_fallback : bool) (w : world)
    (tr : list event) :
  exists res added,
    call_gemini_api message use_fallback w tr = (res, tr ++ added)
    /\ Forall is_generation added
    /\ (1 <= length added <= 2)%nat
    /\ ((exists text, res = Return text)
        \/ (exists t, res = Raise (GeminiProcessingError
                                     [Txt (py "API request failed: " ++ t)]))
        \/ (exists t, res = Raise (GeminiProcessingError
                                     [Txt (py "Both models failed. Primary: " ++ t)]))).
Proof.
  unfold call_gemini_api. destruct use_fallback.
  - rewrite call_fallback_run. eexists _, [_].
    split; [reflexivity|]. split; [repeat constructor|]. split; [simpl; lia|].
    destruct (attempt_result _); eauto.
  - rewrite call_primary_run.
    destruct (attempt_result _) as [e|t].
    + destruct (_is_quota_error e).
      * eexists _, [_; _]. split; [reflexivity|]. split; [repeat constructor|].
        split; [simpl; lia|].
        destruct (attempt_result _); eauto.
      * eexists _, [_]. split; [reflexivity|]. split; [repeat constructor|].
        split; [simpl; lia|]. eauto.
    + eexists _, [_]. split; [reflexivity|]. split; [repeat constructor|].
      split; [simpl; lia|]. eauto.
Qed.

(** How the parser ends. *)
Lemma parse_gemini_response_cases (text : str) :
  (exists data, parse_gemini_response text = Return data)
  \/ parse_gemini_response text = unparseable
  \/ (exists class_name, parse_gemini_response text = Raise (PyError class_name)).
Proof.
  unfold parse_gemini_response, unparseable.
  destruct (JsonDecoder.loads text) as [data| |cls]; eauto.
  destruct (Regex.search_braces text) as [span|]; eauto.
  destruct (JsonDecoder.loads span) as [data| |cls]; eauto.
Qed.

(** What the pipeline makes of a response text. *)
Definition extraction_of (text : str) : outcome LeadData :=
  match parse_gemini_response text with
  | Return (JObj fields) =>
      match validate fields with
      | inr lead => Return lead
      | inl errs =>
          Raise (GeminiProcessingError
                   [Txt (py "Invalid lead data format: "); StrOfValidation errs])
      end
  | Return _ =>
      Raise (GeminiProcessingError
               [Txt (py "Processing failed: "); StrOfError "TypeError"])
  | Raise (PyError class_name) =>
      Raise (GeminiProcessingError
               [Txt (py "Processing failed: "); StrOfError class_name])
  | _ =>
      Raise (GeminiProcessingError
               [Txt (py "Processing failed: Could not parse JSON from Gemini response")])
  end.

(** X1: the extraction makes one or two generation attempts and no
    other outbound call, and it ends with a lead or with a
    [GeminiProcessingError], never with another exception; the message
    of the error starts with [Invalid lead data format: ] or with
    [Processing failed: ]. *)
Theorem extraction_outcomes (message : str) (w : world) (tr : list event) :
  exists res added,
    process_lead_message message w tr = (res, tr ++ added)
    /\ Forall is_generation added
    /\ (1 <= length added <= 2)%nat
    /\ ((exists lead, res = Return lead)
        \/ (exists errs,
              res = Raise (GeminiProcessingError
                             [Txt (py "Invalid lead data format: ");
                              StrOfValidation errs]))
        \/ (exists t rest,
              res = Raise (GeminiProcessingError
                             (Txt (py "Processing failed: " ++ t) :: rest)))).
Proof.
  destruct (call_gemini_api_cases message false w tr)
    as [res0 [added [Hrun [Hgen [Hlen Hres]]]]].
  unfold process_lead_message, try_except, mbind, M_bind, bind, lift.
  rewrite Hrun.
  destruct Hres as [[text ->] | [[t ->] | [t ->]]].
  - destruct (parse_gemini_response_cases text) as [[v ->] | [-> | [cls ->]]].
    + destruct (LeadData_init v) as [lead|e|] eqn:Hv.
      * eexists _, added. repeat (split; [first [reflexivity|assumption]|]). eauto.
      * unfold LeadData_init in Hv.
        destruct v; try (injection Hv as <-;
          eexists _, added; repeat (split; [first [reflexivity|assumption]|]);
          right; right; exists [], [StrOfError "TypeError"];
          rewrite app_nil_r; reflexivity).
        destruct (validate fields); [|discriminate].
        injection Hv as <-.
        eexists _, added. repeat (split; [first [reflexivity|assumption]|]). eauto.
      * unfold LeadData_init in Hv. destruct v; try discriminate.
        destruct (validate fields); discriminate.
    + eexists _, added. repeat (split; [first [reflexivity|assumption]|]).
      right. right. eexists _, []. reflexivity.
    + eexists _, added. repeat (split; [first [reflexivity|assumption]|]).
      right. right. exists [], [StrOfError cls]. rewrite app_nil_r. reflexivity.
  - eexists _, added. repeat (split; [first [reflexivity|assumption]|]).
    right. right. eexists _, []. cbn [str_of_exn fstring]. reflexivity.
  - eexists _, added. repeat (split; [first [reflexivity|assumption]|]).
    right. right. eexists _, []. cbn [str_of_exn fstring]. reflexivity.
Qed.

(** A world whose model answers every prompt with nothing. *)
Definition silent_world : world := world_answering [].

(** X2: an empty response is a failure of the attempt that got it, is
    not a quota error, and so is never retried: the gateway raises
    after that single attempt, on either tier. *)
Theorem empty_response_not_retried (message : str) (use_fallback : bool)
    (w : world) (tr : list event) :
  let model_name :=
    if use_fallback then Config.GOOGLE_FALLBACK_MODEL else Config.GOOGLE_MODEL in
  generate_content w tr model_name (full_prompt message) = GenText [] ->
  call_gemini_api message use_fallback w tr =
    (Raise (GeminiProcessingError
              [Txt (py "API request failed: Empty response from Gemini API")]),
     tr ++ [Generate model_name (full_prompt message)]).
Proof.
  intros model_name Hreply. unfold call_gemini_api. destruct use_fallback.
  - rewrite call_fallback_run. subst model_name. cbv beta iota zeta in Hreply.
    rewrite Hreply. reflexivity.
  - rewrite call_primary_run. subst model_name. cbv beta iota zeta in Hreply.
    rewrite Hreply. reflexivity.
Qed.

Lemma empty_response_not_retried_witness :
  call_gemini_api (py "hello") false silent_world [] =
    (Raise (GeminiProcessingError
              [Txt (py "API request failed: Empty response from Gemini API")]),
     [Generate Config.GOOGLE_MODEL (full_prompt (py "hello"))]).
Proof.
  exact (empty_response_not_retried (py "hello") false silent_world [] eq_refl).
Defined.

(** The texts whose [deal_value], when they decode to an object that
    has one, is [null] or a JSON number. *)
Definition numeric_deal_value (text : str) : Prop :=
  match parse_gemini_response text with
  | Return (JObj fields) =>
      match assoc (py "deal_value") fields with
      | None | Some JNull | Some (JInt _) | Some (JFloat _) => True
      | Some _ => False
      end
  | _ => True
  end.



End ExtractionPipeline.

(** ** Quota errors and resolved domains *)

Section LookupResults.

Import attio_client.

Lemma lower_char_idempotent (c : N) : lower_char (lower_char c) = lower_char c.
Proof.
  unfold lower_char. destruct (is_upper c) eqn:H; [|rewrite H; reflexivity].
  unfold is_upper in *. apply andb_true_iff in H as [H1 H2].
  apply N.leb_le in H1, H2.
  replace (c + 32 <=? 90) with false by (symmetry; apply N.leb_gt; lia).
  rewrite andb_false_r. reflexivity.
Qed.

Lemma lower_idempotent (s : str) : lower (lower s) = lower s.
Proof.
  unfold lower. rewrite map_map. apply map_ext. apply lower_char_idempotent.
Qed.

Lemma lower_char_not_upper (c : N) : is_upper (lower_char c) = false.
Proof.
  unfold lower_char. destruct (is_upper c) eqn:H; [|exact H].
  unfold is_upper in *. apply andb_true_iff in H as [H1 H2].
  apply N.leb_le in H1, H2.
  replace (c + 32 <=? 90) with false by (symmetry; apply N.leb_gt; lia).
  apply andb_false_r.
Qed.

(** X4: the two copies of the quota test agree; the test does not
    depend on the letter case of the error text, and a text that
    embeds a quota error is a quota error. *)
Theorem quota_test_stable :
  (forall e, _is_quota_error e = gemini_processor._is_quota_error e)
  /\ (forall e, _is_quota_error (lower e) = _is_quota_error e)
  /\ (forall pre e post,
        _is_quota_error e = true -> _is_quota_error (pre ++ e ++ post) = true).
Proof.
  split; [reflexivity|]. split.
  - intros e. change (_is_quota_error (lower e) = _is_quota_error e)
      with (gemini_processor._is_quota_error (lower e)
            = gemini_processor._is_quota_error e).
    unfold gemini_processor._is_quota_error. cbv zeta.
    rewrite !lower_quota_test, lower_idempotent. reflexivity.
  - intros pre e post H.
    apply (is_quota_error_iff e) in H as [sig [a [mid [b [Hin [-> Hl]]]]]].
    apply (is_quota_error_iff (pre ++ (a ++ mid ++ b) ++ post)).
    exists sig, (pre ++ a), mid, (b ++ post).
    split; [exact Hin|]. split; [|exact Hl].
    rewrite <- !app_assoc. reflexivity.
Qed.

(** *** Shape of a resolved domain *)

Lemma remove_go_forall (P : N -> Prop) (old : str) (s : str) :
  Forall P s -> forall skip, Forall P (remove_go old skip s).
Proof.
  induction 1 as [|c s Hc Hs IH]; intros skip; cbn [remove_go]; [constructor|].
  destruct skip; [|apply IH].
  destruct (startswith old (c :: s)); [apply IH|].
  constructor; [exact Hc | apply IH].
Qed.

Lemma lstrip_by_split (p : N -> bool) (s : str) :
  exists pre, s = pre ++ lstrip_by p s.
Proof.
  induction s as [|c s [pre IH]]; [exists []; reflexivity|].
  cbn [lstrip_by]. destruct (p c).
  - exists (c :: pre). cbn [app]. rewrite <- IH. reflexivity.
  - exists []. reflexivity.
Qed.

Lemma lstrip_by_head (p : N -> bool) (s : str) (c : N) (t : str) :
  lstrip_by p s = c :: t -> p c = false.
Proof.
  induction s as [|x s IH]; cbn [lstrip_by]; [discriminate|].
  destruct (p x) eqn:Hx; [exact IH|].
  intros H. injection H as <- _. exact Hx.
Qed.

Lemma lstrip_by_forall (P : N -> Prop) (p : N -> bool) (s : str) :
  Forall P s -> Forall P (lstrip_by p s).
Proof.
  intros H. destruct (lstrip_by_split p s) as [pre E].
  rewrite E in H. apply Forall_app in H as [_ H]. exact H.
Qed.

Lemma strip_by_forall (P : N -> Prop) (p : N -> bool) (s : str) :
  Forall P s -> Forall P (strip_by p s).
Proof.
  intros H. unfold strip_by.
  apply Forall_rev, lstrip_by_forall, Forall_rev, lstrip_by_forall, H.
Qed.

(** What [strip] leaves neither starts nor ends with a stripped
    character. *)
Lemma strip_by_ends (p : N -> bool) (s : str) :
  (forall c t, strip_by p s = c :: t -> p c = false)
  /\ (forall c, last (strip_by p s) = Some c -> p c = false).
Proof.
  unfold strip_by.
  set (a := lstrip_by p s).
  destruct (lstrip_by_split p (rev a)) as [pre E].
  set (b := lstrip_by p (rev a)) in *.
  assert (Ea : a = rev b ++ rev pre).
  { rewrite <- (rev_involutive a), E, rev_app_distr. reflexivity. }
  split.
  - intros c t H. rewrite H in Ea. cbn [app] in Ea.
    apply (lstrip_by_head p s c (t ++ rev pre)). exact Ea.
  - intros c H. destruct b as [|x b'] eqn:Eb.
    + discriminate.
    + cbn [rev] in H. rewrite last_snoc in H. injection H as <-.
      apply (lstrip_by_head p (rev a) x b'). exact Eb.
Qed.

(** A run maps into the stretch that starts at its target. *)
Lemma mapped_target (c d : N) (runs : list (N * N * N * N)) :
  Unicode.mapped c runs = Some d ->
  exists first last stride target,
    In (first, last, stride, target) runs /\ target <= d.
Proof.
  induction runs as [|[[[first last] stride] target] runs IH];
    cbn [Unicode.mapped]; [discriminate|].
  destruct ((first <=? c) && (c <=? last) && ((c - first) mod stride =? 0)).
  - intros H. injection H as <-. exists first, last, stride, target.
    split; [left; reflexivity | lia].
  - intros H. destruct (IH H) as [f [l [st [t [Hin Hle]]]]].
    exists f, l, st, t. split; [right; exact Hin | exact Hle].
Qed.

Lemma lower_runs_targets :
  Forall (fun run => 90 < snd run) Unicode.lower_runs.
Proof.
  assert (H : forallb (fun run => 90 <? snd run) Unicode.lower_runs = true)
    by (vm_compute; reflexivity).
  rewrite List.forallb_forall in H.
  apply List.Forall_forall. intros run Hin. apply N.ltb_lt. apply H, Hin.
Qed.

(** No capital of ASCII is left, or made, by the lower case mapping. *)
Lemma to_lower_full_not_upper (c : N) :
  Forall (fun d => is_upper d = false) (Unicode.to_lower_full c).
Proof.
  unfold Unicode.to_lower_full. destruct (c <? 128) eqn:Hc.
  - constructor; [|constructor]. apply lower_char_not_upper.
  - apply N.ltb_ge in Hc.
    destruct (Unicode.special c Unicode.lower_special) as [s|] eqn:Hs.
    + unfold Unicode.lower_special in Hs. cbn [Unicode.special] in Hs.
      destruct (c =? 304); [|discriminate]. injection Hs as <-.
      repeat constructor.
    + constructor; [|constructor].
      destruct (Unicode.mapped c Unicode.lower_runs) as [d|] eqn:Hm;
        cbn [default from_option id].
      * destruct (mapped_target c d _ Hm) as [f [l [st [t [Hin Hle]]]]].
        pose proof (proj1 (List.Forall_forall _ _) lower_runs_targets _ Hin) as Ht.
        cbn [snd] in Ht. unfold is_upper.
        replace (d <=? 90) with false by (symmetry; apply N.leb_gt; lia).
        apply andb_false_r.
      * unfold is_upper.
        replace (c <=? 90) with false by (symmetry; apply N.leb_gt; lia).
        apply andb_false_r.
Qed.

Lemma lower_from_not_upper (s before : str) :
  Forall (fun d => is_upper d = false) (Unicode.lower_from before s).
Proof.
  revert before. induction s as [|c s IH]; intros before;
    cbn [Unicode.lower_from]; [constructor|].
  apply Forall_app. split; [|apply IH].
  unfold Unicode.lower_at. destruct (c =? 931); [|apply to_lower_full_not_upper].
  destruct (Unicode.final_sigma before s); repeat constructor.
Qed.

Lemma clean_website_lowercase (text : str) :
  Forall (fun c => is_upper c = false) (clean_website text).
Proof.
  unfold clean_website, strip_char, remove_all.
  apply strip_by_forall. do 3 apply remove_go_forall.
  apply lower_from_not_upper.
Qed.

Lemma answer_domain_shape (text d : str) :
  answer_domain text = Some d ->
  d <> py "none" /\ In 46 d /\ ~ In 32 d
  /\ Forall (fun c => is_upper c = false) d
  /\ (forall t, d <> 47 :: t)
  /\ last d <> Some 47.
Proof.
  unfold answer_domain. destruct (truthy (JStr text)); [|discriminate].
  destruct (looks_like_domain (clean_website text)) eqn:Hl; [|discriminate].
  intros H. injection H as <-.
  apply looks_like_domain_iff in Hl as [H1 [H2 H3]].
  split; [exact H1|]. split; [exact H2|]. split; [exact H3|].
  split; [apply clean_website_lowercase|].
  unfold clean_website, strip_char.
  destruct (strip_by_ends (N.eqb 47)
              (remove_all (py "www.")
                 (remove_all (py "http://")
                    (remove_all (py "https://") (Unicode.lower (strip text))))))
    as [Hhead Hlast].
  split.
  - intros t E. specialize (Hhead 47 t E). rewrite N.eqb_refl in Hhead. discriminate.
  - intros E. specialize (Hlast 47 E). rewrite N.eqb_refl in Hlast. discriminate.
Qed.

(** X5: a domain returned by the lookup, on either tier, contains a
    dot and no space, is not [none], has no upper-case ASCII letter,
    and neither starts nor ends with a slash. *)
Theorem resolved_domain_shape (company_name d : str) (use_fallback : bool)
    (w : world) (tr tr1 : list event) :
  _search_company_website company_name use_fallback w tr = (Return (Some d), tr1) ->
  d <> py "none" /\ In 46 d /\ ~ In 32 d
  /\ Forall (fun c => is_upper c = false) d
  /\ (forall t, d <> 47 :: t)
  /\ last d <> Some 47.
Proof.
  unfold _search_company_website. destruct use_fallback.
  - rewrite search_fallback_run. intros H. injection H as H _.
    destruct (generate_content w tr _ _); [eapply answer_domain_shape, H | discriminate].
  - rewrite search_primary_run.
    destruct (generate_content w tr _ _) as [text|e].
    + intros H. injection H as H _. eapply answer_domain_shape, H.
    + destruct (_is_quota_error e); intros H; injection H as H _; [|discriminate].
      destruct (generate_content w _ _ _); [eapply answer_domain_shape, H | discriminate].
Qed.

Lemma resolved_domain_shape_witness :
  In 46 (py "stripe.com") /\ ~ In 32 (py "stripe.com").
Proof.
  destruct (resolved_domain_shape (py "Stripe") (py "stripe.com") false
              (world_answering (py " HTTPS://www.Stripe.com/ ")) []
              [Generate Config.GOOGLE_MODEL (website_prompt (py "Stripe"))])
    as [_ [H1 [H2 _]]].
  - vm_compute. reflexivity.
  - split; assumption.
Defined.

End LookupResults.

(** ** Create calls that are accepted, and refusals that are not repaired *)

Section CreateCalls.

Import attio_client.

(** The calls that are HTTP requests. *)
Definition is_post (ev : event) : Prop :=
  match ev with Post _ _ => True | Generate _ _ => False end.

(** [str] of the [HTTPError] of a refused call. *)
Definition http_error_text (url : str) (r : response) : str :=
  str_of_N (status_code r)
    ++ (if status_code r <? 500 then py " Client Error: " else py " Server Error: ")
    ++ reason r ++ py " for url: " ++ url.

Lemma raise_for_status_exact (url : str) (r : response) (w : world) (tr : list event) :
  raise_for_status url r w tr =
    (if error_status r
     then Raise (RequestException (http_error_text url r) (Some r))
     else Return tt, tr).
Proof.
  unfold raise_for_status, error_status, http_error_text.
  destruct (400 <=? status_code r) eqn:H4; cbn [andb].
  - destruct (status_code r <? 500) eqn:H5.
    + replace (status_code r <? 600) with true
        by (symmetry; apply N.ltb_lt; apply N.ltb_lt in H5; lia).
      reflexivity.
    + replace (500 <=? status_code r) with true
        by (symmetry; apply N.leb_le; apply N.ltb_ge in H5; exact H5).
      cbn [andb]. destruct (status_code r <? 600); reflexivity.
  - replace (500 <=? status_code r) with false
      by (symmetry; apply N.leb_gt; apply N.leb_gt in H4; lia).
    reflexivity.
Qed.

(** What a create call yields, by the answer it gets. *)
Definition create_call_outcome (endpoint : str) (reply : http_reply) : outcome json :=
  match reply with
  | HttpRaise msg => Raise (RequestException msg None)
  | HttpResponse r =>
      if error_status r
      then Raise (RequestException (http_error_text endpoint r) (Some r))
      else match body r with
           | inl decode_msg => Raise (RequestException decode_msg None)
           | inr created_record =>
               match record_id_of created_record with
               | Some _ => Return created_record
               | None => Raise (PyError "AttributeError")
               end
           end
  end.

Lemma post_record_exact (endpoint : str) (payload : json) (w : world) (tr : list event) :
  post_record endpoint payload w tr =
    (create_call_outcome endpoint (requests_post w tr endpoint payload),
     tr ++ [Post endpoint payload]).
Proof.
  unfold post_record, mbind, M_bind, bind, post, create_call_outcome.
  destruct (requests_post w tr endpoint payload) as [r|msg]; [|reflexivity].
  rewrite raise_for_status_exact.
  destruct (error_status r); [reflexivity|].
  unfold response_json, lift, py_get, record_id_of, mret, M_ret, ret, raise.
  destruct (body r) as [dmsg|[| | | | | |fields]]; try reflexivity.
  cbv beta iota zeta.
  destruct (default (JObj []) (assoc (py "id") fields)); reflexivity.
Qed.

(** X6: a create call that is accepted (no error status) is the only
    call of the attempt, and its body decides the outcome: a JSON
    object whose [id] is an object or is missing is the record
    returned; any other JSON document raises [AttributeError], not
    [AttioAPIError], although the service accepted the record; a body
    that does not decode raises [AttioAPIError] with the message of
    the decoder. *)
Theorem accepted_create_call (object_type object_slug : str) (payload : json)
    (r : response) (w : world) (tr : list event) :
  let endpoint := records_endpoint object_slug in
  requests_post w tr endpoint payload = HttpResponse r ->
  error_status r = false ->
  create_with_repair object_type object_slug payload w tr =
    (match body r with
     | inl decode_msg =>
         Raise (AttioAPIError
                  [Txt (capitalize object_type ++ py " creation failed: " ++ decode_msg)])
     | inr created_record =>
         match record_id_of created_record with
         | Some _ => Return created_record
         | None => Raise (PyError "AttributeError")
         end
     end,
     tr ++ [Post endpoint payload]).
Proof.
  intros endpoint Hreply Hok.
  unfold create_with_repair, except_request, try_except. fold endpoint.
  rewrite post_record_exact, Hreply. unfold create_call_outcome. rewrite Hok.
  destruct (body r) as [dmsg|created].
  - cbn [missing_attribute error_detail fstring]. unfold raise.
    rewrite <- app_assoc. reflexivity.
  - destruct (record_id_of created); reflexivity.
Qed.

(** A world that accepts every create call and answers with [body]. *)
Definition accepting_world (body : json) : world :=
  {| generate_content := fun _ _ _ => GenText (py "NONE");
     requests_post := fun _ _ _ => ok body |}.

Lemma accepted_create_call_witness :
  create_with_repair (py "user") (py "users")
    (wrap_values [(py "name", JStr (py "John Smith"))])
    (accepting_world (JList [JObj []])) []
  = (Raise (PyError "AttributeError"),
     [Post (records_endpoint (py "users"))
        (wrap_values [(py "name", JStr (py "John Smith"))])]).
Proof.
  exact (accepted_create_call (py "user") (py "users")
           (wrap_values [(py "name", JStr (py "John Smith"))])
           {| status_code := 200; reason := py "OK"; body := inr (JList [JObj []]) |}
           (accepting_world (JList [JObj []])) [] eq_refl eq_refl).
Defined.

(** X7: a refusal is repaired for the status 400 only.  A create call
    that fails in transport, or is refused with another status, raises
    [AttioAPIError] after that single call, whatever its message says:
    no attribute is created and the call is not replayed. *)
Theorem only_bad_request_is_repaired (object_type object_slug : str)
    (payload : json) (w : world) (tr : list event) :
  let endpoint := records_endpoint object_slug in
  let reply := requests_post w tr endpoint payload in
  let raised detail :=
    (Raise (AttioAPIError
              (fstring [Txt (capitalize object_type ++ py " creation failed: "); detail])),
     tr ++ [Post endpoint payload]) in
  (forall msg, reply = HttpRaise msg ->
     create_with_repair object_type object_slug payload w tr = raised (Txt msg))
  /\ (forall r, reply = HttpResponse r ->
        error_status r = true -> status_code r <> 400 ->
        create_with_repair object_type object_slug payload w tr
          = raised (error_detail (http_error_text endpoint r) (Some r)))
  /\ (forall r m, error_status r = true -> status_code r <> 400 ->
        body r = inr (JObj [(py "message", JStr m)]) ->
        error_detail (http_error_text endpoint r) (Some r) = Txt m).
Proof.
  intros endpoint reply raised. split; [|split].
  - intros msg Hreply.
    unfold create_with_repair, except_request, try_except. fold endpoint.
    rewrite post_record_exact. fold reply. rewrite Hreply. reflexivity.
  - intros r Hreply Herr Hs.
    unfold create_with_repair, except_request, try_except. fold endpoint.
    rewrite post_record_exact. fold reply. rewrite Hreply.
    unfold create_call_outcome. rewrite Herr.
    unfold missing_attribute.
    apply N.eqb_neq in Hs. rewrite Hs. reflexivity.
  - intros r m _ _ Hb. unfold error_detail. rewrite Hb. reflexivity.
Qed.

(** A world that refuses every call with the status 422 and the
    message of a missing attribute. *)
Definition unprocessable_world : world :=
  {| generate_content := fun _ _ _ => GenText (py "NONE");
     requests_post := fun _ _ _ =>
       HttpResponse {| status_code := 422; reason := py "Unprocessable Entity";
                       body := inr (missing_body 34 34 "job_title") |} |}.

Lemma only_bad_request_is_repaired_witness :
  create_with_repair (py "user") (py "users")
    (wrap_values [(py "name", JStr (py "John Smith"))]) unprocessable_world []
  = (Raise (AttioAPIError
              [Txt (py "User creation failed: Cannot find attribute with slug/ID "
                      ++ 34 :: py "job_title" ++ 34 :: py ".")]),
     [Post (records_endpoint (py "users"))
        (wrap_values [(py "name", JStr (py "John Smith"))])]).
Proof.
  destruct (only_bad_request_is_repaired (py "user") (py "users")
              (wrap_values [(py "name", JStr (py "John Smith"))])
              unprocessable_world []) as [_ [H _]].
  rewrite (H {| status_code := 422; reason := py "Unprocessable Entity";
                body := inr (missing_body 34 34 "job_title") |}).
  - vm_compute. reflexivity.
  - reflexivity.
  - reflexivity.
  - discriminate.
Defined.

End CreateCalls.

(** ** What the payloads hold *)

Section PayloadContents.

Import gemini_processor attio_client.

(** The attribute keys a payload of each kind may have. *)
Definition allowed_keys (object_type : str) : list str :=
  if str_eqb object_type (py "person") then
    [py "name"; py "email_addresses"; py "phone_numbers"; py "job_title";
     py "location"; py "linkedin_url"; py "company"; py "description"]
  else if str_eqb object_type (py "company") then
    [py "name"; py "locations"; py "domains"; py "description"]
  else if str_eqb object_type (py "deal") then [py "name"; py "description"]
  else if str_eqb object_type (py "user") then
    [py "name"; py "email_address"; py "job_title"; py "description"]
  else [].

Lemma assoc_set_in (k k' : str) (v x : json) (l : list (str * json)) :
  In (k, v) (assoc_set k' x l) -> (k = k' /\ v = x) \/ In (k, v) l.
Proof.
  induction l as [|[k0 v0] l IH]; cbn [assoc_set].
  - intros [H|[]]. injection H as <- <-. left. split; reflexivity.
  - destruct (str_eqb k' k0).
    + intros [H|H].
      * injection H as <- <-. left. split; reflexivity.
      * right. right. exact H.
    + intros [H|H].
      * right. left. exact H.
      * destruct (IH H) as [E|E]; [left; exact E | right; right; exact E].
Qed.

Lemma add_if_in (k : str) (v x : json) (cond : bool) (key : string)
    (l : list (str * json)) :
  In (k, v) (add_if cond key x l) ->
  (cond = true /\ k = py key /\ v = x) \/ In (k, v) l.
Proof.
  unfold add_if. destruct cond; [|right; assumption].
  intros H. apply assoc_set_in in H as [[-> ->]|H]; [left|right]; auto.
Qed.

Lemma truthy_text (o : option str) :
  truthy (opt_json o) = true -> exists s, o = Some s /\ s <> [] /\ text_of (opt_json o) = s.
Proof.
  destruct o as [s|]; [|discriminate]. cbn [opt_json truthy text_of].
  unfold str_eqb. intros H. apply negb_true_iff, bool_decide_eq_false in H.
  exists s. auto.
Qed.

Lemma join_starts (sep p : str) (rest : list str) :
  exists tail, join sep (p :: rest) = p ++ tail.
Proof.
  destruct rest as [|q rest]; cbn [join].
  - exists []. rewrite app_nil_r. reflexivity.
  - eexists. reflexivity.
Qed.

(** A description is built from parts none of which is empty. *)
Lemma description_in (k : str) (v : json) (parts : list str)
    (l : list (str * json)) :
  Forall (fun p => p <> []) parts ->
  In (k, v) (add_description parts l) ->
  (k = py "description" /\ truthy v = true) \/ In (k, v) l.
Proof.
  intros Hparts H. unfold add_description in H.
  apply add_if_in in H as [[Hc [-> ->]]|H]; [left|right; exact H].
  split; [reflexivity|].
  destruct parts as [|p rest]; [discriminate|].
  apply Forall_cons in Hparts as [Hp _].
  destruct (join_starts [10] p rest) as [tail ->].
  cbn [truthy]. unfold str_eqb. apply negb_true_iff, bool_decide_eq_false.
  destruct p; [contradiction | discriminate].
Qed.

Lemma append_if_nonempty (cond : bool) (p : str) (parts : list str) :
  (cond = true -> p <> []) ->
  Forall (fun q => q <> []) parts ->
  Forall (fun q => q <> []) (append_if cond p parts).
Proof.
  intros Hp Hparts. unfold append_if. destruct cond; [|exact Hparts].
  apply Forall_app. split; [exact Hparts|]. constructor; [auto | constructor].
Qed.

(** The dictionary of a lead, after the company step. *)
Lemma linked_get (lead : LeadData) (record_id : json) (dom : option str)
    (key : string) :
  key <> "company_record_id"%string -> key <> "company_domain"%string ->
  dict_get (linked (_lead_data_to_dict lead) record_id dom) key
    = dict_get (_lead_data_to_dict lead) key.
Proof.
  intros H1 H2. unfold linked, dict_get.
  destruct (truthy record_id); [rewrite lookup_insert_ne by congruence; reflexivity|].
  destruct (truthy (opt_json dom)); [|reflexivity].
  rewrite lookup_insert_ne by congruence. reflexivity.
Qed.

Local Ltac field_of lead :=
  repeat match goal with
  | |- context [dict_get (linked (_lead_data_to_dict lead) ?r ?d) ?k] =>
      rewrite (linked_get lead r d k) by discriminate
  end;
  change (dict_get (_lead_data_to_dict lead) "name") with (JStr (name lead));
  change (dict_get (_lead_data_to_dict lead) "email") with (opt_json (email lead));
  change (dict_get (_lead_data_to_dict lead) "phone") with (opt_json (phone lead));
  change (dict_get (_lead_data_to_dict lead) "company") with (opt_json (company lead));
  change (dict_get (_lead_data_to_dict lead) "job_title")
    with (opt_json (job_title lead));
  change (dict_get (_lead_data_to_dict lead) "location")
    with (opt_json (location lead));
  change (dict_get (_lead_data_to_dict lead) "linkedin_url")
    with (opt_json (linkedin_url lead));
  change (dict_get (_lead_data_to_dict lead) "notes") with (opt_json (notes lead)).

(** Every entry of a payload: its key is one of the kind, and its
    value is truthy unless the key is [name]. *)
Lemma payload_entry (lead : LeadData) (record_id : json) (dom : option str)
    (payload : json) (k : str) (v : json) :
  _build_attio_payload (linked (_lead_data_to_dict lead) record_id dom)
    (object_type lead) = Return payload ->
  In (k, v) (payload_values payload) ->
  In k (allowed_keys (object_type lead)) /\ (k = py "name" \/ truthy v = true).
Proof.
  unfold _build_attio_payload, allowed_keys.
  destruct (str_eqb (object_type lead) (py "person")).
  { intros H. injection H as <-.
    unfold _build_person_payload, wrap_values, payload_values. cbv zeta.
    intros H. apply description_in in H.
    2:{ apply append_if_nonempty; [|constructor]. field_of lead.
        intros Ht. apply truthy_text in Ht as [s [_ [Hs ->]]]. exact Hs. }
    destruct H as [[-> Ht]|H]; [split; [cbn; tauto | right; exact Ht]|].
    assert (Hrest : In (k, v)
      (add_if (truthy (dict_get (linked (_lead_data_to_dict lead) record_id dom)
                         "linkedin_url")) "linkedin_url"
         (dict_get (linked (_lead_data_to_dict lead) record_id dom) "linkedin_url")
      (add_if (truthy (dict_get (linked (_lead_data_to_dict lead) record_id dom)
                         "location")) "location"
         (dict_get (linked (_lead_data_to_dict lead) record_id dom) "location")
      (add_if (truthy (dict_get (linked (_lead_data_to_dict lead) record_id dom)
                         "job_title")) "job_title"
         (dict_get (linked (_lead_data_to_dict lead) record_id dom) "job_title")
      (add_if (truthy (dict_get (linked (_lead_data_to_dict lead) record_id dom)
                         "phone")) "phone_numbers"
         (JList [JObj [(py "original_phone_number",
                        dict_get (linked (_lead_data_to_dict lead) record_id dom)
                          "phone")]])
      (add_if (truthy (dict_get (linked (_lead_data_to_dict lead) record_id dom)
                         "email")) "email_addresses"
         (JList [JObj [(py "email_address",
                        dict_get (linked (_lead_data_to_dict lead) record_id dom)
                          "email")]])
         [(py "name",
           dict_get (linked (_lead_data_to_dict lead) record_id dom) "name")])))))
      \/ (k = py "company" /\ truthy v = true)).
    { destruct (truthy (dict_get (linked (_lead_data_to_dict lead) record_id dom)
                          "company_domain")) eqn:Hd.
      - apply assoc_set_in in H as [[-> ->]|H]; [right; auto | left; exact H].
      - destruct (truthy (dict_get (linked (_lead_data_to_dict lead) record_id dom)
                            "company_record_id")).
        + apply assoc_set_in in H as [[-> ->]|H]; [right; auto | left; exact H].
        + left. exact H. }
    destruct Hrest as [Hrest | [-> Ht]]; [|split; [cbn; tauto | right; exact Ht]].
    repeat (apply add_if_in in Hrest as [[Hc [-> ->]]|Hrest];
            [split; [cbn; tauto | right; first [exact Hc | reflexivity]]|]).
    destruct Hrest as [E|[]]. injection E as <- <-. split; [cbn; tauto | left; reflexivity]. }
  destruct (str_eqb (object_type lead) (py "company")).
  { intros H. injection H as <-.
    unfold _build_company_payload, wrap_values, payload_values. cbv zeta.
    intros H. apply description_in in H.
    2:{ field_of lead.
        repeat (apply append_if_nonempty; [try discriminate|]); try constructor. }
    destruct H as [[-> Ht]|H]; [split; [cbn; tauto | right; exact Ht]|].
    repeat (apply add_if_in in H as [[Hc [-> ->]]|H];
            [split; [cbn; tauto | right; first [exact Hc | reflexivity]]|]).
    destruct H as [E|[]]. injection E as <- <-. split; [cbn; tauto | left; reflexivity]. }
  destruct (str_eqb (object_type lead) (py "deal")).
  { unfold _build_deal_payload.
    rewrite (linked_get lead record_id dom "deal_value") by discriminate.
    change (dict_get (_lead_data_to_dict lead) "deal_value") with JNull.
    cbn [truthy]. cbv beta iota zeta.
    rewrite (linked_get lead record_id dom "deal_stage") by discriminate.
    change (dict_get (_lead_data_to_dict lead) "deal_stage") with JNull.
    cbn [truthy].
    intros H. injection H as <-.
    unfold wrap_values, payload_values.
    intros H. apply description_in in H.
    2:{ field_of lead.
        apply append_if_nonempty.
        { intros Ht. apply truthy_text in Ht as [s [_ [Hs ->]]]. exact Hs. }
        repeat (apply append_if_nonempty; [try discriminate|]); try constructor. }
    destruct H as [[-> Ht]|H]; [split; [cbn; tauto | right; exact Ht]|].
    destruct H as [E|[]]. injection E as <- <-. split; [cbn; tauto | left; reflexivity]. }
  destruct (str_eqb (object_type lead) (py "user")); [|discriminate].
  intros H. injection H as <-.
  unfold _build_user_payload, wrap_values, payload_values. cbv zeta.
  intros H.
  repeat (apply add_if_in in H as [[Hc [-> ->]]|H];
          [split; [cbn; tauto | right; first [exact Hc | reflexivity]]|]).
  destruct H as [E|[]]. injection E as <- <-. split; [cbn; tauto | left; reflexivity].
Qed.

Local Ltac key_ne :=
  let H := fresh in intros H; vm_compute in H; discriminate H.

Lemma payload_has_name (lead : LeadData) (record_id : json) (dom : option str)
    (payload : json) :
  _build_attio_payload (linked (_lead_data_to_dict lead) record_id dom)
    (object_type lead) = Return payload ->
  exists v, assoc (py "name") (payload_values payload) = Some v.
Proof.
  unfold _build_attio_payload.
  destruct (str_eqb (object_type lead) (py "person")).
  { intros H. injection H as <-.
    unfold _build_person_payload, wrap_values, payload_values, add_description.
    cbv zeta. rewrite assoc_add_if_ne by key_ne.
    destruct (truthy (dict_get _ "company_domain"));
      [|destruct (truthy (dict_get _ "company_record_id"))];
      rewrite ?assoc_set_ne by key_ne; rewrite !assoc_add_if_ne by key_ne;
      eexists; reflexivity. }
  destruct (str_eqb (object_type lead) (py "company")).
  { intros H. injection H as <-.
    unfold _build_company_payload, wrap_values, payload_values, add_description.
    cbv zeta. rewrite !assoc_add_if_ne by key_ne. eexists; reflexivity. }
  destruct (str_eqb (object_type lead) (py "deal")).
  { unfold _build_deal_payload.
    rewrite (linked_get lead record_id dom "deal_value") by discriminate.
    change (dict_get (_lead_data_to_dict lead) "deal_value") with JNull.
    cbn [truthy]. cbv beta iota zeta.
    intros H. injection H as <-.
    unfold wrap_values, payload_values, add_description.
    rewrite !assoc_add_if_ne by key_ne. eexists; reflexivity. }
  destruct (str_eqb (object_type lead) (py "user")); [|discriminate].
  intros H. injection H as <-.
  unfold _build_user_payload, wrap_values, payload_values. cbv zeta.
  rewrite !assoc_add_if_ne by key_ne. eexists; reflexivity.
Qed.

(** X8: no payload carries an absent or empty attribute: whatever
    the lead, and whatever the company step added to its dictionary,
    every attribute of the payload other than [name] has a truthy
    value (no [None], no empty string, list or object). *)
Theorem payload_values_truthy (lead : LeadData) (record_id : json)
    (dom : option str) (payload : json) (k : str) (v : json) :
  _build_attio_payload (linked (_lead_data_to_dict lead) record_id dom)
    (object_type lead) = Return payload ->
  In (k, v) (payload_values payload) ->
  k <> py "name" ->
  truthy v = true.
Proof.
  intros Hb Hin Hk.
  destruct (payload_entry lead record_id dom payload k v Hb Hin) as [_ [E|E]];
    [contradiction | exact E].
Qed.

Lemma payload_values_truthy_witness :
  truthy (JList [JStr (py "New York")]) = true.
Proof.
  apply (payload_values_truthy acme JNull None
           (_build_company_payload (_lead_data_to_dict acme))
           (py "locations") (JList [JStr (py "New York")])).
  - reflexivity.
  - vm_compute. auto.
  - discriminate.
Defined.

(** X9: each kind has its own set of attribute keys, and [name] is
    always among those sent.  A person payload has no key beyond name,
    email_addresses, phone_numbers, job_title, location, linkedin_url,
    company and description; a company payload none beyond name,
    locations, domains and description; a user payload none beyond
    name, email_address, job_title and description (phone, location
    and LinkedIn address of a user are not sent); a deal payload none
    beyond name and description. *)
Theorem payload_keys_by_kind (lead : LeadData) (record_id : json)
    (dom : option str) (payload : json) :
  _build_attio_payload (linked (_lead_data_to_dict lead) record_id dom)
    (object_type lead) = Return payload ->
  (forall k, In k (map fst (payload_values payload)) ->
     In k (allowed_keys (object_type lead)))
  /\ (exists v, assoc (py "name") (payload_values payload) = Some v).
Proof.
  intros Hb. split; [|exact (payload_has_name lead record_id dom payload Hb)].
  intros k Hin. apply in_map_iff in Hin as [[k' v] [E Hin]]. cbn [fst] in E. subst k'.
  exact (proj1 (payload_entry lead record_id dom payload k v Hb Hin)).
Qed.

Definition john : LeadData :=
  {| object_type := py "user"; name := py "John Smith";
     email := Some (py "john@example.com"); phone := Some (py "+1-555-123-4567");
     company := None; job_title := Some (py "Senior Engineer");
     location := Some (py "Berlin"); linkedin_url := None; deal_value := None;
     deal_stage := None; notes := Some (py "New hire") |}.

Lemma payload_keys_by_kind_witness :
  map fst (payload_values (_build_user_payload (_lead_data_to_dict john)))
    = [py "name"; py "email_address"; py "job_title"; py "description"]
  /\ (forall k,
        In k (map fst (payload_values (_build_user_payload (_lead_data_to_dict john)))) ->
        In k (allowed_keys (py "user"))).
Proof.
  split; [vm_compute; reflexivity|].
  exact (proj1 (payload_keys_by_kind john JNull None
                  (_build_user_payload (_lead_data_to_dict john)) eq_refl)).
Defined.

End PayloadContents.

(** ** Record creation as a whole *)

Section RecordCreation.

Import gemini_processor attio_client.

(** The ways [create_record] can end. *)
Definition create_outcome (res : outcome json) : Prop :=
  (exists created, res = Return created)
  \/ (exists msg, res = Raise (AttioAPIError msg))
  \/ res = Raise (PyError "AttributeError").

Lemma search_shape (company_name : str) (w : world) (tr : list event) :
  exists dom gens,
    _search_company_website company_name false w tr = (Return dom, tr ++ gens)
    /\ Forall is_generation gens /\ (1 <= length gens <= 2)%nat.
Proof.
  unfold _search_company_website. rewrite search_primary_run.
  destruct (generate_content w tr _ _) as [text|e].
  - eexists _, [_]. split; [reflexivity|]. split; [repeat constructor | simpl; lia].
  - destruct (_is_quota_error e).
    + eexists _, [_; _]. split; [reflexivity|].
      split; [repeat constructor | simpl; lia].
    + eexists _, [_]. split; [reflexivity|]. split; [repeat constructor | simpl; lia].
Qed.

(** The [try] statement makes the create call, then at most two more
    HTTP calls, and ends in one of the three ways. *)
Lemma create_with_repair_shape (object_type object_slug : str) (payload : json)
    (w : world) (tr : list event) :
  exists res rest,
    create_with_repair object_type object_slug payload w tr
      = (res, tr ++ Post (records_endpoint object_slug) payload :: rest)
    /\ Forall is_post rest /\ (length rest <= 2)%nat
    /\ create_outcome res.
Proof.
  unfold create_with_repair, except_request, try_except, create_outcome.
  rewrite post_record_exact.
  destruct (create_call_outcome _ _) as [c|e|] eqn:H0.
  - eexists _, []. split; [reflexivity|]. split; [constructor|]. split; [simpl; lia|]. eauto.
  - destruct e as [m|m|msg resp|errs|cls].
    + unfold create_call_outcome in H0.
      destruct (requests_post w tr _ _) as [r|]; [|discriminate].
      destruct (error_status r); [discriminate|].
      destruct (body r) as [|c]; [discriminate|].
      destruct (record_id_of c); discriminate.
    + unfold create_call_outcome in H0.
      destruct (requests_post w tr _ _) as [r|]; [|discriminate].
      destruct (error_status r); [discriminate|].
      destruct (body r) as [|c]; [discriminate|].
      destruct (record_id_of c); discriminate.
    + clear H0. destruct (missing_attribute resp) as [slug|].
      * unfold mbind, M_bind, bind, attempt.
        destruct (create_attribute_run object_slug slug w
                    (tr ++ [Post (records_endpoint object_slug) payload]))
          as [res1 [H1 [Hbad Hgood]]].
        rewrite H1.
        destruct (refused _).
        -- destruct (Hbad eq_refl) as [amsg ->].
           eexists _, [_]. rewrite <- app_assoc. split; [reflexivity|].
           split; [repeat constructor|]. split; [simpl; lia|]. eauto.
        -- rewrite (Hgood eq_refl), post_record_exact.
           destruct (create_call_outcome _ _) as [c|e|] eqn:H2.
           ++ eexists _, [_; _]. rewrite <- !app_assoc. split; [reflexivity|].
              split; [repeat constructor|]. split; [simpl; lia|]. eauto.
           ++ eexists _, [_; _]. rewrite <- !app_assoc. split; [reflexivity|].
              split; [repeat constructor|]. split; [simpl; lia|]. eauto.
           ++ unfold create_call_outcome in H2.
              destruct (requests_post w _ _ _) as [r|]; [|discriminate].
              destruct (error_status r); [discriminate|].
              destruct (body r) as [|c]; [discriminate|].
              destruct (record_id_of c); discriminate.
      * eexists _, []. split; [reflexivity|]. split; [constructor|].
        split; [simpl; lia|]. eauto.
    + unfold create_call_outcome in H0.
      destruct (requests_post w tr _ _) as [r|]; [|discriminate].
      destruct (error_status r); [discriminate|].
      destruct (body r) as [|c]; [discriminate|].
      destruct (record_id_of c); discriminate.
    + assert (cls = "AttributeError"%string) as ->.
      { unfold create_call_outcome in H0.
        destruct (requests_post w tr _ _) as [r|]; [|discriminate].
        destruct (error_status r); [discriminate|].
        destruct (body r) as [|c]; [discriminate|].
        destruct (record_id_of c); [discriminate|]. congruence. }
      eexists _, []. split; [reflexivity|]. split; [constructor|].
      split; [simpl; lia|]. eauto.
  - unfold create_call_outcome in H0.
    destruct (requests_post w tr _ _) as [r|]; [|discriminate].
    destruct (error_status r); [discriminate|].
    destruct (body r) as [|c]; [discriminate|].
    destruct (record_id_of c); discriminate.
Qed.

Lemma valid_type_cases (t : str) :
  existsb (str_eqb t) valid_types = true ->
  t = py "person" \/ t = py "company" \/ t = py "deal" \/ t = py "user".
Proof.
  intros H. apply existsb_exists in H as [x [Hin Hx]].
  unfold str_eqb in Hx. apply bool_decide_eq_true in Hx. subst x.
  unfold valid_types in Hin. cbn [In] in Hin.
  destruct Hin as [<-|[<-|[<-|[<-|[]]]]]; auto.
Qed.

Lemma deal_payload_returns (lead : LeadData) :
  exists payload, _build_deal_payload (_lead_data_to_dict lead) = Return payload.
Proof.
  unfold _build_deal_payload.
  change (dict_get (_lead_data_to_dict lead) "deal_value") with JNull.
  cbn [truthy]. cbv beta iota zeta. eexists. reflexivity.
Qed.

(** The run of [create_record] when there is no company step. *)
Lemma create_record_direct (lead : LeadData) (slug : str) (payload : json)
    (w : world) (tr : list event) :
  existsb (str_eqb (object_type lead)) valid_types = true ->
  str_eqb (object_type lead) (py "person") && truthy (opt_json (company lead)) = false ->
  _build_attio_payload (_lead_data_to_dict lead) (object_type lead) = Return payload ->
  object_plural !! object_type lead = Some slug ->
  create_record lead w tr = create_with_repair (object_type lead) slug payload w tr.
Proof.
  intros Hv Hc Hp Hs. unfold create_record. rewrite Hv. cbn [negb].
  change (dict_get (_lead_data_to_dict lead) "company") with (opt_json (company lead)).
  rewrite Hc. unfold mbind, M_bind, bind, mret, M_ret, ret, lift.
  rewrite Hp, Hs. reflexivity.
Qed.

Lemma create_record_direct_run (lead : LeadData) (w : world) (tr : list event) :
  existsb (str_eqb (object_type lead)) valid_types = true ->
  str_eqb (object_type lead) (py "person") && truthy (opt_json (company lead)) = false ->
  exists slug payload,
    create_record lead w tr = create_with_repair (object_type lead) slug payload w tr.
Proof.
  intros Hv Hc. destruct (deal_payload_returns lead) as [deal Hdeal].
  destruct (valid_type_cases _ Hv) as [E|[E|[E|E]]].
  - exists (py "people"), (_build_person_payload (_lead_data_to_dict lead)).
    apply create_record_direct; [exact Hv | exact Hc | |]; rewrite E; reflexivity.
  - exists (py "companies"), (_build_company_payload (_lead_data_to_dict lead)).
    apply create_record_direct; [exact Hv | exact Hc | |]; rewrite E; reflexivity.
  - exists (py "deals"), deal.
    apply create_record_direct; [exact Hv | exact Hc | |]; rewrite E;
      [exact Hdeal | reflexivity].
  - exists (py "users"), (_build_user_payload (_lead_data_to_dict lead)).
    apply create_record_direct; [exact Hv | exact Hc | |]; rewrite E; reflexivity.
Qed.

(** X10: a lead that is not a person with a company goes straight to
    the create call of its kind: companies, deals and users (and
    persons without company) are posted to their own endpoint with
    the payload built from the lead alone; no generation call is made
    for them, so the domain of a company lead is never looked up, and
    at most three HTTP calls are made. *)
Theorem create_record_routing (lead : LeadData) (w : world) (tr : list event) :
  let dict := _lead_data_to_dict lead in
  (object_type lead = py "company" ->
     create_record lead w tr
       = create_with_repair (py "company") (py "companies")
           (_build_company_payload dict) w tr)
  /\ (object_type lead = py "user" ->
        create_record lead w tr
          = create_with_repair (py "user") (py "users") (_build_user_payload dict) w tr)
  /\ (object_type lead = py "deal" ->
        exists payload,
          _build_deal_payload dict = Return payload
          /\ create_record lead w tr
               = create_with_repair (py "deal") (py "deals") payload w tr)
  /\ (object_type lead = py "person" ->
        truthy (opt_json (company lead)) = false ->
        create_record lead w tr
          = create_with_repair (py "person") (py "people")
              (_build_person_payload dict) w tr)
  /\ (existsb (str_eqb (object_type lead)) valid_types = true ->
      str_eqb (object_type lead) (py "person") && truthy (opt_json (company lead))
        = false ->
      exists res added,
        create_record lead w tr = (res, tr ++ added)
        /\ Forall is_post added /\ (1 <= length added <= 3)%nat).
Proof.
  intros dict.
  assert (Hcompany : object_type lead = py "company" ->
     create_record lead w tr
       = create_with_repair (py "company") (py "companies")
           (_build_company_payload dict) w tr).
  { intros E.
    rewrite (create_record_direct lead (py "companies") (_build_company_payload dict));
      rewrite ?E; reflexivity. }
  assert (Huser : object_type lead = py "user" ->
     create_record lead w tr
       = create_with_repair (py "user") (py "users") (_build_user_payload dict) w tr).
  { intros E.
    rewrite (create_record_direct lead (py "users") (_build_user_payload dict));
      rewrite ?E; reflexivity. }
  assert (Hdeal : object_type lead = py "deal" ->
     exists payload,
       _build_deal_payload dict = Return payload
       /\ create_record lead w tr
            = create_with_repair (py "deal") (py "deals") payload w tr).
  { intros E. destruct (deal_payload_returns lead) as [payload Hp].
    exists payload. split; [exact Hp|].
    rewrite (create_record_direct lead (py "deals") payload);
      rewrite ?E; try reflexivity.
    unfold _build_attio_payload. exact Hp. }
  assert (Hperson : object_type lead = py "person" ->
     truthy (opt_json (company lead)) = false ->
     create_record lead w tr
       = create_with_repair (py "person") (py "people")
           (_build_person_payload dict) w tr).
  { intros E Hc.
    rewrite (create_record_direct lead (py "people") (_build_person_payload dict));
      rewrite ?E, ?Hc; reflexivity. }
  split; [exact Hcompany|]. split; [exact Huser|]. split; [exact Hdeal|].
  split; [exact Hperson|].
  intros Hv Hc.
  destruct (create_record_direct_run lead w tr Hv Hc) as [slug [payload ->]].
  destruct (create_with_repair_shape (object_type lead) slug payload w tr)
    as [res [rest [Hrun [Hposts [Hlen _]]]]].
  exists res, (Post (records_endpoint slug) payload :: rest).
  split; [exact Hrun|]. split; [constructor; [exact I | exact Hposts]|].
  cbn [length]. lia.
Qed.

Lemma create_record_routing_witness :
  create_record acme (accepting_world (JObj [])) []
    = (Return (JObj []),
       [Post (records_endpoint (py "companies"))
          (_build_company_payload (_lead_data_to_dict acme))]).
Proof.
  destruct (create_record_routing acme (accepting_world (JObj [])) []) as [H _].
  rewrite (H eq_refl). vm_compute. reflexivity.
Defined.

Lemma truthy_company (lead : LeadData) :
  truthy (opt_json (company lead)) = true ->
  exists c, company lead = Some c /\ c <> [].
Proof.
  destruct (company lead) as [c|]; cbn [opt_json]; [|discriminate].
  intros H. exists c. split; [reflexivity|]. intros ->. discriminate H.
Qed.

(** The calls [create_record] makes and the ways it ends. *)
Lemma create_record_shape (lead : LeadData) (w : world) (tr : list event) :
  exists res gens posts,
    create_record lead w tr = (res, tr ++ gens ++ posts)
    /\ Forall is_generation gens /\ (length gens <= 2)%nat
    /\ Forall is_post posts /\ (length posts <= 4)%nat
    /\ create_outcome res
    /\ (existsb (str_eqb (object_type lead)) valid_types = true -> posts <> [])
    /\ (existsb (str_eqb (object_type lead)) valid_types = false ->
        gens = [] /\ posts = []
        /\ exists msg, res = Raise (AttioAPIError msg)).
Proof.
  destruct (existsb (str_eqb (object_type lead)) valid_types) eqn:Hv.
  2:{ exists (Raise (AttioAPIError
               [Txt (py "Invalid object_type: " ++ object_type lead
                       ++ py ". Must be one of ['person', 'company', 'deal', 'user']")])),
        [], [].
      unfold create_record. rewrite Hv. cbn [negb]. rewrite !app_nil_r.
      split; [reflexivity|]. split; [constructor|]. split; [simpl; lia|].
      split; [constructor|]. split; [simpl; lia|].
      split; [right; left; eauto|]. split; [discriminate|].
      intros _. split; [reflexivity|]. split; [reflexivity|]. eauto. }
  destruct (str_eqb (object_type lead) (py "person")
            && truthy (opt_json (company lead))) eqn:Hc.
  - apply andb_prop in Hc as [Hot Hco].
    unfold str_eqb in Hot. apply bool_decide_eq_true in Hot.
    destruct (truthy_company lead Hco) as [c [Hsome Hne]].
    destruct (search_shape c w tr) as [dom [gens [Hs [Hg Hl]]]].
    rewrite (create_record_person_run lead c w tr (tr ++ gens) dom Hot Hsome Hne Hs).
    cbv zeta.
    set (cc := Post companies_endpoint (company_payload c dom (opt_json (notes lead)))).
    assert (Hcreate : forall payload,
      exists res posts,
        create_with_repair (py "person") (py "people") payload w ((tr ++ gens) ++ [cc])
          = (res, tr ++ gens ++ posts)
        /\ Forall is_post posts /\ (length posts <= 4)%nat
        /\ create_outcome res /\ posts <> []).
    { intros payload.
      destruct (create_with_repair_shape (py "person") (py "people") payload w
                  ((tr ++ gens) ++ [cc])) as [res [rest [Hrun [Hp [Hlen Ho]]]]].
      exists res, (cc :: Post (records_endpoint (py "people")) payload :: rest).
      rewrite Hrun, <- !app_assoc. split; [reflexivity|].
      split; [repeat constructor; exact Hp|]. split; [cbn [length]; lia|].
      split; [exact Ho | discriminate]. }
    assert (Hfinish : forall run,
      (exists res posts, run = (res, tr ++ gens ++ posts)
         /\ Forall is_post posts /\ (length posts <= 4)%nat
         /\ create_outcome res /\ posts <> []) ->
      exists res gens0 posts,
        run = (res, tr ++ gens0 ++ posts)
        /\ Forall is_generation gens0 /\ (length gens0 <= 2)%nat
        /\ Forall is_post posts /\ (length posts <= 4)%nat
        /\ create_outcome res
        /\ (true = true -> posts <> [])
        /\ (true = false ->
            gens0 = [] /\ posts = [] /\ exists msg, res = Raise (AttioAPIError msg))).
    { intros run [res [posts [Hrun [Hp [Hlen [Ho Hne']]]]]].
      exists res, gens, posts. split; [exact Hrun|]. split; [exact Hg|].
      split; [lia|]. split; [exact Hp|]. split; [exact Hlen|]. split; [exact Ho|].
      split; [intros _; exact Hne' | discriminate]. }
    destruct (company_reply_record _) as [company_record|];
      [destruct (truthy company_record);
         [destruct (record_id_of company_record)|]|];
      try (apply Hfinish, Hcreate).
    apply Hfinish. exists (Raise (PyError "AttributeError")), [cc].
    rewrite <- app_assoc. split; [reflexivity|]. split; [repeat constructor|].
    split; [simpl; lia|]. split; [right; right; reflexivity | discriminate].
  - destruct (create_record_direct_run lead w tr Hv Hc) as [slug [payload ->]].
    destruct (create_with_repair_shape (object_type lead) slug payload w tr)
      as [res [rest [Hrun [Hp [Hlen Ho]]]]].
    exists res, [], (Post (records_endpoint slug) payload :: rest).
    split; [exact Hrun|]. split; [constructor|]. split; [simpl; lia|].
    split; [constructor; [exact I | exact Hp]|]. split; [cbn [length]; lia|].
    split; [exact Ho|]. split; [discriminate | discriminate].
Qed.

(** X11: whatever the two services answer, [create_record] makes at
    most two generation calls, all before its HTTP calls, and at most
    four HTTP calls (the company call, the create call, the attribute
    call and the replay); it ends with the created record, with
    [AttioAPIError], or with [AttributeError] (an accepted answer that
    is not a JSON object): no [RequestException] leaves it.  A lead
    of a valid kind causes at least one HTTP call; a lead of another
    kind causes no call at all and [AttioAPIError]. *)
Theorem create_record_calls_and_outcomes (lead : LeadData) (w : world)
    (tr : list event) :
  exists res gens posts,
    create_record lead w tr = (res, tr ++ gens ++ posts)
    /\ Forall is_generation gens /\ (length gens <= 2)%nat
    /\ Forall is_post posts /\ (length posts <= 4)%nat
    /\ create_outcome res
    /\ (In (object_type lead) valid_types -> posts <> [])
    /\ (~ In (object_type lead) valid_types ->
        gens = [] /\ posts = []
        /\ exists msg, res = Raise (AttioAPIError msg)).
Proof.
  destruct (create_record_shape lead w tr)
    as [res [gens [posts [Hrun [Hg [Hgl [Hp [Hpl [Ho [Hvalid Hinvalid]]]]]]]]]].
  exists res, gens, posts.
  split; [exact Hrun|]. split; [exact Hg|]. split; [exact Hgl|].
  split; [exact Hp|]. split; [exact Hpl|]. split; [exact Ho|]. split.
  - intros Hin. apply Hvalid. apply existsb_exists.
    exists (object_type lead). split; [exact Hin|].
    unfold str_eqb. apply bool_decide_eq_true. reflexivity.
  - intros Hnot. apply Hinvalid. apply not_true_iff_false. intros H.
    apply existsb_exists in H as [x [Hin Hx]].
    unfold str_eqb in Hx. apply bool_decide_eq_true in Hx. subst x. exact (Hnot Hin).
Qed.

(** X12: a company answer that is accepted and decodes to a non-empty
    JSON value from which no record id can be read (a list, a string,
    a number, or an object whose [id] is not an object) stops the
    creation of the person: [AttributeError] is raised right after the
    company call and no person create call is made.  An empty answer
    ([{}], [[]], [null], ...) is treated like a failed company call
    instead: the person is created without link. *)
Theorem malformed_company_record (lead : LeadData) (c : str) (w : world)
    (tr tr1 : list event) (dom : option str) (r : response) (company_record : json) :
  object_type lead = py "person" ->
  company lead = Some c ->
  c <> [] ->
  _search_company_website c false w tr = (Return dom, tr1) ->
  let company_call :=
    Post companies_endpoint (company_payload c dom (opt_json (notes lead))) in
  requests_post w tr1 companies_endpoint
    (company_payload c dom (opt_json (notes lead))) = HttpResponse r ->
  error_status r = false ->
  body r = inr company_record ->
  (truthy company_record = true -> record_id_of company_record = None ->
     create_record lead w tr
       = (Raise (PyError "AttributeError"), tr1 ++ [company_call]))
  /\ (truthy company_record = false ->
      create_record lead w tr
        = create_with_repair (py "person") (py "people")
            (_build_person_payload (_lead_data_to_dict lead)) w
            (tr1 ++ [company_call])).
Proof.
  intros Hot Hco Hne Hs company_call Hreply Hstatus Hbody.
  rewrite (create_record_person_run lead c w tr tr1 dom Hot Hco Hne Hs). cbv zeta.
  rewrite Hreply. unfold company_reply_record. rewrite Hstatus, Hbody.
  split.
  - intros Ht Hid. rewrite Ht, Hid. reflexivity.
  - intros Ht. rewrite Ht. reflexivity.
Qed.

(** A world whose company calls are answered with a JSON list. *)
Definition listing_world : world :=
  {| generate_content := fun _ _ _ => GenText (py "stripe.com");
     requests_post := fun _ url _ =>
       if str_eqb url companies_endpoint
       then ok (JList [JStr (py "rec_1")])
       else ok (JObj [(py "id", JObj [(py "record_id", JStr (py "rec_2"))])]) |}.

Lemma malformed_company_record_witness :
  create_record sarah listing_world []
    = (Raise (PyError "AttributeError"),
       [Generate Config.GOOGLE_MODEL (website_prompt (py "Stripe"));
        Post companies_endpoint
          (company_payload (py "Stripe") (Some (py "stripe.com"))
             (JStr (py "Met today")))]).
Proof.
  refine (proj1 (malformed_company_record sarah (py "Stripe") listing_world []
            [Generate Config.GOOGLE_MODEL (website_prompt (py "Stripe"))]
            (Some (py "stripe.com"))
            {| status_code := 200; reason := py "OK";
               body := inr (JList [JStr (py "rec_1")]) |}
            (JList [JStr (py "rec_1")])
            eq_refl eq_refl _ _ _ eq_refl eq_refl) eq_refl eq_refl).
  - discriminate.
  - vm_compute. reflexivity.
  - vm_compute. reflexivity.
Defined.

(** X13: the company step never raises and never fails to return:
    after the one or two generation calls of the website lookup it
    makes exactly one HTTP call, to the companies endpoint, and
    returns either the decoded record together with the domain that
    was looked up, or nothing at all: when the call fails the domain
    is dropped with it.  The body of the call always carries the
    name; it carries [domains] exactly when a non-empty domain was
    found and [description] exactly when the notes are non-empty. *)
Theorem company_step_total (company_name : str) (notes : json) (w : world)
    (tr : list event) :
  exists dom gens result,
    let payload := company_payload company_name dom notes in
    _create_or_get_company company_name notes w tr
      = (Return result, tr ++ gens ++ [Post companies_endpoint payload])
    /\ Forall is_generation gens /\ (1 <= length gens <= 2)%nat
    /\ (result = (None, None) \/ exists company_record, result = (Some company_record, dom))
    /\ (forall values, payload_values payload = values ->
          assoc (py "name") values = Some (JStr company_name)
          /\ (assoc (py "domains") values
                = if truthy (opt_json dom)
                  then Some (JList [JObj [(py "domain", opt_json dom)]]) else None)
          /\ (assoc (py "description") values
                = if truthy notes then Some notes else None)).
Proof.
  destruct (search_shape company_name w tr) as [dom [gens [Hs [Hg Hl]]]].
  exists dom, gens. eexists. cbv zeta.
  rewrite (create_or_get_company_run company_name notes w tr (tr ++ gens) dom Hs).
  cbv zeta. rewrite <- app_assoc. split; [reflexivity|].
  split; [exact Hg|]. split; [exact Hl|]. split.
  - destruct (company_reply_record _); eauto.
  - intros values <-. unfold company_payload, payload_values. cbn [assoc].
    destruct (truthy (opt_json dom)), (truthy notes); vm_compute; auto.
Qed.

End RecordCreation.

(** ** Configuration, confirmation and the handling of a mention *)

Section Startup.

Import gemini_processor attio_client config.

Lemma is_set_spec (value : option str) :
  is_set value = true <-> exists v, value = Some v /\ v <> [].
Proof.
  destruct value as [[|c v]|]; cbn [is_set]; split;
    try discriminate; try (intros [v' [H Hne]]; congruence).
  intros _. exists (c :: v). split; [reflexivity | discriminate].
Qed.

(** X14: [Config.validate] accepts exactly the environments in which
    the three required variables are set to non-empty values, and
    reports the names of the others in the order Discord, Google,
    Attio.  Under a validated configuration the module's coroutine
    [create_record] is [AttioClient.create_record]; without a key for
    Attio it raises [AttioAPIError] and makes no outbound call,
    whatever the lead. *)
Theorem validated_configuration (env : environment) :
  (validate env = true <->
     is_set (DISCORD_BOT_TOKEN env) = true
     /\ is_set (GOOGLE_API_KEY env) = true
     /\ is_set (ATTIO_API_KEY env) = true)
  /\ missing_vars env
       = (if is_set (DISCORD_BOT_TOKEN env) then [] else [py "DISCORD_BOT_TOKEN"])
         ++ (if is_set (GOOGLE_API_KEY env) then [] else [py "GOOGLE_API_KEY"])
         ++ (if is_set (ATTIO_API_KEY env) then [] else [py "ATTIO_API_KEY"])
  /\ (validate env = true ->
      forall lead w tr,
        AttioClient.create_record_async env lead w tr = create_record lead w tr)
  /\ (is_set (ATTIO_API_KEY env) = false ->
      forall lead w tr,
        AttioClient.create_record_async env lead w tr
          = (Raise (AttioAPIError [Txt (py "ATTIO_API_KEY not configured")]), tr)).
Proof.
  assert (Hm : missing_vars env
       = (if is_set (DISCORD_BOT_TOKEN env) then [] else [py "DISCORD_BOT_TOKEN"])
         ++ (if is_set (GOOGLE_API_KEY env) then [] else [py "GOOGLE_API_KEY"])
         ++ (if is_set (ATTIO_API_KEY env) then [] else [py "ATTIO_API_KEY"])).
  { unfold missing_vars, required_vars. cbn [List.filter snd].
    destruct (is_set (DISCORD_BOT_TOKEN env)), (is_set (GOOGLE_API_KEY env)),
      (is_set (ATTIO_API_KEY env)); reflexivity. }
  assert (Hv : validate env = true <->
     is_set (DISCORD_BOT_TOKEN env) = true
     /\ is_set (GOOGLE_API_KEY env) = true
     /\ is_set (ATTIO_API_KEY env) = true).
  { unfold validate. rewrite Hm.
    destruct (is_set (DISCORD_BOT_TOKEN env)), (is_set (GOOGLE_API_KEY env)),
      (is_set (ATTIO_API_KEY env)); cbn [app]; intuition discriminate. }
  split; [exact Hv|]. split; [exact Hm|]. split.
  - intros H lead w tr. apply Hv in H as [_ [_ Ha]].
    unfold AttioClient.create_record_async, AttioClient.__init__.
    rewrite Ha. reflexivity.
  - intros Ha lead w tr.
    unfold AttioClient.create_record_async, AttioClient.__init__.
    rewrite Ha. reflexivity.
Qed.

End Startup.

Section Confirmation.

Import gemini_processor attio_client config bot.

(** The labels of the lines a confirmation may have after the name. *)
Definition labels (kind : str) : list string :=
  (if existsb (str_eqb kind) [py "person"; py "user"] then
     ["**Company:** "; "**Title:** "; "**Email:** "; "**Phone:** ";
      "**Location:** "; "**LinkedIn:** "]
   else if str_eqb kind (py "company") then ["**Location:** "]
   else if str_eqb kind (py "deal") then
     ["**Company:** "; "**Value:** "; "**Stage:** "]
   else [])%string
  ++ ["**Notes:** "%string].

(** A line that shows a value under one of the labels. *)
Definition shows (allowed : list string) (line : str) : Prop :=
  exists label value,
    In label allowed /\ line = py label ++ value /\ value <> [].

Lemma line_if_shows (allowed : list string) (label : string) (value : option str) :
  In label allowed -> Forall (shows allowed) (line_if label value).
Proof.
  intros Hin. unfold line_if. destruct (is_set value) eqn:Hs; [|constructor].
  apply is_set_spec in Hs as [v [-> Hne]].
  constructor; [|constructor]. exists label, v. auto.
Qed.

Lemma shows_in (allowed : list string) (label : string) (value : option str) :
  is_set value = true -> In (py label ++ default [] value) (line_if label value).
Proof.
  intros Hs. unfold line_if. rewrite Hs. left. reflexivity.
Qed.

(** X15: the confirmation has a headline, an empty line and the name,
    and after them only lines that show a non-empty value under a
    label of the lead's kind (company, title, e-mail, phone, location
    and LinkedIn for persons and users; location for companies;
    company, value and stage for deals), the notes coming last: an
    unset or empty field is never shown.  A deal whose value is set
    and not zero is confirmed with its value, in whole dollars with
    thousands separators. *)
Theorem confirmation_lines (lead : LeadData) (created_record : json) :
  exists headline rest,
    _build_success_message lead created_record
      = join newline
          ([headline; []; py "**Name:** " ++ name lead] ++ rest)
    /\ Forall (shows (labels (object_type lead))) rest
    /\ (length rest <= 7)%nat
    /\ (is_set (notes lead) = true ->
        last rest = Some (py "**Notes:** " ++ default [] (notes lead)))
    /\ (forall x, object_type lead = py "deal" ->
          deal_value lead = Some x -> float_truthy x = true ->
          In (py "**Value:** $" ++ format_thousands x) rest).
Proof.
  unfold _build_success_message, lines, labels.
  assert (Hlen : forall label value, (length (line_if label value) <= 1)%nat).
  { intros label value. unfold line_if. destruct (is_set value); simpl; lia. }
  assert (Hlast : forall (front : list str),
    is_set (notes lead) = true ->
    last (front ++ line_if "**Notes:** " (notes lead))
      = Some (py "**Notes:** " ++ default [] (notes lead))).
  { intros front Hs. unfold line_if. rewrite Hs. apply last_snoc. }
  destruct (existsb (str_eqb (object_type lead)) [py "person"; py "user"]) eqn:Hpu.
  - eexists _, (line_if "**Company:** " (company lead)
        ++ line_if "**Title:** " (job_title lead)
        ++ line_if "**Email:** " (email lead)
        ++ line_if "**Phone:** " (phone lead)
        ++ line_if "**Location:** " (location lead)
        ++ line_if "**LinkedIn:** " (linkedin_url lead)
        ++ line_if "**Notes:** " (notes lead)).
    split; [rewrite <- !app_assoc; reflexivity|]. split.
    { repeat (apply Forall_app; split); apply line_if_shows; cbn [In app]; tauto. }
    split.
    { rewrite !length_app.
      pose proof (Hlen "**Company:** "%string (company lead)).
      pose proof (Hlen "**Title:** "%string (job_title lead)).
      pose proof (Hlen "**Email:** "%string (email lead)).
      pose proof (Hlen "**Phone:** "%string (phone lead)).
      pose proof (Hlen "**Location:** "%string (location lead)).
      pose proof (Hlen "**LinkedIn:** "%string (linkedin_url lead)).
      pose proof (Hlen "**Notes:** "%string (notes lead)). lia. }
    split.
    { intros Hs. rewrite !app_assoc. apply Hlast, Hs. }
    intros x Hd. rewrite Hd in Hpu. discriminate Hpu.
  - destruct (str_eqb (object_type lead) (py "company")) eqn:Hco.
    + eexists _, (line_if "**Location:** " (location lead)
                    ++ line_if "**Notes:** " (notes lead)).
      split; [rewrite <- !app_assoc; reflexivity|]. split.
      { repeat (apply Forall_app; split); apply line_if_shows; cbn [In app]; tauto. }
      split.
      { rewrite !length_app.
        pose proof (Hlen "**Location:** "%string (location lead)).
        pose proof (Hlen "**Notes:** "%string (notes lead)). lia. }
      split.
      { intros Hs. apply Hlast, Hs. }
      intros x Hd. rewrite Hd in Hco. discriminate Hco.
    + destruct (str_eqb (object_type lead) (py "deal")) eqn:Hde.
      * set (value_line := match deal_value lead with
                           | Some x =>
                               if float_truthy x
                               then [py "**Value:** $" ++ format_thousands x]
                               else []
                           | None => []
                           end).
        eexists _, (line_if "**Company:** " (company lead)
                      ++ value_line
                      ++ line_if "**Stage:** " (deal_stage lead)
                      ++ line_if "**Notes:** " (notes lead)).
        split; [rewrite <- !app_assoc; reflexivity|].
        assert (Hvalue : Forall
                  (shows ["**Company:** "; "**Value:** "; "**Stage:** ";
                          "**Notes:** "]%string) value_line
                /\ (length value_line <= 1)%nat).
        { subst value_line. destruct (deal_value lead) as [x|];
            [destruct (float_truthy x)|]; (split; [|simpl; lia]);
            try constructor; [|constructor].
          exists "**Value:** "%string, (py "$" ++ format_thousands x).
          split; [cbn [In]; tauto|]. split; [reflexivity | discriminate]. }
        split.
        { repeat (apply Forall_app; split);
            first [exact (proj1 Hvalue) | apply line_if_shows; cbn [In app]; tauto]. }
        split.
        { rewrite !length_app.
          pose proof (Hlen "**Company:** "%string (company lead)).
          pose proof (Hlen "**Stage:** "%string (deal_stage lead)).
          pose proof (Hlen "**Notes:** "%string (notes lead)).
          pose proof (proj2 Hvalue). lia. }
        split.
        { intros Hs. rewrite !app_assoc. apply Hlast, Hs. }
        intros x _ Hx Ht. apply in_or_app. right. apply in_or_app. left.
        subst value_line. rewrite Hx, Ht. left. reflexivity.
      * eexists _, (line_if "**Notes:** " (notes lead)).
        split; [reflexivity|]. split.
        { apply line_if_shows; cbn [In app]; tauto. }
        split; [eapply Nat.le_trans; [apply Hlen | lia]|]. split.
        { intros Hs. apply (Hlast []), Hs. }
        intros x Hd. rewrite Hd in Hde. discriminate Hde.
Qed.

End Confirmation.

Section Mentions.

Import gemini_processor attio_client config bot.

Definition is_discord (a : action) : Prop :=
  match a with Discord _ => True | Outbound _ => False end.

Definition is_reply (a : action) : Prop :=
  match a with Discord (Reply _) => True | _ => False end.

(** Discord refuses nothing, except perhaps the clearing of the
    reactions for want of the permission. *)
Definition lenient (s : surroundings) : Prop :=
  forall tr call,
    discord s tr call = None
    \/ (call = ClearReactions /\ discord s tr call = Some "Forbidden"%string).

Lemma outbound_calls_app (a b : list action) :
  outbound_calls (a ++ b) = outbound_calls a ++ outbound_calls b.
Proof.
  induction a as [|[ev|c] a IH]; cbn [outbound_calls app]; [reflexivity| |exact IH].
  rewrite IH. reflexivity.
Qed.

Lemma outbound_calls_map (l : list event) : outbound_calls (map Outbound l) = l.
Proof.
  induction l as [|ev l IH]; cbn [outbound_calls map]; [reflexivity|].
  rewrite IH. reflexivity.
Qed.

Lemma outbound_calls_discord (l : list action) :
  Forall is_discord l -> outbound_calls l = [].
Proof.
  induction 1 as [|[ev|c] l Hd _ IH]; cbn [outbound_calls]; [reflexivity| |exact IH].
  destruct Hd.
Qed.

Lemma await_run {A} (m : M A) (s : surroundings) (tr : list action)
    (o : outcome A) (added : list event) :
  m (services s) (outbound_calls tr) = (o, outbound_calls tr ++ added) ->
  await m s tr = (o, tr ++ map Outbound added).
Proof.
  intros H. unfold await. rewrite H, drop_app_length. reflexivity.
Qed.

(** Computations that only talk to Discord. *)
Definition quiet {A} (m : B A) : Prop :=
  forall s tr, exists res added, m s tr = (res, tr ++ added) /\ Forall is_discord added.

Lemma quiet_give {A} (a : A) : quiet (give a).
Proof.
  intros s tr. exists (Return a), []. rewrite app_nil_r. split; [reflexivity | constructor].
Qed.

Lemma quiet_throw {A} (e : exn) : quiet (@throw A e).
Proof.
  intros s tr. exists (Raise e), []. rewrite app_nil_r. split; [reflexivity | constructor].
Qed.

Lemma quiet_on_discord (call : discord_call) : quiet (on_discord call).
Proof.
  intros s tr. eexists _, [_]. split; [reflexivity | repeat constructor].
Qed.

Lemma quiet_and_then {A C} (m : B A) (k : A -> B C) :
  quiet m -> (forall a, quiet (k a)) -> quiet (and_then m k).
Proof.
  intros Hm Hk s tr. unfold and_then.
  destruct (Hm s tr) as [res [added [-> Hd]]].
  destruct res as [a|e|].
  - destruct (Hk a s (tr ++ added)) as [res' [added' [-> Hd']]].
    exists res', (added ++ added'). rewrite app_assoc. split; [reflexivity|].
    apply Forall_app. split; assumption.
  - exists (Raise e), added. split; [reflexivity | assumption].
  - exists OutOfFuel, added. split; [reflexivity | assumption].
Qed.

Lemma quiet_attempted {A} (m : B A) : quiet m -> quiet (attempted m).
Proof.
  intros Hm s tr. unfold attempted.
  destruct (Hm s tr) as [res [added [-> Hd]]].
  destruct res; eexists _, added; (split; [reflexivity | assumption]).
Qed.

Lemma quiet_clear_reactions : quiet clear_reactions.
Proof.
  unfold clear_reactions. apply quiet_and_then.
  - apply quiet_attempted, quiet_on_discord.
  - intros [e|[]]; [|apply quiet_give].
    destruct e; try apply quiet_throw.
    destruct (String.eqb _ _); [apply quiet_give | apply quiet_throw].
Qed.

Lemma quiet_on_failure (lead_data : option LeadData) (e : exn) :
  quiet (on_failure lead_data e).
Proof.
  unfold on_failure.
  destruct e;
    repeat first [ apply quiet_and_then; [|intros _]
                 | apply quiet_clear_reactions
                 | apply quiet_on_discord ].
  destruct lead_data; [apply quiet_on_discord | apply quiet_throw].
Qed.

Lemma on_discord_run (s : surroundings) (tr : list action) (call : discord_call) :
  lenient s -> call <> ClearReactions ->
  on_discord call s tr = (Return tt, tr ++ [Discord call]).
Proof.
  intros Hs Hc. unfold on_discord.
  destruct (Hs tr call) as [-> | [Hcall _]]; [reflexivity | contradiction].
Qed.

Lemma clear_reactions_run (s : surroundings) (tr : list action) :
  lenient s -> clear_reactions s tr = (Return tt, tr ++ [Discord ClearReactions]).
Proof.
  intros Hs. unfold clear_reactions, mbind, B_bind, and_then, attempted, on_discord.
  destruct (Hs tr ClearReactions) as [-> | [_ ->]]; reflexivity.
Qed.

(** The reply of each [except] clause. *)
Definition failure_mark (e : exn) : str :=
  match e with
  | AttioAPIError _ => warning_sign
  | _ => cross_mark
  end.

Definition failure_text (lead_data : option LeadData) (e : exn) : message :=
  match e, lead_data with
  | GeminiProcessingError m, _ =>
      fstring
        ([Txt (cross_mark ++ py " Failed to extract information."
                 ++ newline ++ py "Error: ")]
         ++ m
         ++ [Txt (newline ++ newline ++ py "Please try rephrasing your message.")])
  | AttioAPIError m, Some lead =>
      fstring
        ([Txt (warning_sign
                 ++ py " Information extracted but failed to save to Attio."
                 ++ newline ++ py "Error: ")]
         ++ m
         ++ [Txt (newline ++ newline ++ py "Extracted data:" ++ newline
                    ++ bullet ++ py " Type: " ++ object_type lead ++ newline
                    ++ bullet ++ py " Name: " ++ name lead ++ newline
                    ++ bullet ++ py " Company: "
                    ++ match company lead with
                       | Some (c :: rest) => c :: rest
                       | _ => py "N/A"
                       end)])
  | _, _ =>
      fstring
        ([Txt (cross_mark ++ py " An unexpected error occurred: ")]
         ++ str_of_exn e
         ++ [Txt (newline ++ newline ++ py "Please try again or contact support.")])
  end.

Lemma on_failure_run (lead_data : option LeadData) (e : exn) (s : surroundings)
    (tr : list action) :
  lenient s ->
  (lead_data = None -> forall m, e <> AttioAPIError m) ->
  on_failure lead_data e s tr
    = (Return tt,
       tr ++ [Discord ClearReactions; Discord (AddReaction (failure_mark e));
              Discord (Reply (failure_text lead_data e))]).
Proof.
  intros Hs He.
  assert (Hgo : forall mark text,
    (clear_reactions;; on_discord (AddReaction mark);; on_discord (Reply text)) s tr
      = (Return tt,
         tr ++ [Discord ClearReactions; Discord (AddReaction mark);
                Discord (Reply text)])).
  { intros mark text. unfold mbind, B_bind, and_then.
    rewrite (clear_reactions_run _ _ Hs).
    rewrite (on_discord_run _ _ _ Hs) by discriminate.
    rewrite (on_discord_run _ _ _ Hs) by discriminate.
    rewrite <- !app_assoc. reflexivity. }
  destruct e as [m|m|msg resp|errs|cls]; try apply Hgo.
  destruct lead_data as [lead|]; [|exfalso; exact (He eq_refl m eq_refl)].
  unfold on_failure, failure_text, failure_mark.
  replace (if is_set (company lead) then default [] (company lead) else py "N/A")
    with (match company lead with Some (c :: rest) => c :: rest | _ => py "N/A" end)
    by (destruct (company lead) as [[|c rest]|]; reflexivity).
  apply Hgo.
Qed.

Lemma await_at {A} (m : M A) (s : surroundings) (tr : list action)
    (calls : list event) (o : outcome A) (added : list event) :
  outbound_calls tr = calls ->
  m (services s) calls = (o, calls ++ added) ->
  await m s tr = (o, tr ++ map Outbound added).
Proof.
  intros <-. apply await_run.
Qed.

Lemma process_lead_message_ends (text : str) (w : world) (tr : list event) :
  exists res added,
    process_lead_message text w tr = (res, tr ++ added)
    /\ Forall is_generation added /\ (1 <= length added <= 2)%nat
    /\ ((exists lead, res = Return lead)
        \/ (exists m, res = Raise (GeminiProcessingError m))).
Proof.
  destruct (call_gemini_api_cases text false w tr)
    as [res0 [added [Hrun [Hgen [Hlen Hres]]]]].
  unfold process_lead_message, try_except, mbind, M_bind, bind, lift.
  rewrite Hrun.
  destruct Hres as [[t ->] | [[t ->] | [t ->]]];
    [| eexists _, added; repeat (split; [first [reflexivity|assumption]|]); eauto ..].
  destruct (parse_gemini_response_cases t) as [[v ->] | [-> | [cls ->]]].
  - destruct (LeadData_init v) as [lead|e|] eqn:Hv.
    + eexists _, added. repeat (split; [first [reflexivity|assumption]|]). eauto.
    + destruct e; eexists _, added;
        repeat (split; [first [reflexivity|assumption]|]); eauto.
    + unfold LeadData_init in Hv. destruct v; try discriminate.
      destruct (gemini_processor.validate fields); discriminate.
  - eexists _, added. repeat (split; [first [reflexivity|assumption]|]). eauto.
  - eexists _, added. repeat (split; [first [reflexivity|assumption]|]). eauto.
Qed.

Lemma create_record_async_ends (env : environment) (lead : LeadData) (w : world)
    (tr : list event) :
  exists res added,
    AttioClient.create_record_async env lead w tr = (res, tr ++ added)
    /\ (length added <= 6)%nat /\ create_outcome res.
Proof.
  unfold AttioClient.create_record_async, AttioClient.__init__, mbind, M_bind, bind, lift.
  destruct (is_set (ATTIO_API_KEY env)); cbn [negb].
  - destruct (create_record_shape lead w tr)
      as [res [gens [posts [Hrun [_ [Hgl [_ [Hpl [Ho _]]]]]]]]].
    exists res, (gens ++ posts). split; [exact Hrun|].
    split; [rewrite length_app; lia | exact Ho].
  - eexists _, []. rewrite app_nil_r. split; [reflexivity|].
    split; [simpl; lia|]. right. left. eauto.
Qed.

(** The first part of the [try] body when Discord is lenient. *)
Lemma extract_run (message_content : str) (mentions : list N) (s : surroundings)
    (tr : list action) (r : outcome LeadData) (gens : list event) :
  lenient s ->
  strip_mentions mentions message_content <> [] ->
  process_lead_message (strip_mentions mentions message_content) (services s)
    (outbound_calls tr) = (r, outbound_calls tr ++ gens) ->
  extract message_content mentions s tr
    = (match r with
       | Return lead => Return (Some lead)
       | Raise e => Raise e
       | OutOfFuel => OutOfFuel
       end,
       tr ++ [Discord Typing; Discord (AddReaction robot)] ++ map Outbound gens).
Proof.
  intros Hs Hne Hrun. unfold extract, mbind, B_bind, and_then.
  rewrite (on_discord_run _ _ _ Hs) by discriminate.
  unfold str_eqb. rewrite bool_decide_eq_false_2 by exact Hne.
  rewrite (on_discord_run _ _ _ Hs) by discriminate.
  rewrite (await_at _ s _ (outbound_calls tr) r gens); [| |exact Hrun].
  - rewrite <- !app_assoc. destruct r; reflexivity.
  - rewrite !outbound_calls_app. cbn [outbound_calls]. rewrite !app_nil_r. reflexivity.
Qed.

(** The second part of the [try] body when Discord is lenient. *)
Lemma save_and_confirm_run (env : environment) (lead : LeadData) (s : surroundings)
    (tr : list action) (r : outcome json) (posts : list event) :
  lenient s ->
  AttioClient.create_record_async env lead (services s) (outbound_calls tr)
    = (r, outbound_calls tr ++ posts) ->
  let tr2 := tr ++ [Discord (AddReaction floppy_disk)] ++ map Outbound posts in
  save_and_confirm env lead s tr
    = match r with
      | Return created =>
          (Return tt,
           tr2 ++ [Discord ClearReactions; Discord (AddReaction check_mark);
                   Discord (Reply [Txt (_build_success_message lead created)])])
      | Raise e => (Raise e, tr2)
      | OutOfFuel => (OutOfFuel, tr2)
      end.
Proof.
  intros Hs Hrun tr2. unfold save_and_confirm, mbind, B_bind, and_then.
  rewrite (on_discord_run _ _ _ Hs) by discriminate.
  rewrite (await_at _ s _ (outbound_calls tr) r posts); [| |exact Hrun].
  - subst tr2. rewrite <- !app_assoc. destruct r as [created|e|]; try reflexivity.
    rewrite (clear_reactions_run _ _ Hs).
    rewrite (on_discord_run _ _ _ Hs) by discriminate.
    rewrite (on_discord_run _ _ _ Hs) by discriminate.
    rewrite <- !app_assoc. reflexivity.
  - rewrite !outbound_calls_app. cbn [outbound_calls]. rewrite !app_nil_r. reflexivity.
Qed.

(** The handler once the lead is extracted. *)
Lemma handle_extracted (env : environment) (message_content : str)
    (mentions : list N) (s : surroundings) (tr : list action) (lead : LeadData)
    (gens posts : list event) (r : outcome json) :
  lenient s ->
  strip_mentions mentions message_content <> [] ->
  process_lead_message (strip_mentions mentions message_content) (services s)
    (outbound_calls tr) = (Return lead, outbound_calls tr ++ gens) ->
  AttioClient.create_record_async env lead (services s) (outbound_calls tr ++ gens)
    = (r, (outbound_calls tr ++ gens) ++ posts) ->
  let tr2 :=
    tr ++ [Discord Typing; Discord (AddReaction robot)] ++ map Outbound gens
       ++ [Discord (AddReaction floppy_disk)] ++ map Outbound posts in
  handle_lead_mention env message_content mentions s tr
    = match r with
      | Return created =>
          (Return tt,
           tr2 ++ [Discord ClearReactions; Discord (AddReaction check_mark);
                   Discord (Reply [Txt (_build_success_message lead created)])])
      | Raise e => on_failure (Some lead) e s tr2
      | OutOfFuel => (OutOfFuel, tr2)
      end.
Proof.
  intros Hs Hne H1 H2 tr2.
  unfold handle_lead_mention, mbind, B_bind, and_then, attempted.
  rewrite (extract_run _ _ _ _ _ _ Hs Hne H1).
  set (tr1 := tr ++ [Discord Typing; Discord (AddReaction robot)] ++ map Outbound gens).
  assert (Hcalls : outbound_calls tr1 = outbound_calls tr ++ gens).
  { subst tr1. rewrite !outbound_calls_app, outbound_calls_map.
    cbn [outbound_calls]. reflexivity. }
  rewrite <- Hcalls in H2.
  rewrite (save_and_confirm_run _ _ _ _ _ _ Hs H2). cbv zeta.
  subst tr1 tr2. rewrite <- !app_assoc. destruct r; reflexivity.
Qed.

(** The handler when the extraction fails. *)
Lemma handle_extraction_failed (env : environment) (message_content : str)
    (mentions : list N) (s : surroundings) (tr : list action) (m : message)
    (gens : list event) :
  lenient s ->
  strip_mentions mentions message_content <> [] ->
  process_lead_message (strip_mentions mentions message_content) (services s)
    (outbound_calls tr)
    = (Raise (GeminiProcessingError m), outbound_calls tr ++ gens) ->
  handle_lead_mention env message_content mentions s tr
    = (Return tt,
       tr ++ [Discord Typing; Discord (AddReaction robot)] ++ map Outbound gens
          ++ [Discord ClearReactions; Discord (AddReaction cross_mark);
              Discord
                (Reply
                   (fstring
                      ([Txt (cross_mark ++ py " Failed to extract information."
                               ++ newline ++ py "Error: ")]
                       ++ m
                       ++ [Txt (newline ++ newline
                                  ++ py "Please try rephrasing your message.")])))]).
Proof.
  intros Hs Hne Hrun.
  unfold handle_lead_mention, mbind, B_bind, and_then, attempted.
  rewrite (extract_run _ _ _ _ _ _ Hs Hne Hrun).
  rewrite (on_failure_run None _ s _ Hs) by (intros _ m'; discriminate).
  rewrite <- !app_assoc. reflexivity.
Qed.

(** The handler on a blank message. *)
Lemma handle_blank (env : environment) (message_content : str)
    (mentions : list N) (s : surroundings) (tr : list action) :
  lenient s ->
  strip_mentions mentions message_content = [] ->
  handle_lead_mention env message_content mentions s tr
    = (Return tt, tr ++ [Discord Typing; Discord (Reply usage)]).
Proof.
  intros Hs Hblank.
  unfold handle_lead_mention, extract, mbind, B_bind, and_then, attempted.
  rewrite Hblank. change (str_eqb [] []) with true. cbv iota.
  rewrite (on_discord_run _ _ _ Hs) by discriminate.
  rewrite (on_discord_run _ _ _ Hs) by discriminate.
  unfold give. rewrite <- app_assoc. reflexivity.
Qed.

Lemma outbound_not_reply (l : list event) :
  Forall (fun a => ~ is_reply a) (map Outbound l).
Proof.
  induction l as [|ev l IH]; cbn [map]; constructor; [intros [] | exact IH].
Qed.

(** X16: a message that is empty once the mentions are taken out and
    the rest is stripped gets the usage hint and nothing else: the
    handler makes no call to the model or to the CRM, whatever Discord
    does; when Discord is lenient the handler returns after the typing
    indicator and that one reply, without any reaction. *)
Theorem blank_mention (env : environment) (message_content : str)
    (mentions : list N) (s : surroundings) (tr : list action) :
  strip_mentions mentions message_content = [] ->
  exists res added,
    handle_lead_mention env message_content mentions s tr = (res, tr ++ added)
    /\ Forall is_discord added
    /\ (lenient s ->
        res = Return tt /\ added = [Discord Typing; Discord (Reply usage)]).
Proof.
  intros Hblank.
  unfold handle_lead_mention, extract, mbind, B_bind, and_then, attempted.
  rewrite Hblank. change (str_eqb [] []) with true. cbv iota.
  unfold on_discord at 1.
  destruct (discord s tr Typing) as [cls|] eqn:Ht.
  - destruct (quiet_on_failure None (PyError cls) s (tr ++ [Discord Typing]))
      as [res [added [-> Hd]]].
    exists res, (Discord Typing :: added). rewrite <- app_assoc.
    split; [reflexivity|]. split; [constructor; [exact I | exact Hd]|].
    intros Hs. destruct (Hs tr Typing) as [H | [H _]]; congruence.
  - unfold on_discord at 1.
    destruct (discord s (tr ++ [Discord Typing]) (Reply usage)) as [cls|] eqn:Hr.
    + destruct (quiet_on_failure None (PyError cls) s
                  ((tr ++ [Discord Typing]) ++ [Discord (Reply usage)]))
        as [res [added [-> Hd]]].
      exists res, (Discord Typing :: Discord (Reply usage) :: added).
      rewrite <- !app_assoc. split; [reflexivity|].
      split; [repeat constructor; exact Hd|].
      intros Hs. destruct (Hs (tr ++ [Discord Typing]) (Reply usage)) as [H | [H _]];
        congruence.
    + exists (Return tt), [Discord Typing; Discord (Reply usage)].
      unfold give. rewrite <- app_assoc. split; [reflexivity|].
      split; [repeat constructor|]. auto.
Qed.

(** Discord refusing only to clear the reactions. *)
Definition no_manage_messages : list action -> discord_call -> option string :=
  fun _ call =>
    match call with
    | ClearReactions => Some "Forbidden"%string
    | _ => None
    end.

Lemma no_manage_messages_lenient (w : world) :
  lenient {| services := w; discord := no_manage_messages |}.
Proof.
  intros tr call. destruct call; cbn; auto.
Qed.

Definition configured : environment :=
  {| DISCORD_BOT_TOKEN := Some (py "token");
     GOOGLE_API_KEY := Some (py "key");
     ATTIO_API_KEY := Some (py "key") |}.

Lemma blank_mention_witness :
  handle_lead_mention configured (py "<@42>  <@!42> ") [42%N]
    {| services := silent_world; discord := no_manage_messages |} []
    = (Return tt, [Discord Typing; Discord (Reply usage)]).
Proof.
  destruct (blank_mention configured (py "<@42>  <@!42> ") [42%N]
              {| services := silent_world; discord := no_manage_messages |} [] eq_refl)
    as [res [added [Hrun [_ Hl]]]].
  destruct (Hl (no_manage_messages_lenient silent_world)) as [-> ->].
  exact Hrun.
Defined.

(** X17: when the extraction fails, the handler makes no call to the
    CRM: after the typing indicator and the robot reaction come the
    generation calls of the extraction and nothing else outbound; the
    reactions are cleared (a missing permission to do so is ignored),
    a cross is added and the reply carries the text of the error. *)
Theorem extraction_failure_reply (env : environment) (message_content : str)
    (mentions : list N) (s : surroundings) (tr : list action) (m : message)
    (gens : list event) :
  lenient s ->
  strip_mentions mentions message_content <> [] ->
  process_lead_message (strip_mentions mentions message_content) (services s)
    (outbound_calls tr)
    = (Raise (GeminiProcessingError m), outbound_calls tr ++ gens) ->
  handle_lead_mention env message_content mentions s tr
    = (Return tt,
       tr ++ [Discord Typing; Discord (AddReaction robot)] ++ map Outbound gens
          ++ [Discord ClearReactions; Discord (AddReaction cross_mark);
              Discord
                (Reply
                   (fstring
                      ([Txt (cross_mark ++ py " Failed to extract information."
                               ++ newline ++ py "Error: ")]
                       ++ m
                       ++ [Txt (newline ++ newline
                                  ++ py "Please try rephrasing your message.")])))])
    /\ Forall is_generation gens.
Proof.
  intros Hs Hne Hrun. split.
  - exact (handle_extraction_failed env _ _ _ _ _ _ Hs Hne Hrun).
  - destruct (process_lead_message_ends (strip_mentions mentions message_content)
                (services s) (outbound_calls tr)) as [res [added [Hrun' [Hg _]]]].
    rewrite Hrun in Hrun'. injection Hrun' as _ Heq.
    apply app_inv_head in Heq. subst added. exact Hg.
Qed.

Lemma extraction_failure_reply_witness :
  exists text,
    handle_lead_mention configured (py "<@42> hello") [42%N]
      {| services := silent_world; discord := no_manage_messages |} []
      = (Return tt,
         [Discord Typing; Discord (AddReaction robot);
          Outbound (Generate Config.GOOGLE_MODEL (full_prompt (py "hello")));
          Discord ClearReactions; Discord (AddReaction cross_mark);
          Discord (Reply text)]).
Proof.
  eexists.
  refine (proj1 (extraction_failure_reply configured (py "<@42> hello") [42%N]
                   {| services := silent_world; discord := no_manage_messages |} []
                   [Txt (py "Processing failed: API request failed: Empty response from Gemini API")]
                   [Generate Config.GOOGLE_MODEL (full_prompt (py "hello"))]
                   (no_manage_messages_lenient silent_world) _ _)).
  - vm_compute. discriminate.
  - vm_compute. reflexivity.
Defined.

(** A world in which the model answers with a person and the CRM
    accepts every call. *)
Definition obliging_world : world :=
  {| generate_content := fun _ _ _ =>
       GenText (py "{" ++ quoted "object_type" ++ py ": " ++ quoted "person"
                  ++ py ", " ++ quoted "name" ++ py ": " ++ quoted "Al" ++ py "}");
     requests_post := fun _ _ _ =>
       ok (JObj [(py "id", JObj [(py "record_id", JStr (py "rec_1"))])]) |}.

(** The same model in front of a CRM that refuses every call. *)
Definition refusing_world : world :=
  {| generate_content := generate_content obliging_world;
     requests_post := fun _ _ _ => HttpRaise (py "Read timed out.") |}.

Definition al : LeadData :=
  {| object_type := py "person"; name := py "Al"; email := None; phone := None;
     company := None; job_title := None; location := None; linkedin_url := None;
     deal_value := None; deal_stage := None; notes := None |}.

(** X18: when the lead is extracted and the record is created, the
    handler shows, in this order, the typing indicator, the robot
    reaction, the generation calls of the extraction, the disk
    reaction, the calls of the creation, the clearing of the reactions
    (a missing permission to do so is ignored), the check mark and,
    last, one reply: the confirmation built from the lead. *)
Theorem created_record_is_confirmed (env : environment) (message_content : str)
    (mentions : list N) (s : surroundings) (tr : list action) (lead : LeadData)
    (gens posts : list event) (created : json) :
  lenient s ->
  strip_mentions mentions message_content <> [] ->
  process_lead_message (strip_mentions mentions message_content) (services s)
    (outbound_calls tr) = (Return lead, outbound_calls tr ++ gens) ->
  AttioClient.create_record_async env lead (services s) (outbound_calls tr ++ gens)
    = (Return created, (outbound_calls tr ++ gens) ++ posts) ->
  handle_lead_mention env message_content mentions s tr
    = (Return tt,
       tr ++ [Discord Typing; Discord (AddReaction robot)] ++ map Outbound gens
          ++ [Discord (AddReaction floppy_disk)] ++ map Outbound posts
          ++ [Discord ClearReactions; Discord (AddReaction check_mark);
              Discord (Reply [Txt (_build_success_message lead created)])]).
Proof.
  intros Hs Hne H1 H2.
  rewrite (handle_extracted env _ _ s tr lead gens posts _ Hs Hne H1 H2).
  rewrite <- !app_assoc. reflexivity.
Qed.

Lemma created_record_is_confirmed_witness :
  handle_lead_mention configured (py "<@42> met Al") [42%N]
    {| services := obliging_world; discord := no_manage_messages |} []
    = (Return tt,
       [Discord Typing; Discord (AddReaction robot);
        Outbound (Generate Config.GOOGLE_MODEL (full_prompt (py "met Al")));
        Discord (AddReaction floppy_disk);
        Outbound (Post (records_endpoint (py "people"))
                    (_build_person_payload (_lead_data_to_dict al)));
        Discord ClearReactions; Discord (AddReaction check_mark);
        Discord
          (Reply
             [Txt (_build_success_message al
                     (JObj [(py "id",
                             JObj [(py "record_id", JStr (py "rec_1"))])]))])]).
Proof.
  refine (created_record_is_confirmed configured (py "<@42> met Al") [42%N]
            {| services := obliging_world; discord := no_manage_messages |} []
            al
            [Generate Config.GOOGLE_MODEL (full_prompt (py "met Al"))]
            [Post (records_endpoint (py "people"))
               (_build_person_payload (_lead_data_to_dict al))]
            (JObj [(py "id", JObj [(py "record_id", JStr (py "rec_1"))])])
            (no_manage_messages_lenient obliging_world) _ _ _).
  - vm_compute. discriminate.
  - vm_compute. reflexivity.
  - vm_compute. reflexivity.
Defined.

(** X19: when the lead is extracted and the creation raises
    [AttioAPIError], the handler does not raise: it clears the
    reactions, adds the warning sign and replies with the text of the
    error and with the type, the name and the company of the lead,
    [N/A] standing for a company that is unset or empty. *)
Theorem save_failure_reply (env : environment) (message_content : str)
    (mentions : list N) (s : surroundings) (tr : list action) (lead : LeadData)
    (gens posts : list event) (m : message) :
  lenient s ->
  strip_mentions mentions message_content <> [] ->
  process_lead_message (strip_mentions mentions message_content) (services s)
    (outbound_calls tr) = (Return lead, outbound_calls tr ++ gens) ->
  AttioClient.create_record_async env lead (services s) (outbound_calls tr ++ gens)
    = (Raise (AttioAPIError m), (outbound_calls tr ++ gens) ++ posts) ->
  handle_lead_mention env message_content mentions s tr
    = (Return tt,
       tr ++ [Discord Typing; Discord (AddReaction robot)] ++ map Outbound gens
          ++ [Discord (AddReaction floppy_disk)] ++ map Outbound posts
          ++ [Discord ClearReactions; Discord (AddReaction warning_sign);
              Discord
                (Reply
                   (fstring
                      ([Txt (warning_sign
                               ++ py " Information extracted but failed to save to Attio."
                               ++ newline ++ py "Error: ")]
                       ++ m
                       ++ [Txt (newline ++ newline ++ py "Extracted data:" ++ newline
                                  ++ bullet ++ py " Type: " ++ object_type lead
                                  ++ newline
                                  ++ bullet ++ py " Name: " ++ name lead ++ newline
                                  ++ bullet ++ py " Company: "
                                  ++ match company lead with
                                     | Some (c :: rest) => c :: rest
                                     | _ => py "N/A"
                                     end)])))]).
Proof.
  intros Hs Hne H1 H2.
  rewrite (handle_extracted env _ _ s tr lead gens posts _ Hs Hne H1 H2).
  rewrite (on_failure_run (Some lead) _ s _ Hs) by discriminate.
  rewrite <- !app_assoc. reflexivity.
Qed.

Lemma save_failure_reply_witness :
  exists text,
    handle_lead_mention configured (py "<@42> met Al") [42%N]
      {| services := refusing_world; discord := no_manage_messages |} []
      = (Return tt,
         [Discord Typing; Discord (AddReaction robot);
          Outbound (Generate Config.GOOGLE_MODEL (full_prompt (py "met Al")));
          Discord (AddReaction floppy_disk);
          Outbound (Post (records_endpoint (py "people"))
                      (_build_person_payload (_lead_data_to_dict al)));
          Discord ClearReactions; Discord (AddReaction warning_sign);
          Discord (Reply text)]).
Proof.
  eexists.
  refine (save_failure_reply configured (py "<@42> met Al") [42%N]
            {| services := refusing_world; discord := no_manage_messages |} []
            al
            [Generate Config.GOOGLE_MODEL (full_prompt (py "met Al"))]
            [Post (records_endpoint (py "people"))
               (_build_person_payload (_lead_data_to_dict al))]
            [Txt (py "Person creation failed: Read timed out.")]
            (no_manage_messages_lenient refusing_world) _ _ _).
  - vm_compute. discriminate.
  - vm_compute. reflexivity.
  - vm_compute. reflexivity.
Defined.

(** X20: when Discord is lenient the handler never raises, whatever
    the model and the CRM do, and every mention gets exactly one reply,
    which is the last thing the handler does; at most eight calls go
    to the model and to the CRM before it. *)
Theorem mention_answered_once (env : environment) (message_content : str)
    (mentions : list N) (s : surroundings) (tr : list action) :
  lenient s ->
  exists before text,
    handle_lead_mention env message_content mentions s tr
      = (Return tt, tr ++ before ++ [Discord (Reply text)])
    /\ Forall (fun a => ~ is_reply a) before
    /\ (length (outbound_calls before) <= 8)%nat.
Proof.
  intros Hs.
  destruct (decide (strip_mentions mentions message_content = [])) as [Hblank|Hne].
  { exists [Discord Typing], usage.
    rewrite (handle_blank env _ _ s tr Hs Hblank).
    split; [reflexivity|]. split; [repeat constructor; intros []|].
    cbn [outbound_calls length]. lia. }
  destruct (process_lead_message_ends (strip_mentions mentions message_content)
              (services s) (outbound_calls tr))
    as [r1 [gens [H1 [_ [Hgl [[lead ->] | [m ->]]]]]]].
  2:{ eexists ([Discord Typing; Discord (AddReaction robot)] ++ map Outbound gens
                 ++ [Discord ClearReactions; Discord (AddReaction cross_mark)]), _.
      rewrite (handle_extraction_failed env _ _ s tr m gens Hs Hne H1).
      split; [rewrite <- !app_assoc; reflexivity|]. split.
      - repeat (apply Forall_app; split); try apply outbound_not_reply;
          repeat constructor; intros [].
      - rewrite !outbound_calls_app, outbound_calls_map. cbn [outbound_calls app].
        rewrite app_nil_r. lia. }
  destruct (create_record_async_ends env lead (services s) (outbound_calls tr ++ gens))
    as [r2 [posts [H2 [Hpl Ho]]]].
  rewrite (handle_extracted env _ _ s tr lead gens posts r2 Hs Hne H1 H2).
  assert (Hcount : forall tail,
    Forall is_discord tail ->
    (length (outbound_calls
       ([Discord Typing; Discord (AddReaction robot)] ++ map Outbound gens
          ++ [Discord (AddReaction floppy_disk)] ++ map Outbound posts ++ tail))
     <= 8)%nat).
  { intros tail Ht. rewrite !outbound_calls_app, !outbound_calls_map.
    rewrite (outbound_calls_discord tail Ht). cbn [outbound_calls app].
    rewrite app_nil_r, length_app. lia. }
  assert (Hquiet : forall mark,
    Forall (fun a => ~ is_reply a)
      ([Discord Typing; Discord (AddReaction robot)] ++ map Outbound gens
         ++ [Discord (AddReaction floppy_disk)] ++ map Outbound posts
         ++ [Discord ClearReactions; Discord (AddReaction mark)])).
  { intros mark.
    repeat (apply Forall_app; split); try apply outbound_not_reply;
      repeat constructor; intros []. }
  destruct Ho as [[created ->] | [[m ->] | ->]].
  - eexists _, _. split; [|split; [apply (Hquiet check_mark)|]].
    + rewrite <- !app_assoc. reflexivity.
    + apply Hcount. repeat constructor.
  - rewrite (on_failure_run (Some lead) _ s _ Hs) by discriminate.
    eexists _, _. split; [|split; [apply (Hquiet warning_sign)|]].
    + rewrite <- !app_assoc. reflexivity.
    + apply Hcount. repeat constructor.
  - rewrite (on_failure_run (Some lead) _ s _ Hs) by discriminate.
    eexists _, _. split; [|split; [apply (Hquiet cross_mark)|]].
    + rewrite <- !app_assoc. reflexivity.
    + apply Hcount. repeat constructor.
Qed.

Lemma mention_answered_once_witness :
  exists before text,
    handle_lead_mention configured (py "<@42> met Al") [42%N]
      {| services := refusing_world; discord := no_manage_messages |} []
      = (Return tt, before ++ [Discord (Reply text)])
    /\ Forall (fun a => ~ is_reply a) before
    /\ (length (outbound_calls before) <= 8)%nat.
Proof.
  exact (mention_answered_once configured (py "<@42> met Al") [42%N]
           {| services := refusing_world; discord := no_manage_messages |} []
           (no_manage_messages_lenient refusing_world)).
Defined.

End Mentions.

(** ** The attribute that the repair creates *)

Section AttributeCreation.

Import attio_client.

Lemma settings_for_text (attribute_slug : str) :
  attribute_slug <> py "companies" ->
  cfg_type (settings_for attribute_slug) = py "text"
  /\ cfg_is_multiselect (settings_for attribute_slug) = false.
Proof.
  intros Hne. unfold settings_for.
  destruct (attribute_config !! attribute_slug) as [config|] eqn:E;
    [|split; reflexivity].
  unfold attribute_config in E. apply elem_of_list_to_map_2 in E.
  repeat (apply elem_of_cons in E as [E|E];
          [injection E as -> ->; first [split; reflexivity | contradiction]|]).
  apply elem_of_nil in E. contradiction.
Qed.

(** X21: the repair creates the attribute with exactly one HTTP call,
    to the attributes endpoint of the object, and either returns or
    raises [AttioAPIError]; the attribute it asks for has the missing
    slug as [api_slug] and is never required nor unique; it is a
    single-valued text attribute with an empty [config], except for
    the slug [companies], which is created as a multi-valued reference
    to the companies. *)
Theorem attribute_creation (object_slug attribute_slug : str) (w : world)
    (tr : list event) :
  exists res fields,
    attribute_payload attribute_slug = JObj [(py "data", JObj fields)]
    /\ _create_attribute object_slug attribute_slug w tr
         = (res,
            tr ++ [Post (attributes_endpoint object_slug)
                     (attribute_payload attribute_slug)])
    /\ (res = Return tt \/ exists msg, res = Raise (AttioAPIError msg))
    /\ assoc (py "api_slug") fields = Some (JStr attribute_slug)
    /\ assoc (py "is_required") fields = Some (JBool false)
    /\ assoc (py "is_unique") fields = Some (JBool false)
    /\ (attribute_slug <> py "companies" ->
        assoc (py "type") fields = Some (JStr (py "text"))
        /\ assoc (py "is_multiselect") fields = Some (JBool false)
        /\ assoc (py "config") fields = Some (JObj []))
    /\ (attribute_slug = py "companies" ->
        assoc (py "type") fields = Some (JStr (py "reference"))
        /\ assoc (py "is_multiselect") fields = Some (JBool true)
        /\ assoc (py "config") fields
             = Some (JObj [(py "reference",
                            JObj [(py "target_object", JStr (py "companies"))])])).
Proof.
  destruct (create_attribute_run object_slug attribute_slug w tr)
    as [res [Hrun [Hbad Hgood]]].
  exists res. eexists. split; [unfold attribute_payload; cbv zeta; reflexivity|].
  split; [exact Hrun|]. split.
  { destruct (refused _); [right; exact (Hbad eq_refl) | left; exact (Hgood eq_refl)]. }
  split; [|split; [|split; [|split]]].
  - destruct (str_eqb (cfg_type (settings_for attribute_slug)) (py "reference")),
      (cfg_reference_object (settings_for attribute_slug));
      rewrite assoc_set_ne by discriminate; reflexivity.
  - destruct (str_eqb (cfg_type (settings_for attribute_slug)) (py "reference")),
      (cfg_reference_object (settings_for attribute_slug));
      rewrite assoc_set_ne by discriminate; reflexivity.
  - destruct (str_eqb (cfg_type (settings_for attribute_slug)) (py "reference")),
      (cfg_reference_object (settings_for attribute_slug));
      rewrite assoc_set_ne by discriminate; reflexivity.
  - intros Hne. destruct (settings_for_text attribute_slug Hne) as [Ht Hm].
    rewrite Ht, Hm.
    change (str_eqb (py "text") (py "reference")) with false. cbv iota.
    split; [rewrite assoc_set_ne by discriminate; reflexivity|].
    split; [rewrite assoc_set_ne by discriminate; reflexivity|].
    apply assoc_set_eq.
  - intros ->. vm_compute. auto.
Qed.

End AttributeCreation.
